(** * Synthetic Q&A generation: a shallow embedding of the generation engine

    The development follows the Python sources under
    [synthetic_data_generation/]:

    - [models/]                      the records [QA], [QATagged], ...
    - [search/search_service.py]     the retrieval interface (abstract there)
    - [diversity/diversity_generator.py]
    - [generators/base_generator.py] [_retry_logic], the verification
                                     predicates and [_build_context]
    - [generators/single_document_grounding/*.py]
                                     [generate] and the two strategies
    - [qa_factory/qa_factory.py]     the batch allocator

    Conventions.  A Python [float] is a binary64 number, rendered as Rocq's
    primitive [float]: sums, products and comparisons round and compare as
    IEEE 754 prescribes, infinities and NaN included, and [int(x)] truncates
    the exact value of a finite [x] toward zero and raises on the others.
    The built-in [sum] adds from left to right (as CPython does before 3.12;
    later versions compensate the rounding of the partial sums).  Only the
    weights handed to [np.random.choice] are read as exact rationals.  The
    search index, the language model and numpy's random source are opaque
    capabilities that thread a world of type [W]; they are assumed to
    return (a capability that raises ends the run and is not modelled), but
    what they return is arbitrary: a completion may lack its parsed value
    and a draw may be infinite.  Of the file system only the directory name
    matters: [os.makedirs] fails on the empty name, and every other failure
    of the disk is outside the model.  Generator objects live in a heap indexed by
    their address, so that two references to one object share its retry
    counter.  The trace of a run records the spans opened by the tracing
    decorators and the lines printed, in order. *)

From Stdlib Require Import Floats.
From Stdlib Require Import ZArith QArith Qround Qabs Qpower Lqa Lia String Ascii List.
From stdpp Require Import base strings list gmap functions pretty.

Local Open Scope string_scope.
Local Open Scope list_scope.

Set Warnings "-inexact-float".

(** ** Python values *)

Definition newline : string := String (ascii_of_nat 10) EmptyString.

(** Truthiness of a [str]: the empty string is falsy. *)
Definition str_truthy (s : string) : bool :=
  match s with EmptyString => false | String _ _ => true end.

(** The exact value of a float: [(-1)^s * m * 2^e] for a finite one (and 0
    for the infinities and NaN, which [is_finite] tells apart). *)
Definition SF_value (x : spec_float) : Q :=
  match x with
  | S754_finite s m e => (inject_Z (cond_Zopp s (Zpos m)) * 2 ^ e)%Q
  | _ => 0%Q
  end.

Definition float_value (x : float) : Q := SF_value (Prim2SF x).

Definition is_finite (x : float) : bool :=
  match Prim2SF x with
  | S754_zero _ | S754_finite _ _ _ => true
  | _ => false
  end.

(** Truncation of a rational toward zero. *)
Definition truncate (x : Q) : Z :=
  if Qle_bool 0 x then Qfloor x else Qceiling x.

(** A number that is an [int] or a [float], for the values whose type
    depends on the run ([sum] of no float is the [int] 0). *)
Inductive number :=
| int_ (n : Z)
| float_ (x : float).

(** Built-in [max(a, b)]: the first argument unless the second is larger. *)
Definition py_max (a b : float) : float := if (a <? b)%float then b else a.

(** Built-in [sum] over floats, starting from the [int] 0: [0 + x] is
    [0.0 + x], and the partial sums are added from left to right. *)
Definition builtin_sum (l : list float) : number :=
  match l with
  | [] => int_ 0
  | x :: rest => float_ (fold_left PrimFloat.add rest (0 + x)%float)
  end.

(** The float an arithmetic operation sees in place of a number (of the
    [int]s only 0 occurs, and is converted exactly). *)
Definition as_float (n : number) : float :=
  match n with
  | int_ n => SF2Prim (binary_normalize prec emax n 0 false)
  | float_ x => x
  end.

(** [np.sum] of the frequencies, read as exact rationals. *)
Definition py_sum (l : list Q) : Q := fold_left Qplus l 0%Q.

(** ** models/ *)

Record QA := mkQA {
  question : string;
  ground_truth_answer : string;
  chunk_ids : list string
}.

Record QAVerificationResult := mkVerification {
  is_correct : bool;
  reason : string
}.

Record LengthDistributionConfig := mkConfig {
  mean : float;
  sigma : float;
  shift : float
}.

Record DiversityInjection := mkInjection {
  response_length : Z;
  tone_injection : string;
  disruptive_injection : string;
  language_injection : string
}.

Record QATagged := mkQATagged {
  tagged_question : string;
  tagged_ground_truth_answer : string;
  tags : gmap string string;
  diversity_injection : DiversityInjection;
  tagged_chunk_ids : list string;
  chunk_content : list string
}.

(** ** Exceptions, console output and tracing spans *)

(** The exceptions the engine itself raises or runs into.  A [ValueError]
    carries its message; the two messages of [QAFactory.__init__] end in a
    formatted number, kept as the number. *)
Inductive exception :=
| ValueError (msg : string)
| ValueError_got (msg : string) (got : number)
| AttributeError (msg : string)
| OverflowError (msg : string)
| FileNotFoundError (msg : string).

Definition cannot_convert_nan : exception :=
  ValueError "cannot convert float NaN to integer".

Definition cannot_convert_infinity : exception :=
  OverflowError "cannot convert float infinity to integer".

Definition int_too_large : exception :=
  OverflowError "int too large to convert to float".

(** [int(x)] on a float. *)
Definition int_of_float (x : float) : exception + Z :=
  match Prim2SF x with
  | S754_nan => inl cannot_convert_nan
  | S754_infinity _ => inl cannot_convert_infinity
  | _ => inr (truncate (float_value x))
  end.

(** The conversion of an [int] operand of a float operation. *)
Definition float_of_int (n : Z) : exception + float :=
  let x := SF2Prim (binary_normalize prec emax n 0 false) in
  if is_finite x then inr x else inl int_too_large.

(** The lines the engine prints, one constructor per [print] call. *)
Inductive stdout_line :=
| Error_building_context (e : exception)
    (* f"Error building context: {e}" *)
| Generation_failed_retrying
    (* "The Q&A generation failed, retrying..." *)
| Retrying_Attempt (retry_count : nat)
    (* f"Retrying... Attempt {self.retry_count}" *)
| Max_retries_reached
    (* "Max retries reached. Giving up. Stop program" *)
| Function_call_retrying
    (* "Function call - Not possible to generate a valid Q&A according to
        the instructions, retrying..." *)
| QA_validation_failed (reason : string)
    (* f"Q&A validation failed: {qa_validation.reason}" *)
| QA_verification_failed (reason : string)
    (* f"Q&A verification failed: {qa_validation.reason}" *)
| Saved_samples (n : nat) (full_path : string)
    (* f"Saved {len(qa_samples)} Q&A samples to {full_path}" *)
| Successfully_generated (n : nat).
    (* f"Successfully generated {len(samples)} total Q&A samples" *)

(** What a run leaves behind, in order: the spans opened by [@traced(name)]
    and [start_as_current_span(name)], the printed lines, one tick per
    [pbar.update(1)], and the JSON file written at the end. *)
Inductive event :=
| span (name : string)
| print (line : stdout_line)
| pbar_update
| json_dump (samples : list QATagged) (full_path : string).

(** ** The two generator classes and their objects *)

Inductive generator_class :=
| SingleHopOneDocGenerator
| MultiHopOneDocGenerator.

Record generator_object := mkGenerator {
  cls : generator_class;
  diversity_generator : LengthDistributionConfig;
  retry_count : nat
}.

(** [BaseGenerator.MAX_RETRIES] *)
Definition MAX_RETRIES : nat := 10.

(** ** Prompts

    The system prompts are fixed instruction texts with the question and
    the context interpolated.  The texts themselves play no role below, so a
    prompt is kept as its template together with the interpolated fields. *)
Inductive prompt :=
| generation_prompt (base : generator_class)
    (formatted_diversity : string) (context : string)
| answer_not_in_other_chunks_prompt (question context : string)
| chunk_connection_prompt (question context : string)
| requires_multi_hop_prompt (question context : string).

(** [choices[0].message] of a completion parsed against [QA]: the names of
    the functions of its tool calls, and the parsed value, if any.  Of a
    completion parsed against [QAVerificationResult] the code reads the
    parsed value only. *)
Record completion := mkCompletion {
  tool_calls : list string;
  parsed : option QA
}.

(** ** The opaque capabilities *)

(** [search/search_service.py]: every method is abstract in the source. *)
Class SearchService (W : Type) := {
  search_record : Type;
  get_random_chunk : W -> search_record * W;
  get_all_chunks_of_document : search_record -> W -> list search_record * W;
  qa_search : QA -> W -> list search_record * W;
  get_search_records_by_ids : list string -> W -> list search_record * W;
  sort_chunks_by_part_number : list search_record -> list search_record;
  get_search_record_title : search_record -> string;
  get_search_record_id : search_record -> string;
  get_search_record_content : search_record -> string
}.

(** [llm_client.beta.chat.completions.parse], by response format. *)
Class LLMClient (W : Type) := {
  parse_QA : prompt -> W -> completion * W;
  parse_QAVerificationResult : prompt -> W -> option QAVerificationResult * W
}.

(** [np.random] and the clock used for the output file name. *)
Class Entropy (W : Type) := {
  lognormal : float -> float -> W -> float * W;
  choice : list string -> list Q -> W -> string * W;
  strftime_now : W -> string * W
}.

(** ** The state of a run and its monad *)

Section Engine.

Context {W : Type} `{!SearchService W, !LLMClient W, !Entropy W}.

Record State := mkState {
  heap : nat -> generator_object;
  world : W;
  trace : list event
}.

Inductive result (A : Type) :=
| Ok (a : A)
| Raise (e : exception)
| Exit (code : Z)
| OutOfFuel.
Global Arguments Ok {A} a.
Global Arguments Raise {A} e.
Global Arguments Exit {A} code.
Global Arguments OutOfFuel {A}.

Definition M (A : Type) : Type := State -> result A * State.

Definition ret {A} (a : A) : M A := fun st => (Ok a, st).

Definition bind {A B} (m : M A) (k : A -> M B) : M B :=
  fun st =>
    match m st with
    | (Ok a, st') => k a st'
    | (Raise e, st') => (Raise e, st')
    | (Exit c, st') => (Exit c, st')
    | (OutOfFuel, st') => (OutOfFuel, st')
    end.

Definition raise {A} (e : exception) : M A := fun st => (Raise e, st).

(** [sys.exit(code)] *)
Definition sys_exit {A} (code : Z) : M A := fun st => (Exit code, st).

Definition out_of_fuel {A} : M A := fun st => (OutOfFuel, st).

(** [try: m except Exception as e: handler(e)].  [SystemExit] is not an
    [Exception] and passes through. *)
Definition try_except {A} (m : M A) (handler : exception -> M A) : M A :=
  fun st =>
    match m st with
    | (Raise e, st') => handler e st'
    | r => r
    end.

(** The state after the events [t] have been appended to the trace. *)
Definition logged (st : State) (t : list event) : State :=
  mkState (heap st) (world st) (trace st ++ t).

Definition log (e : event) : M unit :=
  fun st => (Ok tt, logged st [e]).

(** A call of an opaque capability. *)
Definition call {A} (f : W -> A * W) : M A :=
  fun st => let '(a, w) := f (world st) in
            (Ok a, mkState (heap st) w (trace st)).

Definition get_retry_count (self : nat) : M nat :=
  fun st => (Ok (retry_count (heap st self)), st).

Definition set_retry_count (self : nat) (n : nat) : M unit :=
  fun st =>
    let o := heap st self in
    (Ok tt, mkState (<[self := mkGenerator (cls o) (diversity_generator o) n]> (heap st))
                    (world st) (trace st)).

Definition get_self (self : nat) : M generator_object :=
  fun st => (Ok (heap st self), st).

End Engine.

Notation "x <- c1 ;; c2" := (bind c1 (fun x => c2))
  (at level 100, c1 at next level, right associativity).
Notation "c1 ;;; c2" := (bind c1 (fun _ => c2))
  (at level 100, right associativity).

(** The decorator [@traced(name)] and [with start_as_current_span(name)]. *)
Definition traced {W A} (name : string) (m : @M W A) : @M W A :=
  log (span name) ;;; m.

(** ** generators/base_generator.py: [_build_context] *)

Section BuildContext.

Context {W : Type} `{!SearchService W}.

Definition title_line (current_title : string) : string :=
  "Document Title: " +:+ current_title.

Definition chunk_block (result : search_record) : string :=
  "CHUNK_ID: " +:+ get_search_record_id result +:+ newline
  +:+ "Content: " +:+ get_search_record_content result.

(** The body of the [for] loop, with [context_parts] and [previous_title]
    as accumulators ([previous_title = None] before the first result). *)
Fixpoint build_context_loop (search_results : list search_record)
    (context_parts : list string) (previous_title : option string) : list string :=
  match search_results with
  | [] => context_parts
  | result :: rest =>
      let current_title := get_search_record_title result in
      let '(context_parts, previous_title) :=
        if decide (Some current_title <> previous_title) then
          ((if str_truthy current_title
            then context_parts ++ [title_line current_title]
            else context_parts),
           Some current_title)
        else (context_parts, previous_title) in
      build_context_loop rest (context_parts ++ [chunk_block result]) previous_title
  end.

Definition has_results (search_results : list search_record) : bool :=
  match search_results with [] => false | _ :: _ => true end.

Definition no_search_results : exception :=
  ValueError "No search results found. Cannot build context.".

Definition build_context_pure (search_results : list search_record)
  : exception + string :=
  let context_parts := build_context_loop search_results [] None in
  if has_results search_results
  then inr (String.concat (newline +:+ newline) context_parts)
  else inl no_search_results.

(** The parts a fragment contributes, given the title of the fragment
    immediately before it ([None] for the first fragment), in two readings.

    [parts_as_specified]: a title header whenever the title differs from the
    preceding one, then the labelled block.

    [parts_as_built]: the same, except that an empty title gets no header. *)
Definition parts_as_specified (preceding : option string) (result : search_record)
  : list string :=
  let current_title := get_search_record_title result in
  (if bool_decide (preceding = Some current_title) then []
   else [title_line current_title]) ++ [chunk_block result].

Definition parts_as_built (preceding : option string) (result : search_record)
  : list string :=
  let current_title := get_search_record_title result in
  (if bool_decide (preceding = Some current_title) then []
   else if str_truthy current_title then [title_line current_title] else [])
  ++ [chunk_block result].

(** The title preceding each fragment of a sequence. *)
Definition preceding_titles (search_results : list search_record) : list (option string) :=
  None :: map (fun r => Some (get_search_record_title r)) search_results.

Definition context_of (parts : option string -> search_record -> list string)
    (search_results : list search_record) : string :=
  String.concat (newline +:+ newline)
    (concat (zip_with parts (preceding_titles search_results) search_results)).

End BuildContext.

(** ** diversity/diversity_generator.py *)

Section DiversityGenerator.

Context {W : Type} `{!Entropy W}.

(** [_get_response_length]: the draw plus the shift, clamped from below by
    the shift, then converted with [int]. *)
Definition _get_response_length (config : LengthDistributionConfig) : @M W Z :=
  draw <- call (lognormal (mean config) (sigma config)) ;;
  let length := (draw + shift config)%float in
  match int_of_float (py_max (shift config) length) with
  | inr n => ret n
  | inl e => raise e
  end.

(** [np.array(frequencies) / np.sum(frequencies)] *)
Definition normalized (frequencies : list Q) : list Q :=
  map (fun f => (f / py_sum frequencies)%Q) frequencies.

Definition tones : list (string * Q) :=
  [("", 5%Q); ("formal", 1%Q); ("informal", 3#2); ("conversational", 2%Q)].

Definition disruptive_phrases : list (string * Q) :=
  [("", 5%Q);
   ("Include a few spelling errors in the question you generate.", 3#2);
   ("Introduce a slight ambiguity in the question you generate.", 1%Q)].

Definition languages : list (string * Q) :=
  [("English", 10%Q); ("Swedish", 1%Q)].

Definition weighted_choice (table : list (string * Q)) : @M W string :=
  call (choice (map fst table) (normalized (map snd table))).

Definition _get_tone_injection : @M W string := weighted_choice tones.
Definition _get_disruptive_injection : @M W string := weighted_choice disruptive_phrases.
Definition _get_language_injection : @M W string := weighted_choice languages.

Definition get_diversity_injection (config : LengthDistributionConfig)
  : @M W DiversityInjection :=
  response_length <- _get_response_length config ;;
  tone_injection <- _get_tone_injection ;;
  disruptive_injection <- _get_disruptive_injection ;;
  language_injection <- _get_language_injection ;;
  ret (mkInjection response_length tone_injection disruptive_injection language_injection).

Definition get_injection_as_string (injection : DiversityInjection) : string :=
  "Response Length: " +:+ pretty (response_length injection) +:+ newline
  +:+ "Tone Injection: " +:+ tone_injection injection +:+ newline
  +:+ "Disruptive Injection: " +:+ disruptive_injection injection +:+ newline
  +:+ "Language Injection: " +:+ language_injection injection +:+ newline.

End DiversityGenerator.

(** ** generators/: verification predicates, retry logic and [generate] *)

Section Generators.

Context {W : Type} `{!SearchService W, !LLMClient W, !Entropy W}.

Definition _build_context (search_results : list search_record) : @M W string :=
  traced "generator._build_context"
    match build_context_pure search_results with
    | inr context => ret context
    | inl e => raise e
    end.

(** [try: context = self._build_context(results)] with the handler's
    [print]; [None] stands for the handler having run. *)
Definition try_build_context (results : list search_record) : @M W (option string) :=
  try_except
    (context <- _build_context results ;; ret (Some context))
    (fun e => log (print (Error_building_context e)) ;;; ret None).

Definition none_has_no_is_correct : exception :=
  AttributeError "'NoneType' object has no attribute 'is_correct'".

(** The model call shared by the three predicates, under its span: the
    parsed value is read off the completion and its fields are recorded on
    the span, which fails if there is no parsed value. *)
Definition judge (system_prompt : prompt) : @M W QAVerificationResult :=
  traced "generator.openai.chat" (
    parsed <- call (parse_QAVerificationResult system_prompt) ;;
    match parsed with
    | Some qa_validation => ret qa_validation
    | None => raise none_has_no_is_correct
    end).

(** [BaseGenerator._verify_qa_answer_not_in_other_chunks] (its only callers
    are commented out in both strategies). *)
Definition _verify_qa_answer_not_in_other_chunks (qa : QA) : @M W QAVerificationResult :=
  traced "generator.verify_answer_uniqueness" (
    results <- call (qa_search qa) ;;
    if negb (has_results results) then
      ret (mkVerification true "No other relevant chunks found with similar content")
    else
      ctx <- try_build_context results ;;
      match ctx with
      | None => ret (mkVerification false "Error building context")
      | Some context =>
          qa_validation <- judge (answer_not_in_other_chunks_prompt (question qa) context) ;;
          (if negb (is_correct qa_validation)
           then log (print (QA_validation_failed (reason qa_validation)))
           else ret tt) ;;;
          ret qa_validation
      end).

(** [BaseGenerator._verify_qa_chunk_connection]: the grounding check. *)
Definition _verify_qa_chunk_connection (qa : QA) : @M W QAVerificationResult :=
  traced "generator.verify_chunk_connection" (
    results <- call (get_search_records_by_ids (chunk_ids qa)) ;;
    if negb (has_results results) then
      ret (mkVerification false "No chunks found for the given chunk IDs")
    else
      ctx <- try_build_context results ;;
      match ctx with
      | None => ret (mkVerification false "Error building context")
      | Some context =>
          qa_validation <- judge (chunk_connection_prompt (question qa) context) ;;
          (if negb (is_correct qa_validation)
           then log (print (QA_validation_failed (reason qa_validation)))
           else ret tt) ;;;
          ret qa_validation
      end).

(** [MultiHopOneDocGenerator._verify_qa_question_requires_multi_hop] *)
Definition _verify_qa_question_requires_multi_hop (qa : QA) : @M W QAVerificationResult :=
  traced "generator.verify_qa_question_requires_multi_hop" (
    results <- call (get_search_records_by_ids (chunk_ids qa)) ;;
    ctx <- try_build_context results ;;
    match ctx with
    | None => ret (mkVerification false "Error building context")
    | Some context =>
        qa_validation <- judge (requires_multi_hop_prompt (question qa) context) ;;
        (if negb (is_correct qa_validation)
         then log (print (QA_verification_failed (reason qa_validation)))
         else ret tt) ;;;
        ret qa_validation
    end).

Definition not_found_reason (qa : QA) (detail : string) : string :=
  "Answer '" +:+ ground_truth_answer qa
  +:+ "' not found in specified chunks. Detailed reason: " +:+ detail.

Definition no_multi_hop_reason (qa : QA) (detail : string) : string :=
  "Question '" +:+ question qa
  +:+ "' does not require multi-hop reasoning. Detailed reason: " +:+ detail.

Definition all_checks_passed : QAVerificationResult :=
  mkVerification true "All validation checks passed.".

(** [_verify_qa], by class of [self]. *)
Definition _verify_qa (c : generator_class) (qa : QA) : @M W QAVerificationResult :=
  traced "generator.verify_qa"
    match c with
    | SingleHopOneDocGenerator =>
        answer_has_chunk_connection <- _verify_qa_chunk_connection qa ;;
        if negb (is_correct answer_has_chunk_connection) then
          ret (mkVerification false
                 (not_found_reason qa (reason answer_has_chunk_connection)))
        else ret all_checks_passed
    | MultiHopOneDocGenerator =>
        answer_has_chunk_connection <- _verify_qa_chunk_connection qa ;;
        if negb (is_correct answer_has_chunk_connection) then
          ret (mkVerification false
                 (not_found_reason qa (reason answer_has_chunk_connection)))
        else
          question_requires_multi_hop <- _verify_qa_question_requires_multi_hop qa ;;
          if negb (is_correct question_requires_multi_hop) then
            ret (mkVerification false
                   (no_multi_hop_reason qa (reason question_requires_multi_hop)))
          else ret all_checks_passed
    end.

Definition _get_tags (c : generator_class) : gmap string string :=
  match c with
  | SingleHopOneDocGenerator => {[ "question_type" := "single_hop_same_doc" ]}
  | MultiHopOneDocGenerator => {[ "question_type" := "multi_hop_same_doc" ]}
  end.

Definition class_name (c : generator_class) : string :=
  match c with
  | SingleHopOneDocGenerator => "SingleHopOneDocGenerator"
  | MultiHopOneDocGenerator => "MultiHopOneDocGenerator"
  end.

(** [BaseGenerator.__init__] on the object at address [self]. *)
Definition BaseGenerator_init (self : nat) (c : generator_class)
    (diversity_generator : LengthDistributionConfig) : @M W unit :=
  fun st =>
    (Ok tt, mkState (<[self := mkGenerator c diversity_generator 0]> (heap st))
                    (world st) (trace st)).

(** [BaseGenerator._retry_logic]; [generate] is the method it calls back. *)
Definition _retry_logic (generate : nat -> @M W QATagged) (self : nat) : @M W QATagged :=
  traced "generator.retry_logic" (
    retry_count <- get_retry_count self ;;
    if (retry_count <? MAX_RETRIES)%nat then
      log (print Generation_failed_retrying) ;;;
      set_retry_count self (retry_count + 1)%nat ;;;
      retry_count <- get_retry_count self ;;
      log (print (Retrying_Attempt retry_count)) ;;;
      generate self
    else
      log (print Max_retries_reached) ;;;
      sys_exit 1).

Definition _build_system_prompt (c : generator_class) (context : string)
    (diversity_injection : DiversityInjection) : @M W prompt :=
  traced "generator.build_system_prompt" (
    let formatted_diversity := get_injection_as_string diversity_injection in
    ret (generation_prompt c formatted_diversity context)).

Definition _get_chunk_content_by_ids (chunk_ids : list string) : @M W (list string) :=
  records <- call (get_search_records_by_ids chunk_ids) ;;
  ret (map get_search_record_content records).

(** The model was offered the single tool [_retry_logic]; this is the test
    on [tool_calls] and on the name of the first call. *)
Definition invokes_retry (qa_completion : completion) : bool :=
  match tool_calls qa_completion with
  | [] => false
  | name :: _ => bool_decide (name = "_retry_logic")
  end.

(** [BaseSingleDocumentQAGenerator.generate], block by block: [seed_chunks],
    [try_build_context], [draft], [after_draft], put together in
    [generate_body]. *)

(** Seeding: a random chunk, all chunks of its document, sorted. *)
Definition seed_chunks : @M W (list search_record) :=
  random_chunk <- call get_random_chunk ;;
  all_chunks_for_document <- call (get_all_chunks_of_document random_chunk) ;;
  ret (sort_chunks_by_part_number all_chunks_for_document).

(** Drafting: the diversity injection, the system prompt, the model call. *)
Definition draft (self_object : generator_object) (context : string)
  : @M W (DiversityInjection * completion) :=
  diversity_injection <- get_diversity_injection (diversity_generator self_object) ;;
  system_prompt <- _build_system_prompt (cls self_object) context diversity_injection ;;
  qa_completion <- traced "generator.openai.chat" (call (parse_QA system_prompt)) ;;
  ret (diversity_injection, qa_completion).

Definition none_has_no_question : exception :=
  AttributeError "'NoneType' object has no attribute 'question'".

(** From the test on the tool call to the tagged result (the rest of the
    method once the completion is there). *)
Definition after_draft (generate : nat -> @M W QATagged) (self : nat)
    (self_object : generator_object) (diversity_injection : DiversityInjection)
    (qa_completion : completion) : @M W QATagged :=
  if invokes_retry qa_completion then
    log (print Function_call_retrying) ;;;
    _retry_logic generate self
  else
    match parsed qa_completion with
    | None => raise none_has_no_question
    | Some qa =>
        verify_qa_result <- _verify_qa (cls self_object) qa ;;
        if negb (is_correct verify_qa_result) then
          _retry_logic generate self
        else
          chunk_content <- _get_chunk_content_by_ids (chunk_ids qa) ;;
          ret (mkQATagged (question qa) (ground_truth_answer qa)
                 (_get_tags (cls self_object)) diversity_injection
                 (chunk_ids qa) chunk_content)
    end.

Definition generate_body (generate : nat -> @M W QATagged) (self : nat) : @M W QATagged :=
  traced "generator.generate" (
    all_chunks_for_document_sorted <- seed_chunks ;;
    ctx <- try_build_context all_chunks_for_document_sorted ;;
    match ctx with
    | None => _retry_logic generate self
    | Some context =>
        self_object <- get_self self ;;
        drafted <- draft self_object context ;;
        let '(diversity_injection, qa_completion) := drafted in
        after_draft generate self self_object diversity_injection qa_completion
    end).

(** [generate] and [_retry_logic] call each other; the recursion is unrolled
    [fuel] times. *)
Fixpoint generate_fuel (fuel : nat) (self : nat) : @M W QATagged :=
  match fuel with
  | O => out_of_fuel
  | S fuel' => generate_body (generate_fuel fuel') self
  end.

(** Every recursive call is preceded by an increment of [retry_count] below
    [MAX_RETRIES], so this much fuel is never used up (see
    [generate_unfold] and [generate_terminates]). *)
Definition generate (self : nat) : @M W QATagged :=
  fun st => generate_fuel (S (MAX_RETRIES - retry_count (heap st self))) self st.

End Generators.

(** ** qa_factory/qa_factory.py *)

Section QAFactory.

Context {W : Type} `{!SearchService W, !LLMClient W, !Entropy W}.

(** A factory holds references to generator objects (addresses in the
    heap) with their percentages, in the order given. *)
Record QAFactory := mkQAFactory {
  generators : list (nat * float);
  output_folder : string
}.

(** [0.0 <= percentage <= 1.0] *)
Definition percentage_in_range (percentage : float) : bool :=
  (0 <=? percentage)%float && (percentage <=? 1)%float.

(** The second validation loop: the first percentage out of range. *)
Fixpoint first_out_of_range (generators : list (nat * float)) : option float :=
  match generators with
  | [] => None
  | (_, percentage) :: rest =>
      if percentage_in_range percentage then first_out_of_range rest
      else Some percentage
  end.

(** [abs(total_percentage - 1.0) > 0.01] *)
Definition sum_is_off (total_percentage : number) : bool :=
  (0.01 <? abs (as_float total_percentage - 1))%float.

Definition QAFactory_init (generators : list (nat * float)) (output_folder : string)
  : @M W QAFactory :=
  let total_percentage := builtin_sum (map snd generators) in
  if sum_is_off total_percentage then
    raise (ValueError_got "Generator percentages must sum to 1.0, got " total_percentage)
  else
    match first_out_of_range generators with
    | Some percentage =>
        raise (ValueError_got "Percentage must be between 0.0 and 1.0, got "
                 (float_ percentage))
    | None => ret (mkQAFactory generators output_folder)
    end.

Definition ends_with_slash (a : string) : bool :=
  match rev (list_ascii_of_string a) with
  | c :: _ => bool_decide (c = "/"%char)
  | [] => false
  end.

(** [os.path.join(a, b)] on two components (POSIX). *)
Definition os_path_join (a b : string) : string :=
  match b with
  | String "/"%char _ => b
  | _ => if negb (str_truthy a) || ends_with_slash a then a +:+ b
         else a +:+ "/" +:+ b
  end.

Definition no_such_directory : exception :=
  FileNotFoundError "[Errno 2] No such file or directory: ''".

(** [os.makedirs(name, exist_ok=True)]: the empty name is no directory. *)
Definition os_makedirs (name : string) : @M W unit :=
  if str_truthy name then ret tt else raise no_such_directory.

Definition save_qa_to_json (self : QAFactory) (qa_samples : list QATagged) : @M W string :=
  timestamp <- call strftime_now ;;
  let filename := "qa_generated_" +:+ timestamp +:+ ".json" in
  let full_path := os_path_join (output_folder self) filename in
  os_makedirs (output_folder self) ;;;
  log (json_dump qa_samples full_path) ;;;
  log (print (Saved_samples (length qa_samples) full_path)) ;;;
  ret full_path.

(** [int(number_of_samples * percentage)]: the [int] operand is converted,
    the product is a binary64 product. *)
Definition num_samples (number_of_samples : Z) (percentage : float) : exception + Z :=
  match float_of_int number_of_samples with
  | inl e => inl e
  | inr n => int_of_float (n * percentage)%float
  end.

Section Loops.

(** The method [generator.generate()] the factory calls on each object. *)
Variable generate_method : nat -> @M W QATagged.

(** [for sample_idx in range(num_samples_for_generator)] *)
Fixpoint sample_loop (generator : nat) (num_samples_for_generator : nat)
    (samples : list QATagged) : @M W (list QATagged) :=
  match num_samples_for_generator with
  | O => ret samples
  | S remaining =>
      sample <- generate_method generator ;;
      let samples := samples ++ [sample] in
      log pbar_update ;;;
      sample_loop generator remaining samples
  end.

(** [for i, (generator, percentage) in enumerate(self.generators)] *)
Fixpoint generators_loop (generators : list (nat * float)) (number_of_samples : Z)
    (samples : list QATagged) : @M W (list QATagged) :=
  match generators with
  | [] => ret samples
  | (generator, percentage) :: rest =>
      match num_samples number_of_samples percentage with
      | inl e => raise e
      | inr num_samples_for_generator =>
          if (num_samples_for_generator =? 0)%Z then
            generators_loop rest number_of_samples samples
          else
            generator_object <- get_self generator ;;
            log (span ("qa_factory.generator_" +:+ class_name (cls generator_object))) ;;;
            samples <- sample_loop generator (Z.to_nat num_samples_for_generator) samples ;;
            generators_loop rest number_of_samples samples
      end
  end.

Definition QAFactory_generate_with (self : QAFactory) (number_of_samples : Z)
  : @M W (list QATagged * string) :=
  traced "qa_factory.generate_samples" (
    samples <- generators_loop (generators self) number_of_samples [] ;;
    full_path <- save_qa_to_json self samples ;;
    log (print (Successfully_generated (length samples))) ;;;
    ret (samples, full_path)).

(** The allocation in the words of the specification: for each strategy in
    plan order, [count] accepted samples are requested from its generator,
    one after the other, and appended as they complete.  The count is the one
    the code computes, [int(total * proportion)] on the binary64 product;
    [floor_count] is the floor of the exact product. *)
Definition floor_count (total : Z) (proportion : float) : nat :=
  Z.to_nat (Qfloor (inject_Z total * float_value proportion)).

Definition planned_count (total : Z) (proportion : float) : nat :=
  match num_samples total proportion with
  | inr count => Z.to_nat count
  | inl _ => 0
  end.

Fixpoint request_samples (generator : nat) (count : nat) : @M W (list QATagged) :=
  match count with
  | O => ret []
  | S remaining =>
      sample <- generate_method generator ;;
      log pbar_update ;;;
      others <- request_samples generator remaining ;;
      ret (sample :: others)
  end.

Fixpoint allocate_spec (plan : list (nat * float)) (total : Z) : @M W (list QATagged) :=
  match plan with
  | [] => ret []
  | (generator, proportion) :: rest =>
      match num_samples total proportion with
      | inl e => raise e
      | inr count =>
          batch <- (if (count =? 0)%Z then ret []
                    else generator_object <- get_self generator ;;
                         log (span ("qa_factory.generator_"
                                    +:+ class_name (cls generator_object))) ;;;
                         request_samples generator (Z.to_nat count)) ;;
          others <- allocate_spec rest total ;;
          ret (batch ++ others)
      end
  end.

End Loops.

Definition QAFactory_generate (self : QAFactory) (number_of_samples : Z)
  : @M W (list QATagged * string) :=
  QAFactory_generate_with generate self number_of_samples.

(** The sum of the per-strategy counts of a plan. *)
Definition total_count (plan : list (nat * float)) (total : Z) : nat :=
  sum_list (map (fun gp => planned_count total (snd gp)) plan).

(** The plans [QAFactory.__init__] accepts: the two tests of the code, on
    binary64 numbers. *)
Definition valid_plan (plan : list (nat * float)) : Prop :=
  (0.01 <? abs (as_float (builtin_sum (map snd plan)) - 1))%float = false /\
  Forall (fun gp => (0 <=? snd gp)%float && (snd gp <=? 1)%float = true) plan.

(** The invariant of a plan as the specification words it, on the exact
    values of the proportions. *)
Definition within_tolerance (plan : list (nat * float)) : Prop :=
  Forall (fun gp => is_finite (snd gp) = true) plan /\
  (Qabs (py_sum (map (fun gp => float_value (snd gp)) plan) - 1) <= 1 # 100)%Q /\
  Forall (fun gp => (0 <= float_value (snd gp))%Q /\ (float_value (snd gp) <= 1)%Q) plan.

End QAFactory.

(** ** main.py

    The script builds one diversity generator, a single-hop and a multi-hop
    generator sharing it, and a factory that uses each for half of six
    samples.  The clients, the environment and [setup_tracing] are the
    wiring of the capabilities and stay outside; [single_hop] and
    [multi_hop] are the addresses of the two generator objects. *)

Section Main.

Context {W : Type} `{!SearchService W, !LLMClient W, !Entropy W}.

Definition main (single_hop multi_hop : nat) : @M W (list QATagged * string) :=
  let diversity_generator := mkConfig 2 0.8 3 in
  BaseGenerator_init single_hop SingleHopOneDocGenerator diversity_generator ;;;
  BaseGenerator_init multi_hop MultiHopOneDocGenerator diversity_generator ;;;
  factory <- QAFactory_init [(single_hop, 0.5%float); (multi_hop, 0.5%float)] "data/q-a" ;;
  QAFactory_generate factory 6.

End Main.

(** ** Observations on traces *)

(** The events of one pass through [generate] other than the entry into
    [generate] itself and what [_retry_logic] and the factory emit. *)
Definition inner_event (e : event) : bool :=
  match e with
  | span name =>
      negb (bool_decide (name = "generator.generate"))
      && negb (bool_decide (name = "generator.retry_logic"))
  | print (Error_building_context _) => true
  | print Function_call_retrying => true
  | print (QA_validation_failed _) => true
  | print (QA_verification_failed _) => true
  | _ => false
  end.

Definition is_generate_span (e : event) : bool :=
  match e with span name => bool_decide (name = "generator.generate") | _ => false end.

(** The numbers [n] of the lines "Retrying... Attempt n", in order. *)
Fixpoint announced_attempts (t : list event) : list nat :=
  match t with
  | [] => []
  | print (Retrying_Attempt n) :: t' => n :: announced_attempts t'
  | _ :: t' => announced_attempts t'
  end.

Definition count_events (p : event -> bool) (t : list event) : nat :=
  length (List.filter p t).

Definition is_chat_span (e : event) : bool :=
  match e with span name => bool_decide (name = "generator.openai.chat") | _ => false end.

Definition is_json_dump (e : event) : bool :=
  match e with json_dump _ _ => true | _ => false end.

Definition is_pbar_update (e : event) : bool :=
  match e with pbar_update => true | _ => false end.

(** Spans and printed lines: all that a generator leaves in the trace. *)
Definition span_or_print (e : event) : bool :=
  match e with span _ | print _ => true | _ => false end.

(** The parts of a context that are chunk blocks, by their label. *)
Definition is_chunk_block (part : string) : bool :=
  String.prefix "CHUNK_ID: " part.

Definition is_title_line (part : string) : bool :=
  String.prefix "Document Title: " part.

(** ** A scripted world

    A small concrete instance of the capabilities, used to run the engine on
    examples: an in-memory index of chunks, and scripts that the model and
    the random source replay. *)

Module Mock.

Record chunk := mkChunk {
  chunk_id : string;
  document_id : string;
  part_number : Z;
  title : string;
  content : string
}.

Record script := mkScript {
  index : list chunk;
  picks : list nat;                       (* positions drawn by get_random_chunk *)
  drafts : list completion;               (* replies to the generation prompt *)
  verdicts : list QAVerificationResult;   (* replies to the verification prompts *)
  draws : list float                      (* log-normal draws *)
}.

Definition no_chunk : chunk := mkChunk "" "" 0 "" "".

Definition random_chunk (w : script) : chunk * script :=
  (nth (hd 0%nat (picks w)) (index w) no_chunk,
   mkScript (index w) (tl (picks w)) (drafts w) (verdicts w) (draws w)).

Definition chunks_of_document (c : chunk) (w : script) : list chunk * script :=
  (List.filter (fun c' => bool_decide (document_id c' = document_id c)) (index w), w).

(** Modelled from the spec: the retrieval capability [fragmentsByIds], the
    fragments of the index with the given ids, in the order of the ids; an
    id that is not in the index contributes nothing. *)
Definition records_by_ids (ids : list string) (w : script) : list chunk * script :=
  (flat_map (fun id => List.filter (fun c => bool_decide (chunk_id c = id)) (index w)) ids,
   w).

Fixpoint insert_by_part (c : chunk) (sorted : list chunk) : list chunk :=
  match sorted with
  | [] => [c]
  | c' :: rest =>
      if (part_number c <? part_number c')%Z then c :: sorted
      else c' :: insert_by_part c rest
  end.

Definition sort_by_part (cs : list chunk) : list chunk :=
  fold_right insert_by_part [] (rev cs).

Definition search : SearchService script := {|
  search_record := chunk;
  get_random_chunk := random_chunk;
  get_all_chunks_of_document := chunks_of_document;
  qa_search := fun _ w => ([], w);
  get_search_records_by_ids := records_by_ids;
  sort_chunks_by_part_number := sort_by_part;
  get_search_record_title := title;
  get_search_record_id := chunk_id;
  get_search_record_content := content
|}.

Definition abstain : completion := mkCompletion ["_retry_logic"] None.

(** The model replays its scripts; with nothing left it abstains, and
    judges negatively. *)
Definition scripted_llm : LLMClient script := {|
  parse_QA := fun _ w =>
    (hd abstain (drafts w),
     mkScript (index w) (picks w) (tl (drafts w)) (verdicts w) (draws w));
  parse_QAVerificationResult := fun _ w =>
    (Some (hd (mkVerification false "script exhausted") (verdicts w)),
     mkScript (index w) (picks w) (drafts w) (tl (verdicts w)) (draws w))
|}.

(** A model that always drafts the same pair and always judges negatively. *)
Definition rejecting_llm (qa : QA) : LLMClient script := {|
  parse_QA := fun _ w => (mkCompletion [] (Some qa), w);
  parse_QAVerificationResult := fun _ w => (Some (mkVerification false "not grounded"), w)
|}.

(** A model that always drafts the same pair and always judges positively. *)
Definition accepting_llm (qa : QA) : LLMClient script := {|
  parse_QA := fun _ w => (mkCompletion [] (Some qa), w);
  parse_QAVerificationResult := fun _ w => (Some (mkVerification true "grounded"), w)
|}.

Definition entropy : Entropy script := {|
  lognormal := fun _ _ w =>
    (hd 1%float (draws w),
     mkScript (index w) (picks w) (drafts w) (verdicts w) (tl (draws w)));
  choice := fun names _ w => (hd "" names, w);
  strftime_now := fun w => ("20250101_120000", w)
|}.

(** A random source whose log-normal draw is always 1. *)
Definition steady_entropy : Entropy script := {|
  lognormal := fun _ _ w => (1%float, w);
  choice := fun names _ w => (hd "" names, w);
  strftime_now := fun w => ("20250101_120000", w)
|}.

(** The objects of [main.py]: a single-hop generator at address 0 and a
    multi-hop generator at address 1, sharing one diversity generator. *)
Definition main_config : LengthDistributionConfig := mkConfig 2 0.8 3.

Definition main_heap : nat -> generator_object :=
  <[1%nat := mkGenerator MultiHopOneDocGenerator main_config 0]>
    (fun _ => mkGenerator SingleHopOneDocGenerator main_config 0).

Definition fee_chunk : chunk :=
  mkChunk "c1" "fees" 0 "Fee schedule" "Fee is $500".

Definition fee_qa : QA := mkQA "What is the fee?" "$500" ["c1"].

Definition fee_world : script :=
  mkScript [fee_chunk] [] [mkCompletion [] (Some fee_qa)]
          [mkVerification true "stated in c1"] [].

Definition start (w : script) : @State script :=
  mkState main_heap w [].

(** Three fragments of two documents, in the order of the example of the
    specification. *)
Definition doc_chunks : list chunk :=
  [mkChunk "a0" "A" 0 "T" "first"; mkChunk "a1" "A" 1 "T" "second";
   mkChunk "b0" "B" 0 "U" "third"].

(** A titled fragment followed by one whose title is empty. *)
Definition untitled_chunks : list chunk :=
  [mkChunk "x0" "X" 0 "T" "one"; mkChunk "x1" "X" 1 "" "two"].

(** The model calls the offered tool once, then drafts the pair. *)
Definition abstain_once_world : script :=
  mkScript [fee_chunk] [] [abstain; mkCompletion [] (Some fee_qa)]
          [mkVerification true "stated in c1"] [].

(** The model calls the tool six times before it drafts the pair; after
    that its script is empty. *)
Definition six_retries_world : script :=
  mkScript [fee_chunk] []
          (replicate 6 abstain ++ [mkCompletion [] (Some fee_qa)])
          [mkVerification true "stated in c1"] [].

(** The plan of [main.py], and a plan that sums to 1.0078125. *)
Definition main_plan : list (nat * float) := [(0%nat, 0.5%float); (1%nat, 0.5%float)].
Definition skewed_plan : list (nat * float) :=
  [(0%nat, 0.5%float); (1%nat, 0.5078125%float)].

(** One third and two thirds, as Python computes [1/3] and [2/3]. *)
Definition thirds_plan : list (nat * float) :=
  [(0%nat, (1 / 3)%float); (1%nat, (2 / 3)%float)].

(** A plan whose exact sum is within 0.01 of 1 and whose binary64 sum is
    1.01. *)
Definition rounding_plan : list (nat * float) :=
  [(0%nat, 0.5%float); (1%nat, 0.5%float); (0%nat, 0.009999999999999998%float)].

(** An infinite draw. *)
Definition infinite_draw_world : script := mkScript [] [] [] [] [infinity].

(** The value a computation returned ([default] if it did not return). *)
Definition ok_or {A} (default : A) (r : result A) : A :=
  match r with Ok a => a | _ => default end.

(** The first pass of the generator at address 0 from [start w], block by
    block: the seeded chunks, the context, the draft and the verification
    of the drafted pair [qa]. *)
Definition seeded (llm : LLMClient script) (w : script) :=
  @seed_chunks script search (logged (start w) [span "generator.generate"]).

Definition seeded_chunks (llm : LLMClient script) (w : script) : list chunk :=
  ok_or [] (fst (seeded llm w)).

Definition built_context (llm : LLMClient script) (w : script) : string :=
  match @build_context_pure script search (seeded_chunks llm w) with
  | inr context => context
  | inl _ => ""
  end.

Definition drafted (llm : LLMClient script) (w : script) :=
  @draft script llm entropy (main_heap 0) (built_context llm w)
    (logged (snd (seeded llm w)) [span "generator._build_context"]).

Definition drafted_pair (llm : LLMClient script) (w : script)
  : DiversityInjection * completion :=
  ok_or (mkInjection 0 "" "" "", abstain) (fst (drafted llm w)).

Definition verified (llm : LLMClient script) (w : script) (qa : QA) :=
  @_verify_qa script search llm SingleHopOneDocGenerator qa (snd (drafted llm w)).

(** The state [st] with the retry counter of [self] put back to 0. *)
Definition reset_counter (self : nat) (st : @State script) : @State script :=
  let o := heap st self in
  mkState (<[self := mkGenerator (cls o) (diversity_generator o) 0]> (heap st))
          (world st) (trace st).

(** A fractional shift, and a script whose next log-normal draw is 0.25. *)
Definition fractional_config : LengthDistributionConfig := mkConfig 0 1 3.5.
Definition quarter_draw_world : script := mkScript [] [] [] [] [0.25%float].

(** A pair that names a chunk id the index does not hold. *)
Definition unknown_qa : QA := mkQA "What is the fee?" "$500" ["c9"].

(** The model answers with a call of a tool that was not offered and
    carries no parsed pair. *)
Definition unparsed_world : script :=
  mkScript [fee_chunk] [] [mkCompletion ["other_tool"] None] [] [].

(** The grounding judgement of the scripted model on [fee_qa] over the
    context built from [fee_chunk]. *)
Definition fee_judgement :=
  @parse_QAVerificationResult script scripted_llm
    (chunk_connection_prompt (question fee_qa)
       (@context_of script search (@parts_as_built script search) [fee_chunk]))
    fee_world.

(** A plan that sums to 1 with both percentages out of range. *)
Definition out_of_range_plan : list (nat * float) :=
  [(0%nat, 1.5%float); (1%nat, (-0.5)%float)].

(** The batch of [main.py] against a model that accepts every draft. *)
Definition main_batch :=
  @QAFactory_generate script search (accepting_llm fee_qa) entropy
    (mkQAFactory main_plan "data/q-a") 6 (start fee_world).

End Mock.

(** ** Vocabulary for the statements below *)

Section Vocabulary.

Context {W : Type} `{!SearchService W, !LLMClient W, !Entropy W}.

Definition inner (t : list event) : Prop := Forall (fun e => inner_event e = true) t.

(** [returns m P]: from every state, [m] returns a value satisfying [P],
    leaves the heap alone and appends only inner events to the trace. *)
Definition returns {A} (m : @M W A) (P : A -> Prop) : Prop :=
  forall st, exists a st1 t,
    m st = (Ok a, st1) /\ heap st1 = heap st /\ trace st1 = trace st ++ t
    /\ inner t /\ P a.

(** The retry transition of [_retry_logic] on the object [self]: the
    counter goes up by one and the two lines are printed. *)
Definition retried (self : nat) (st : @State W) : @State W :=
  let o := heap st self in
  mkState
    (<[self := mkGenerator (cls o) (diversity_generator o) (retry_count o + 1)]> (heap st))
    (world st)
    (trace st ++ [span "generator.retry_logic"; print Generation_failed_retrying;
                  print (Retrying_Attempt (retry_count o + 1))]).

(** The state in which [_retry_logic] gives up. *)
Definition gave_up (st : @State W) : @State W :=
  logged st [span "generator.retry_logic"; print Max_retries_reached].

(** One pass through the body of [generate] up to the points where it
    hands over to [_retry_logic]: [None] stands for such a hand-over (see
    [generate_body_attempt]). *)
Definition attempt (self : nat) : @M W (option QATagged) :=
  traced "generator.generate" (
    all_chunks_for_document_sorted <- seed_chunks ;;
    ctx <- try_build_context all_chunks_for_document_sorted ;;
    match ctx with
    | None => ret None
    | Some context =>
        self_object <- get_self self ;;
        drafted <- draft self_object context ;;
        let '(diversity_injection, qa_completion) := drafted in
        if invokes_retry qa_completion then
          log (print Function_call_retrying) ;;; ret None
        else
          match parsed qa_completion with
          | None => raise none_has_no_question
          | Some qa =>
              verify_qa_result <- _verify_qa (cls self_object) qa ;;
              if negb (is_correct verify_qa_result) then ret None
              else
                chunk_content <- _get_chunk_content_by_ids (chunk_ids qa) ;;
                ret (Some (mkQATagged (question qa) (ground_truth_answer qa)
                             (_get_tags (cls self_object)) diversity_injection
                             (chunk_ids qa) chunk_content))
          end
    end).

Definition or_retry (k : nat -> @M W QATagged) (self : nat) (r : option QATagged)
  : @M W QATagged :=
  match r with
  | Some qa_tagged => ret qa_tagged
  | None => _retry_logic k self
  end.

(** [QAFactory.generate] in the words of the specification: the allocation
    [allocate_spec] over the generators of the factory, then one serialized
    batch. *)
Definition allocate (self : QAFactory) (total : Z) : @M W (list QATagged * string) :=
  traced "qa_factory.generate_samples" (
    samples <- allocate_spec generate (generators self) total ;;
    full_path <- save_qa_to_json self samples ;;
    log (print (Successfully_generated (length samples))) ;;;
    ret (samples, full_path)).

(** The exceptions of [int] on a float. *)
Definition conversion_error (e : exception) : Prop :=
  e = cannot_convert_infinity \/ e = cannot_convert_nan.

(** The exceptions that get out of [generate]: a completion without its
    parsed value (the draft, or a verdict), and a response length that is
    infinite or NaN. *)
Definition generate_raises (e : exception) : Prop :=
  e = none_has_no_question \/ e = none_has_no_is_correct
  \/ e = cannot_convert_infinity \/ e = cannot_convert_nan.

(** The exceptions that get out of [QAFactory.generate]: those of
    [generate], those of [int(number_of_samples * percentage)], and the
    empty directory name. *)
Definition factory_raises (e : exception) : Prop :=
  generate_raises e \/ e = int_too_large \/ e = no_such_directory.

(** The ways in which a call of [generate] can end (see [generate_run]). *)
Definition stops_like_generate {A} (r : result A) : Prop :=
  match r with
  | Ok _ => True
  | Raise e => generate_raises e
  | Exit code => code = 1%Z
  | OutOfFuel => False
  end.

Definition stops_like_factory {A} (r : result A) : Prop :=
  match r with
  | Ok _ => True
  | Raise e => factory_raises e
  | Exit code => code = 1%Z
  | OutOfFuel => False
  end.

(** The ways in which the loop of [QAFactory.generate] over its plan can
    end: as [generate] does, or with the exception that
    [int(number_of_samples * percentage)] raises at an entry of the plan. *)
Definition stops_like_loop {A} (plan : list (nat * float)) (total : Z) (r : result A)
  : Prop :=
  match r with
  | Ok _ => True
  | Raise e =>
      generate_raises e \/ Exists (fun gp => num_samples total (snd gp) = inl e) plan
  | Exit code => code = 1%Z
  | OutOfFuel => False
  end.

(** [runs m P E]: from every state, [m] returns a value satisfying [P] or
    raises an exception satisfying [E]; either way it leaves the heap alone
    and appends only inner events to the trace. *)
Definition runs {A} (m : @M W A) (P : A -> Prop) (E : exception -> Prop) : Prop :=
  forall st, exists r st1 t,
    m st = (r, st1) /\ heap st1 = heap st /\ trace st1 = trace st ++ t
    /\ inner t
    /\ match r with Ok a => P a | Raise e => E e | _ => False end.

(** A completion is well formed when it either calls the offered tool or
    carries a parsed pair. *)
Definition well_formed (qa_completion : completion) : Prop :=
  invokes_retry qa_completion = false -> is_Some (parsed qa_completion).

End Vocabulary.

(** * Properties *)

(** ** Stepping through the monad *)

Section Steps.

Context {W : Type}.

Lemma bind_ok {A B} (m : @M W A) (k : A -> @M W B) st a st1 :
  m st = (Ok a, st1) -> bind m k st = k a st1.
Proof. intros E. unfold bind. by rewrite E. Qed.

Lemma bind_raise {A B} (m : @M W A) (k : A -> @M W B) st e st1 :
  m st = (Raise e, st1) -> bind m k st = (Raise e, st1).
Proof. intros E. unfold bind. by rewrite E. Qed.

Lemma bind_exit {A B} (m : @M W A) (k : A -> @M W B) st code st1 :
  m st = (Exit code, st1) -> bind m k st = (Exit code, st1).
Proof. intros E. unfold bind. by rewrite E. Qed.

Lemma bind_ret {A B} (a : A) (k : A -> @M W B) st : bind (ret a) k st = k a st.
Proof. reflexivity. Qed.

Lemma bind_log {B} (e : event) (k : unit -> @M W B) st :
  bind (log e) k st = k tt (logged st [e]).
Proof. reflexivity. Qed.

Lemma bind_get_self {B} (self : nat) (k : generator_object -> @M W B) st :
  bind (get_self self) k st = k (heap st self) st.
Proof. reflexivity. Qed.

Lemma traced_run {A} (name : string) (m : @M W A) st :
  traced name m st = m (logged st [span name]).
Proof. reflexivity. Qed.

Lemma bind_assoc {A B C} (m : @M W A) (k : A -> @M W B) (h : B -> @M W C) st :
  bind (bind m k) h st = bind m (fun a => bind (k a) h) st.
Proof. unfold bind. by destruct (m st) as [[a|e|c|] st1]. Qed.

Lemma bind_ext {A B} (m : @M W A) (k1 k2 : A -> @M W B) st :
  (forall a st1, k1 a st1 = k2 a st1) -> bind m k1 st = bind m k2 st.
Proof. intros E. unfold bind. destruct (m st) as [[a|e|c|] st1]; auto. Qed.

Lemma bind_ext_l {A B} (m1 m2 : @M W A) (k : A -> @M W B) st :
  (forall st1, m1 st1 = m2 st1) -> bind m1 k st = bind m2 k st.
Proof. intros E. unfold bind. by rewrite E. Qed.

Lemma logged_logged (st : @State W) (t1 t2 : list event) :
  logged (logged st t1) t2 = logged st (t1 ++ t2).
Proof. unfold logged. simpl. by rewrite <- app_assoc. Qed.

End Steps.

(** ** The context builder *)

Section BuildContextFacts.

Context {W : Type} `{!SearchService W, !LLMClient W, !Entropy W}.

Lemma build_context_loop_parts (results : list search_record) :
  forall (context_parts : list string) (previous_title : option string),
    build_context_loop results context_parts previous_title
    = context_parts
      ++ concat (zip_with parts_as_built
                   (previous_title
                      :: map (fun r => Some (get_search_record_title r)) results)
                   results).
Proof.
  induction results as [|r rest IH]; intros parts previous; simpl.
  - by rewrite app_nil_r.
  - unfold parts_as_built at 1.
    destruct (decide (Some (get_search_record_title r) <> previous)) as [Hne|Heq].
    + rewrite bool_decide_eq_false_2 by congruence.
      destruct (str_truthy (get_search_record_title r)); rewrite IH; simpl;
        by rewrite <- ?app_assoc.
    + apply dec_stable in Heq. rewrite bool_decide_eq_true_2 by done.
      rewrite IH, <- Heq. simpl. by rewrite <- app_assoc.
Qed.

Lemma build_context_pure_nonempty (results : list search_record) :
  results <> [] ->
  build_context_pure results = inr (context_of parts_as_built results).
Proof.
  intros Hne. unfold build_context_pure, context_of, preceding_titles.
  rewrite build_context_loop_parts. destruct results; [done|reflexivity].
Qed.

Lemma build_context_run (results : list search_record) (st : @State W) :
  _build_context results st
  = (match build_context_pure results with
     | inr context => Ok context
     | inl e => Raise e
     end, logged st [span "generator._build_context"]).
Proof.
  unfold _build_context, traced, bind, log.
  by destruct (build_context_pure results).
Qed.

(** C4 (as amended): over a non-empty sequence the builder walks the
    fragments in the given order; a fragment gets a title header exactly
    when its title is non-empty and differs from the title of the fragment
    immediately before it (the first fragment has none before it), and its
    labelled id-and-content block always follows, directly after the header
    if there is one.  In particular three fragments titled T, T, U (T and U
    distinct and non-empty) give T's header, the two blocks of the first
    document, U's header and the third block: two headers, T's before both
    blocks of its document. *)
Theorem build_context_headers (results : list search_record) (st : @State W)
    (Hne : results <> []) :
  _build_context results st
  = (Ok (context_of parts_as_built results),
     logged st [span "generator._build_context"])
  /\ forall r1 r2 r3 : search_record,
       results = [r1; r2; r3] ->
       get_search_record_title r1 = get_search_record_title r2 ->
       get_search_record_title r2 <> get_search_record_title r3 ->
       get_search_record_title r1 <> "" ->
       get_search_record_title r3 <> "" ->
       context_of parts_as_built results
       = String.concat (newline +:+ newline)
           [title_line (get_search_record_title r1); chunk_block r1; chunk_block r2;
            title_line (get_search_record_title r3); chunk_block r3].
Proof.
  split.
  - rewrite build_context_run. by rewrite build_context_pure_nonempty.
  - intros r1 r2 r3 -> H12 H23 H1 H3.
    unfold context_of, preceding_titles, parts_as_built. simpl.
    rewrite <- H12.
    rewrite bool_decide_eq_true_2 by done.
    rewrite bool_decide_eq_false_2 by congruence.
    destruct (get_search_record_title r1) eqn:E1; [done|].
    destruct (get_search_record_title r3) eqn:E3; [done|].
    reflexivity.
Qed.

(** C5: the builder raises its [ValueError] on the empty sequence and only
    there; on every non-empty sequence it returns a text. *)
Theorem build_context_empty_iff (results : list search_record) (st : @State W) :
  (results = [] <->
   _build_context results st
   = (Raise no_search_results, logged st [span "generator._build_context"]))
  /\ (results <> [] <->
      exists context : string,
        _build_context results st
        = (Ok context, logged st [span "generator._build_context"])).
Proof.
  rewrite build_context_run. destruct results as [|r rest].
  - split; split; try done.
    + intros [context Hc]. by inversion Hc.
  - rewrite build_context_pure_nonempty by done. split; split; try done.
    intros _. eauto.
Qed.

End BuildContextFacts.

(** ** Computations that return *)

Section Returns.

Context {W : Type} `{!SearchService W, !LLMClient W, !Entropy W}.

Lemma returns_ret {A} (a : A) (P : A -> Prop) : P a -> returns (W:=W) (ret a) P.
Proof.
  intros HP st. exists a, st, []. unfold inner. rewrite app_nil_r.
  repeat split; auto.
Qed.

Lemma returns_bind {A B} (m : @M W A) (k : A -> @M W B) (P : A -> Prop) (Q : B -> Prop) :
  returns m P -> (forall a, P a -> returns (k a) Q) -> returns (bind m k) Q.
Proof.
  intros Hm Hk st. destruct (Hm st) as (a & st1 & t1 & E1 & Hh1 & Ht1 & Hi1 & HP).
  destruct (Hk a HP st1) as (b & st2 & t2 & E2 & Hh2 & Ht2 & Hi2 & HQ).
  exists b, st2, (t1 ++ t2). unfold bind. rewrite E1, E2.
  split; [done|]. split; [congruence|]. split; [|split; [|done]].
  - rewrite Ht2, Ht1. by rewrite app_assoc.
  - by apply Forall_app.
Qed.

Lemma returns_log (e : event) :
  inner_event e = true -> returns (W:=W) (log e) (fun _ => True).
Proof.
  intros He st. exists tt, (logged st [e]), [e]. unfold inner.
  repeat split; auto.
Qed.

Lemma returns_call {A} (f : W -> A * W) : returns (call f) (fun _ => True).
Proof.
  intros st. unfold call. destruct (f (world st)) as [a w].
  exists a, (mkState (heap st) w (trace st)), []. unfold inner.
  simpl. rewrite app_nil_r. repeat split; auto.
Qed.

Lemma returns_call_with {A} (f : W -> A * W) (P : A -> Prop) :
  (forall w, P (fst (f w))) -> returns (call f) P.
Proof.
  intros HP st. unfold call. specialize (HP (world st)).
  destruct (f (world st)) as [a w].
  exists a, (mkState (heap st) w (trace st)), []. unfold inner.
  simpl. rewrite app_nil_r. repeat split; auto.
Qed.

Lemma returns_traced {A} (name : string) (m : @M W A) (P : A -> Prop) :
  inner_event (span name) = true -> returns m P -> returns (traced name m) P.
Proof.
  intros Hn Hm. unfold traced. eapply returns_bind.
  - by apply returns_log.
  - intros _ _. exact Hm.
Qed.

Lemma returns_get_self (self : nat) :
  returns (W:=W) (get_self self) (fun _ => True).
Proof.
  intros st. exists (heap st self), st, []. unfold inner. rewrite app_nil_r.
  repeat split; auto.
Qed.

Lemma returns_try_build_context (results : list search_record) :
  returns (try_build_context results) (fun _ => True).
Proof.
  intros st. unfold try_build_context, try_except, bind.
  rewrite build_context_run.
  destruct (build_context_pure results) as [e|context]; simpl.
  - exists None, (logged (logged st [span "generator._build_context"])
                    [print (Error_building_context e)]),
      [span "generator._build_context"; print (Error_building_context e)].
    unfold inner. simpl. rewrite <- app_assoc. repeat split; auto.
  - exists (Some context), (logged st [span "generator._build_context"]),
      [span "generator._build_context"].
    unfold inner. simpl. repeat split; auto.
Qed.

Lemma runs_of_returns {A} (m : @M W A) (P : A -> Prop) (E : exception -> Prop) :
  returns m P -> runs m P E.
Proof.
  intros Hm st. destruct (Hm st) as (a & st1 & t & E1 & Hh & Ht & Hi & HP).
  by exists (Ok a), st1, t.
Qed.

Lemma runs_ret {A} (a : A) (P : A -> Prop) (E : exception -> Prop) :
  P a -> runs (W:=W) (ret a) P E.
Proof. intros HP. by apply runs_of_returns, returns_ret. Qed.

Lemma runs_raise {A} (e : exception) (P : A -> Prop) (E : exception -> Prop) :
  E e -> runs (W:=W) (raise e) P E.
Proof.
  intros He st. exists (Raise e), st, []. unfold inner. rewrite app_nil_r.
  repeat split; auto.
Qed.

Lemma runs_bind {A B} (m : @M W A) (k : A -> @M W B) (P : A -> Prop) (Q : B -> Prop)
    (E : exception -> Prop) :
  runs m P E -> (forall a, P a -> runs (k a) Q E) -> runs (bind m k) Q E.
Proof.
  intros Hm Hk st. destruct (Hm st) as (r & st1 & t1 & E1 & Hh1 & Ht1 & Hi1 & HP).
  unfold bind. rewrite E1. destruct r as [a|e|code|]; try done.
  - destruct (Hk a HP st1) as (r2 & st2 & t2 & E2 & Hh2 & Ht2 & Hi2 & HQ).
    exists r2, st2, (t1 ++ t2). split; [done|]. split; [congruence|].
    split; [rewrite Ht2, Ht1; by rewrite app_assoc|]. split; [by apply Forall_app|done].
  - by exists (Raise e), st1, t1.
Qed.

Lemma runs_traced {A} (name : string) (m : @M W A) (P : A -> Prop)
    (E : exception -> Prop) :
  inner_event (span name) = true -> runs m P E -> runs (traced name m) P E.
Proof.
  intros Hn Hm. unfold traced. eapply runs_bind.
  - by apply runs_of_returns, returns_log.
  - intros _ _. exact Hm.
Qed.

Lemma runs_weaken {A} (m : @M W A) (P P' : A -> Prop) (E E' : exception -> Prop) :
  runs m P E -> (forall a, P a -> P' a) -> (forall e, E e -> E' e) -> runs m P' E'.
Proof.
  intros Hm HP HE st. destruct (Hm st) as (r & st1 & t & E1 & Hh & Ht & Hi & Hr).
  exists r, st1, t. repeat (split; [done|]).
  destruct r; auto.
Qed.

Lemma returns_of_runs {A} (m : @M W A) (P : A -> Prop) (E : exception -> Prop) :
  runs m P E -> (forall st, exists a st1, m st = (Ok a, st1)) -> returns m P.
Proof.
  intros Hm Hok st. destruct (Hm st) as (r & st1 & t & E1 & Hh & Ht & Hi & Hr).
  destruct (Hok st) as (a & st2 & E2). rewrite E1 in E2. injection E2 as -> ->.
  by exists a, st2, t.
Qed.

End Returns.

Create HintDb returns discriminated.

#[global] Hint Resolve returns_log returns_call returns_get_self
  returns_try_build_context : returns.
#[global] Hint Extern 1 (inner_event _ = true) => reflexivity : returns.

(** Straight-line code made of the combinators above. *)
Ltac returns_auto :=
  repeat first
    [ apply returns_ret; exact I
    | apply returns_traced; [reflexivity|]
    | eapply returns_bind with (P := fun _ => True); [|intros ? _]
    | solve [auto with returns] ].

(** Use a [returns] fact for the computation at the head of a bind. *)
Tactic Notation "run_head" constr(H) "as" ident(a) ident(st') ident(t) :=
  let E := fresh "E" in
  let Hh := fresh "Hh" in
  let Ht := fresh "Ht" in
  let Hi := fresh "Hi" in
  let HP := fresh "HP" in
  match goal with
  | |- context [bind ?m _ ?st] =>
      destruct (H st) as (a & st' & t & E & Hh & Ht & Hi & HP);
      rewrite (bind_ok _ _ _ _ _ E)
  end.

(** Use a [runs] fact for the computation at the head of a bind: one goal
    for the value returned, one for the exception raised. *)
Tactic Notation "run_head_or" constr(H) "as" ident(a) ident(e) ident(st') ident(t) :=
  let r := fresh "r" in
  let E := fresh "E" in
  let Hh := fresh "Hh" in
  let Ht := fresh "Ht" in
  let Hi := fresh "Hi" in
  let HP := fresh "HP" in
  match goal with
  | |- context [bind ?m _ ?st] =>
      destruct (H st) as (r & st' & t & E & Hh & Ht & Hi & HP);
      destruct r as [a|e| |]; [|  | contradiction | contradiction];
      [rewrite (bind_ok _ _ _ _ _ E) | rewrite (bind_raise _ _ _ _ _ E)]
  end.

(** Equalities between traces, from the facts collected by [run_head]. *)
Ltac trace_eq :=
  simpl;
  repeat match goal with
         | H : trace ?s = _ |- context [trace ?s] => rewrite H
         end;
  simpl; rewrite <- ?app_assoc; simpl; rewrite <- ?app_assoc; reflexivity.

Ltac inner_auto :=
  repeat first [ assumption | apply Forall_app_2 | apply Forall_nil_2
               | apply Forall_cons_2; [reflexivity|] ].

(** ** The verification predicates and the chain *)

Section VerificationFacts.

Context {W : Type} `{!SearchService W, !LLMClient W, !Entropy W}.

Lemma runs_judge (system_prompt : prompt) (P : QAVerificationResult -> Prop) :
  (forall w v, fst (parse_QAVerificationResult system_prompt w) = Some v -> P v) ->
  runs (judge system_prompt) P (fun e => e = none_has_no_is_correct).
Proof.
  intros HP. unfold judge. apply runs_traced; [reflexivity|].
  eapply runs_bind.
  - apply runs_of_returns. apply returns_call_with with (P := fun o => forall v, o = Some v -> P v).
    intros w v. apply HP.
  - intros [v|] Hv; [apply runs_ret; by apply Hv|by apply runs_raise].
Qed.

Lemma returns_judge (system_prompt : prompt) (P : QAVerificationResult -> Prop) :
  (forall w, exists v, fst (parse_QAVerificationResult system_prompt w) = Some v /\ P v) ->
  returns (judge system_prompt) P.
Proof.
  intros HP. unfold judge. apply returns_traced; [reflexivity|].
  eapply returns_bind.
  - apply returns_call_with
      with (P := fun o => exists v, o = Some v /\ P v). exact HP.
  - intros o (v & -> & Hv). by apply returns_ret.
Qed.

Lemma returns_report {A} (b : bool) (line : stdout_line) (k : @M W A) (P : A -> Prop) :
  inner_event (print line) = true -> returns k P ->
  returns ((if b then log (print line) else ret tt) ;;; k) P.
Proof.
  intros Hl Hk. eapply returns_bind with (P := fun _ => True).
  - destruct b; [by apply returns_log | by apply returns_ret].
  - auto.
Qed.

Lemma runs_report {A} (b : bool) (line : stdout_line) (k : @M W A) (P : A -> Prop)
    (E : exception -> Prop) :
  inner_event (print line) = true -> runs k P E ->
  runs ((if b then log (print line) else ret tt) ;;; k) P E.
Proof.
  intros Hl Hk. eapply runs_bind with (P := fun _ => True).
  - apply runs_of_returns. destruct b; [by apply returns_log | by apply returns_ret].
  - auto.
Qed.

(** Each predicate returns a verdict, or trips over a completion without a
    parsed verdict, whatever the index and the model do. *)
Lemma runs_chunk_connection (qa : QA) (P : QAVerificationResult -> Prop) :
  (forall v, is_correct v = false -> P v) ->
  (forall context w v,
      fst (parse_QAVerificationResult
             (chunk_connection_prompt (question qa) context) w) = Some v -> P v) ->
  runs (_verify_qa_chunk_connection qa) P (fun e => e = none_has_no_is_correct).
Proof.
  intros Hfalse Hmodel. unfold _verify_qa_chunk_connection.
  apply runs_traced; [reflexivity|].
  eapply runs_bind; [apply runs_of_returns, returns_call|]. intros results _.
  destruct (negb (has_results results)).
  { apply runs_ret. by apply Hfalse. }
  eapply runs_bind; [apply runs_of_returns, returns_try_build_context|].
  intros [context|] _.
  - eapply runs_bind; [apply runs_judge; intros w v; apply (Hmodel context w v)|].
    intros v Hv. apply runs_report; [reflexivity|]. by apply runs_ret.
  - apply runs_ret. by apply Hfalse.
Qed.

(** With a model that always gives a verdict on the grounding prompt, the
    grounding check returns. *)
Lemma returns_chunk_connection (qa : QA) (P : QAVerificationResult -> Prop) :
  (forall v, is_correct v = false -> P v) ->
  (forall context w, exists v,
      fst (parse_QAVerificationResult
             (chunk_connection_prompt (question qa) context) w) = Some v /\ P v) ->
  returns (_verify_qa_chunk_connection qa) P.
Proof.
  intros Hfalse Hmodel. unfold _verify_qa_chunk_connection.
  apply returns_traced; [reflexivity|].
  eapply returns_bind; [apply returns_call|]. intros results _.
  destruct (negb (has_results results)).
  { apply returns_ret. by apply Hfalse. }
  eapply returns_bind; [apply returns_try_build_context|]. intros [context|] _.
  - eapply returns_bind; [apply returns_judge; intros w; apply (Hmodel context w)|].
    intros v Hv. apply returns_report; [reflexivity|]. by apply returns_ret.
  - apply returns_ret. by apply Hfalse.
Qed.

Lemma runs_requires_multi_hop (qa : QA) :
  runs (_verify_qa_question_requires_multi_hop qa) (fun _ => True)
    (fun e => e = none_has_no_is_correct).
Proof.
  unfold _verify_qa_question_requires_multi_hop.
  apply runs_traced; [reflexivity|].
  eapply runs_bind; [apply runs_of_returns, returns_call|]. intros results _.
  eapply runs_bind; [apply runs_of_returns, returns_try_build_context|].
  intros [context|] _.
  - eapply runs_bind; [apply runs_judge with (P := fun _ => True); done|].
    intros v _. apply runs_report; [reflexivity|]. by apply runs_ret.
  - by apply runs_ret.
Qed.

Lemma runs_answer_not_in_other_chunks (qa : QA) :
  runs (_verify_qa_answer_not_in_other_chunks qa) (fun _ => True)
    (fun e => e = none_has_no_is_correct).
Proof.
  unfold _verify_qa_answer_not_in_other_chunks.
  apply runs_traced; [reflexivity|].
  eapply runs_bind; [apply runs_of_returns, returns_call|]. intros results _.
  destruct (negb (has_results results)); [by apply runs_ret|].
  eapply runs_bind; [apply runs_of_returns, returns_try_build_context|].
  intros [context|] _.
  - eapply runs_bind; [apply runs_judge with (P := fun _ => True); done|].
    intros v _. apply runs_report; [reflexivity|]. by apply runs_ret.
  - by apply runs_ret.
Qed.

(** C6: the verdict of a strategy is the conjunction of its predicates,
    evaluated in order and stopping at the first failure, whose reason is
    carried by the returned verdict, after the fixed text that names the
    failed check.  The single-hop chain is the grounding check
    [_verify_qa_chunk_connection] alone; the multi-hop chain runs the
    grounding check and, only if it passes, the multi-hop check
    [_verify_qa_question_requires_multi_hop] from the state the grounding
    check left.  When grounding fails the chain ends in that very state: the
    multi-hop check is not run.  A predicate that does not return a verdict
    (the model's completion carries no parsed value) ends the chain with its
    [AttributeError]; nothing else stops it. *)
Theorem verify_qa_chain (c : generator_class) (qa : QA) (st : @State W) :
  match _verify_qa_chunk_connection qa (logged st [span "generator.verify_qa"]) with
  | (Ok grounding, st1) =>
      if is_correct grounding then
        match c with
        | SingleHopOneDocGenerator =>
            _verify_qa c qa st
            = (Ok (mkVerification true "All validation checks passed."), st1)
        | MultiHopOneDocGenerator =>
            match _verify_qa_question_requires_multi_hop qa st1 with
            | (Ok multi_hop, st2) =>
                _verify_qa c qa st
                = (Ok (if is_correct multi_hop
                       then mkVerification true "All validation checks passed."
                       else mkVerification false
                              ("Question '" +:+ question qa
                               +:+ "' does not require multi-hop reasoning. Detailed reason: "
                               +:+ reason multi_hop)),
                   st2)
            | (r, st2) =>
                r = Raise none_has_no_is_correct
                /\ _verify_qa c qa st = (Raise none_has_no_is_correct, st2)
            end
        end
      else
        _verify_qa c qa st
        = (Ok (mkVerification false
                 ("Answer '" +:+ ground_truth_answer qa
                  +:+ "' not found in specified chunks. Detailed reason: "
                  +:+ reason grounding)),
           st1)
  | (r, st1) =>
      r = Raise none_has_no_is_correct
      /\ _verify_qa c qa st = (Raise none_has_no_is_correct, st1)
  end.
Proof.
  destruct (runs_chunk_connection qa (fun _ => True) ltac:(done) ltac:(done)
              (logged st [span "generator.verify_qa"]))
    as (r1 & st1 & t1 & E1 & _ & _ & _ & Hr1).
  rewrite E1. unfold _verify_qa. rewrite traced_run.
  destruct r1 as [grounding|e| |]; try done.
  - destruct c; rewrite (bind_ok _ _ _ _ _ E1).
    + by destruct (is_correct grounding).
    + destruct (is_correct grounding); [|done]. simpl.
      destruct (runs_requires_multi_hop qa st1) as (r2 & st2 & t2 & E2 & _ & _ & _ & Hr2).
      rewrite E2. destruct r2 as [multi_hop|e| |]; try done.
      * rewrite (bind_ok _ _ _ _ _ E2). by destruct (is_correct multi_hop).
      * subst e. split; [done|]. by rewrite (bind_raise _ _ _ _ _ E2).
  - subst e. split; [done|]. by destruct c; rewrite (bind_raise _ _ _ _ _ E1).
Qed.

End VerificationFacts.

(** ** One pass through [generate] *)

Section GenerateFacts.

Context {W : Type} `{!SearchService W, !LLMClient W, !Entropy W}.

Lemma retry_logic_retries (k : nat -> @M W QATagged) (self : nat) (st : State) :
  retry_count (heap st self) < MAX_RETRIES ->
  _retry_logic k self st = k self (retried self st).
Proof.
  intros Hlt. unfold _retry_logic. rewrite traced_run.
  unfold bind at 1, get_retry_count. simpl.
  apply Nat.ltb_lt in Hlt. rewrite Hlt.
  rewrite bind_log. unfold bind, set_retry_count, get_retry_count, log, logged. simpl.
  rewrite fn_lookup_insert. simpl. unfold retried.
  rewrite <- !app_assoc. reflexivity.
Qed.

Lemma retry_logic_exits (k : nat -> @M W QATagged) (self : nat) (st : State) :
  MAX_RETRIES <= retry_count (heap st self) ->
  _retry_logic k self st = (Exit 1, gave_up st).
Proof.
  intros Hge. unfold _retry_logic. rewrite traced_run.
  unfold bind at 1, get_retry_count. simpl.
  apply Nat.ltb_ge in Hge. rewrite Hge.
  rewrite bind_log. unfold sys_exit, gave_up. by rewrite logged_logged.
Qed.

Lemma returns_seed_chunks : returns seed_chunks (fun _ => True).
Proof. unfold seed_chunks. returns_auto. Qed.

Lemma runs_get_response_length (config : LengthDistributionConfig) :
  runs (_get_response_length config) (fun _ => True) conversion_error.
Proof.
  unfold _get_response_length.
  eapply runs_bind; [apply runs_of_returns, returns_call|]. intros draw _.
  unfold int_of_float.
  destruct (Prim2SF (py_max (shift config) (draw + shift config)));
    first [by apply runs_ret | apply runs_raise; by (left + right)].
Qed.

Lemma runs_get_diversity_injection (config : LengthDistributionConfig) :
  runs (get_diversity_injection config) (fun _ => True) conversion_error.
Proof.
  unfold get_diversity_injection.
  eapply runs_bind; [apply runs_get_response_length|]. intros n _.
  apply runs_of_returns.
  unfold _get_tone_injection, _get_disruptive_injection, _get_language_injection,
    weighted_choice.
  returns_auto.
Qed.

Lemma runs_draft (o : generator_object) (context : string) (P : completion -> Prop) :
  (forall p w, P (fst (parse_QA p w))) ->
  runs (draft o context) (fun d => P (snd d)) conversion_error.
Proof.
  intros HP. unfold draft.
  eapply runs_bind; [apply runs_get_diversity_injection|]. intros di _.
  apply runs_of_returns.
  eapply returns_bind with (P := fun _ => True);
    [unfold _build_system_prompt; returns_auto|].
  intros system_prompt _.
  eapply returns_bind.
  - apply returns_traced; [reflexivity|]. apply returns_call_with, HP.
  - intros c Hc. by apply returns_ret.
Qed.

(** A generator draws its response lengths when the conversion to [int]
    never fails on its configuration. *)
Lemma returns_draft (o : generator_object) (context : string) (P : completion -> Prop) :
  (forall s : @State W, exists n s',
      _get_response_length (diversity_generator o) s = (Ok n, s')) ->
  (forall p w, P (fst (parse_QA p w))) ->
  returns (draft o context) (fun d => P (snd d)).
Proof.
  intros Hlen HP. unfold draft.
  eapply returns_bind with (P := fun _ => True).
  - unfold get_diversity_injection.
    eapply returns_bind with (P := fun _ => True).
    + eapply returns_of_runs; [apply runs_get_response_length|exact Hlen].
    + intros n _.
      unfold _get_tone_injection, _get_disruptive_injection, _get_language_injection,
        weighted_choice.
      returns_auto.
  - intros di _.
    eapply returns_bind with (P := fun _ => True);
      [unfold _build_system_prompt; returns_auto|].
    intros system_prompt _.
    eapply returns_bind.
    + apply returns_traced; [reflexivity|]. apply returns_call_with, HP.
    + intros c Hc. by apply returns_ret.
Qed.

Lemma runs_verify_qa_any (c : generator_class) (qa : QA) :
  runs (_verify_qa c qa) (fun _ => True) (fun e => e = none_has_no_is_correct).
Proof.
  unfold _verify_qa. apply runs_traced; [reflexivity|].
  destruct c.
  - eapply runs_bind;
      [apply runs_chunk_connection with (P := fun _ => True); done|].
    intros v _. destruct (negb (is_correct v)); by apply runs_ret.
  - eapply runs_bind;
      [apply runs_chunk_connection with (P := fun _ => True); done|].
    intros v _. destruct (negb (is_correct v)); [by apply runs_ret|].
    eapply runs_bind; [apply runs_requires_multi_hop|].
    intros v2 _. destruct (negb (is_correct v2)); by apply runs_ret.
Qed.

(** When the model always judges the grounding negatively, the chain returns
    a negative verdict. *)
Lemma returns_verify_qa (c : generator_class) (qa : QA) :
  (forall context w,
      option_map is_correct
        (fst (parse_QAVerificationResult
                (chunk_connection_prompt (question qa) context) w)) = Some false) ->
  returns (_verify_qa c qa) (fun v => is_correct v = false).
Proof.
  intros Hrej. unfold _verify_qa.
  apply returns_traced; [reflexivity|].
  assert (Hcc : returns (_verify_qa_chunk_connection qa)
                  (fun v => is_correct v = false)).
  { apply returns_chunk_connection; [done|]. intros context w.
    specialize (Hrej context w).
    destruct (fst (parse_QAVerificationResult _ w)) as [v|]; [|done].
    exists v. split; [done|]. by injection Hrej. }
  destruct c; (eapply returns_bind; [exact Hcc|]); intros v Hv; rewrite Hv; simpl;
    by apply returns_ret.
Qed.

Lemma returns_get_chunk_content_by_ids (ids : list string) :
  returns (_get_chunk_content_by_ids ids) (fun _ => True).
Proof. unfold _get_chunk_content_by_ids. returns_auto. Qed.

Lemma generate_body_attempt (k : nat -> @M W QATagged) (self : nat) (st : State) :
  generate_body k self st = bind (attempt self) (or_retry k self) st.
Proof.
  unfold generate_body, attempt, traced.
  rewrite bind_assoc. apply bind_ext. intros _ st0. cbv beta.
  rewrite bind_assoc. apply bind_ext. intros chunks st1. cbv beta.
  rewrite bind_assoc. apply bind_ext. intros [context|] st2; [|reflexivity].
  rewrite bind_assoc. apply bind_ext. intros self_object st3. cbv beta.
  rewrite bind_assoc. apply bind_ext. intros [diversity_injection qa_completion] st4.
  unfold after_draft. destruct (invokes_retry qa_completion).
  { by rewrite bind_assoc. }
  destruct (parsed qa_completion) as [qa|]; [|reflexivity].
  rewrite bind_assoc. apply bind_ext. intros v st5. cbv beta.
  destruct (negb (is_correct v)); [reflexivity|].
  by rewrite bind_assoc.
Qed.

(** One pass ends in one of three ways: it asks for a retry, it raises (a
    response length that cannot be converted, a completion without a parsed
    pair, a verdict without a parsed value), or it yields a tagged pair.
    The heap is untouched and the trace has grown by the span of [generate]
    and inner events. *)
Lemma attempt_outcome (PC : completion -> Prop) (PV : QAVerificationResult -> Prop)
    (ED EV : exception -> Prop) (self : nat) (st : @State W) :
  (forall context, runs (draft (heap st self) context) (fun d => PC (snd d)) ED) ->
  (forall c qa, runs (_verify_qa c qa) PV EV) ->
  exists st1 t,
    heap st1 = heap st
    /\ trace st1 = trace st ++ span "generator.generate" :: t
    /\ inner t
    /\ (attempt self st = (Ok None, st1)
        \/ (exists e,
              attempt self st = (Raise e, st1)
              /\ (ED e \/ EV e
                  \/ (e = none_has_no_question
                      /\ exists c, PC c /\ invokes_retry c = false /\ parsed c = None)))
        \/ (exists qa_tagged v,
              attempt self st = (Ok (Some qa_tagged), st1)
              /\ PV v /\ is_correct v = true)).
Proof.
  intros HD HPV. unfold attempt. rewrite traced_run.
  run_head returns_seed_chunks as chunks st1 t1.
  run_head (returns_try_build_context chunks) as ctx st2 t2.
  simpl in *. destruct ctx as [context|].
  2:{ exists st2, (t1 ++ t2). split; [congruence|]. split; [trace_eq|].
      split; [inner_auto|]. by left. }
  rewrite bind_get_self.
  assert (heap st2 self = heap st self) as -> by congruence.
  run_head_or (HD context) as drafted e st3 t3.
  2:{ exists st3, (t1 ++ t2 ++ t3). split; [congruence|]. split; [trace_eq|].
      split; [inner_auto|]. right. left. exists e. split; [done|]. by left. }
  destruct drafted as [diversity_injection qa_completion]. simpl in *.
  destruct (invokes_retry qa_completion) eqn:Einv.
  { rewrite bind_log.
    exists (logged st3 [print Function_call_retrying]),
      (t1 ++ t2 ++ t3 ++ [print Function_call_retrying]).
    split; [simpl; congruence|]. split; [trace_eq|].
    split; [inner_auto|]. by left. }
  destruct (parsed qa_completion) as [qa|] eqn:Eparsed.
  2:{ exists st3, (t1 ++ t2 ++ t3). split; [congruence|]. split; [trace_eq|].
      split; [inner_auto|]. right. left. exists none_has_no_question.
      split; [done|]. right. right. split; [done|]. by exists qa_completion. }
  run_head_or (HPV (cls (heap st self)) qa) as v e st4 t4.
  2:{ exists st4, (t1 ++ t2 ++ t3 ++ t4). split; [congruence|]. split; [trace_eq|].
      split; [inner_auto|]. right. left. exists e. split; [done|]. right. by left. }
  destruct (is_correct v) eqn:Ev; simpl.
  - run_head (returns_get_chunk_content_by_ids (chunk_ids qa)) as contents st5 t5.
    exists st5, (t1 ++ t2 ++ t3 ++ t4 ++ t5). split; [congruence|].
    split; [trace_eq|]. split; [inner_auto|].
    right. right. eexists _, v. by repeat split.
  - exists st4, (t1 ++ t2 ++ t3 ++ t4). split; [congruence|].
    split; [trace_eq|]. split; [inner_auto|]. by left.
Qed.

(** The same for any model and any draw. *)
Lemma attempt_any (self : nat) (st : @State W) :
  exists st1 t,
    heap st1 = heap st
    /\ trace st1 = trace st ++ span "generator.generate" :: t
    /\ inner t
    /\ (attempt self st = (Ok None, st1)
        \/ (exists e, attempt self st = (Raise e, st1) /\ generate_raises e)
        \/ (exists qa_tagged v,
              attempt self st = (Ok (Some qa_tagged), st1)
              /\ True /\ is_correct v = true)).
Proof.
  destruct (attempt_outcome (fun _ => True) (fun _ => True) conversion_error
              (fun e => e = none_has_no_is_correct) self st)
    as (st1 & t & Hh & Ht & Hi & Hcases).
  - intros context. by apply (runs_draft _ _ (fun _ => True)).
  - apply runs_verify_qa_any.
  - exists st1, t. repeat (split; [done|]).
    destruct Hcases as [E | [(e & E & He) | Hok]]; [by left| |by right; right].
    right. left. exists e. split; [done|]. unfold generate_raises.
    destruct He as [[->| ->] | [-> | (-> & _)]]; tauto.
Qed.

(** With enough fuel the amount of fuel does not matter. *)
Lemma generate_fuel_stable (n : nat) :
  forall (fuel1 fuel2 self : nat) (st : @State W),
    MAX_RETRIES - retry_count (heap st self) <= n ->
    n < fuel1 -> n < fuel2 ->
    generate_fuel fuel1 self st = generate_fuel fuel2 self st.
Proof.
  induction n as [|n IH]; intros fuel1 fuel2 self st Hn H1 H2;
    (destruct fuel1 as [|fuel1]; [lia|]); (destruct fuel2 as [|fuel2]; [lia|]);
    simpl; rewrite !generate_body_attempt;
    destruct (attempt_any self st)
      as (st1 & t & Hh & _ & _ & [E | [(e & E & He) | (qt & v & E & _)]]);
    unfold bind; rewrite E; simpl; try reflexivity.
  - rewrite !retry_logic_exits; [done| |]; rewrite Hh; lia.
  - destruct (decide (retry_count (heap st1 self) < MAX_RETRIES)) as [Hlt|Hge].
    + rewrite !retry_logic_retries by done. apply IH; [|lia|lia].
      unfold retried. simpl. rewrite fn_lookup_insert. simpl. rewrite Hh. lia.
    + rewrite !retry_logic_exits; [done| |]; lia.
Qed.

Lemma generate_fuel_enough (fuel self : nat) (st : @State W) :
  MAX_RETRIES - retry_count (heap st self) < fuel ->
  generate_fuel fuel self st = generate self st.
Proof.
  intros Hf. unfold generate.
  apply (generate_fuel_stable (MAX_RETRIES - retry_count (heap st self))); lia.
Qed.

(** The equation of the source: [generate] is its body, with [generate]
    itself as the method [_retry_logic] calls back. *)
Lemma generate_unfold (self : nat) (st : @State W) :
  generate self st = generate_body generate self st.
Proof.
  unfold generate at 1. simpl. rewrite !generate_body_attempt.
  destruct (attempt_any self st)
    as (st1 & t & Hh & _ & _ & [E | [(e & E & He) | (qt & v & E & _)]]);
    unfold bind; rewrite E; simpl; try reflexivity.
  destruct (decide (retry_count (heap st1 self) < MAX_RETRIES)) as [Hlt|Hge].
  - rewrite !retry_logic_retries by done. apply generate_fuel_enough.
    unfold retried. simpl. rewrite fn_lookup_insert. simpl. rewrite <- Hh. lia.
  - rewrite !retry_logic_exits; [done| |]; lia.
Qed.

(** [generate] as a loop: a pass that asks for a retry goes round again
    while the budget lasts, and exits the process otherwise. *)
Lemma generate_attempt (self : nat) (st : @State W) :
  generate self st = bind (attempt self) (or_retry generate self) st.
Proof. rewrite generate_unfold. apply generate_body_attempt. Qed.

(** The fuel never runs out: [generate] returns, raises or exits. *)
Lemma generate_terminates (self : nat) (st : @State W) :
  fst (generate self st) <> OutOfFuel.
Proof.
  remember (MAX_RETRIES - retry_count (heap st self)) as n eqn:Hn.
  revert st Hn. induction n as [n IH] using lt_wf_ind. intros st Hn.
  rewrite generate_attempt.
  destruct (attempt_any self st)
    as (st1 & t & Hh & _ & _ & [E | [(e & E & He) | (qt & v & E & _)]]);
    unfold bind; rewrite E; simpl; try done.
  destruct (decide (retry_count (heap st1 self) < MAX_RETRIES)) as [Hlt|Hge].
  - rewrite retry_logic_retries by done.
    apply (IH (MAX_RETRIES - retry_count (heap (retried self st1) self))); [|done].
    unfold retried. simpl. rewrite fn_lookup_insert. simpl. rewrite <- Hh in Hn. lia.
  - rewrite retry_logic_exits by lia. done.
Qed.

(** *** Reading traces *)

Lemma announced_attempts_app (t1 t2 : list event) :
  announced_attempts (t1 ++ t2) = announced_attempts t1 ++ announced_attempts t2.
Proof.
  induction t1 as [|e t1 IH]; [done|]. simpl.
  destruct e as [name|line| |]; try done. destruct line; simpl; by rewrite ?IH.
Qed.

Lemma announced_attempts_inner (t : list event) :
  inner t -> announced_attempts t = [].
Proof.
  induction 1 as [|e t He _ IH]; [done|]. simpl.
  destruct e as [name|line| |]; try done. by destruct line.
Qed.

Lemma count_events_app (p : event -> bool) (t1 t2 : list event) :
  count_events p (t1 ++ t2) = count_events p t1 + count_events p t2.
Proof. unfold count_events. by rewrite List.filter_app, length_app. Qed.

Lemma count_generate_inner (t : list event) :
  inner t -> count_events is_generate_span t = 0.
Proof.
  unfold count_events. induction 1 as [|e t He _ IH]; [done|]. simpl.
  destruct e as [name|line| |]; simpl in *; try done.
  destruct (bool_decide (name = "generator.generate")); [done|]. exact IH.
Qed.

(** *** A generator whose drafts are always rejected *)

Section AlwaysRejected.

Variable config : LengthDistributionConfig.

Hypothesis grounding_fails :
  forall question context w,
    option_map is_correct
      (fst (parse_QAVerificationResult
              (chunk_connection_prompt question context) w)) = Some false.
Hypothesis completions_well_formed :
  forall p w, well_formed (fst (parse_QA p w)).
Hypothesis lengths_drawn :
  forall s : @State W, exists n s', _get_response_length config s = (Ok n, s').

Lemma rejected_attempt (self : nat) (st : @State W) :
  diversity_generator (heap st self) = config ->
  exists st1 t,
    heap st1 = heap st
    /\ trace st1 = trace st ++ span "generator.generate" :: t
    /\ inner t
    /\ attempt self st = (Ok None, st1).
Proof.
  intros Hconfig.
  destruct (attempt_outcome well_formed (fun v => is_correct v = false)
              (fun _ => False) (fun _ => False) self st)
    as (st1 & t & Hh & Ht & Hi & Hcases).
  { intros context. apply runs_of_returns, returns_draft; [|done].
    by rewrite Hconfig. }
  { intros c qa. apply runs_of_returns, returns_verify_qa.
    intros. apply grounding_fails. }
  exists st1, t. repeat (split; [done|]).
  destruct Hcases
    as [E | [(e & _ & [[]|[[]|(_ & c & Hc & Hinv & Hp)]]) | (qt & v & _ & Hv & Hv')]].
  - done.
  - destruct (Hc Hinv) as [qa Hqa]. congruence.
  - congruence.
Qed.

Lemma rejected_run (n : nat) :
  forall (self : nat) (st : @State W),
    diversity_generator (heap st self) = config ->
    retry_count (heap st self) + n = MAX_RETRIES ->
    exists st' t,
      generate self st = (Exit 1, st')
      /\ retry_count (heap st' self) = MAX_RETRIES
      /\ trace st' = trace st ++ t
      /\ announced_attempts t = seq (S (retry_count (heap st self))) n
      /\ count_events is_generate_span t = S n
      /\ exists t0, t = t0 ++ [span "generator.retry_logic"; print Max_retries_reached].
Proof.
  induction n as [|n IH]; intros self st Hconfig Hn;
    destruct (rejected_attempt self st Hconfig) as (st1 & t & Hh & Ht & Hi & E);
    rewrite generate_attempt, (bind_ok _ _ _ _ _ E); simpl.
  - rewrite retry_logic_exits by (rewrite Hh; lia).
    exists (gave_up st1),
      (span "generator.generate" :: t
         ++ [span "generator.retry_logic"; print Max_retries_reached]).
    split; [done|]. split; [simpl; rewrite Hh; lia|]. split; [trace_eq|].
    split; [|split].
    + simpl. rewrite announced_attempts_app, announced_attempts_inner by done. done.
    + change (span "generator.generate" :: ?l) with ([span "generator.generate"] ++ l).
      rewrite !count_events_app, (count_generate_inner t) by done. reflexivity.
    + by exists (span "generator.generate" :: t).
  - rewrite retry_logic_retries by (rewrite Hh; lia).
    destruct (IH self (retried self st1)) as (st' & t' & E' & Hrc & Ht' & Ha & Hc & t0 & Hlast).
    { unfold retried. simpl. rewrite fn_lookup_insert. simpl. by rewrite Hh. }
    { unfold retried. simpl. rewrite fn_lookup_insert. simpl. rewrite Hh. lia. }
    assert (Hrc1 : retry_count (heap (retried self st1) self)
                   = S (retry_count (heap st self))).
    { unfold retried. simpl. rewrite fn_lookup_insert. simpl. rewrite Hh. lia. }
    exists st',
      ((span "generator.generate" :: t
          ++ [span "generator.retry_logic"; print Generation_failed_retrying;
              print (Retrying_Attempt (retry_count (heap st1 self) + 1))]) ++ t').
    split; [done|]. split; [done|]. split; [|split; [|split]].
    + rewrite Ht'. unfold retried. trace_eq.
    + rewrite announced_attempts_app, Ha, Hrc1. simpl.
      rewrite announced_attempts_app, announced_attempts_inner by done. simpl.
      rewrite Hh. by replace (retry_count (heap st self) + 1)
        with (S (retry_count (heap st self))) by lia.
    + rewrite count_events_app, Hc.
      change (span "generator.generate" :: ?l) with ([span "generator.generate"] ++ l).
      rewrite !count_events_app, (count_generate_inner t) by done. reflexivity.
    + exists ((span "generator.generate" :: t
                ++ [span "generator.retry_logic"; print Generation_failed_retrying;
                    print (Retrying_Attempt (retry_count (heap st1 self) + 1))]) ++ t0).
      rewrite Hlast. by rewrite <- !app_assoc.
Qed.

End AlwaysRejected.

(** C1: when the grounding verdict is always negative, a fresh generator
    (retry counter 0, as [__init__] leaves it) goes round the loop until the
    counter reaches [MAX_RETRIES]: the retries announced are exactly
    "Attempt 1" to "Attempt 10", each one a new pass through [generate]
    (eleven passes with the first one), and the pass after the tenth retry
    ends in [sys.exit(1)].  The exit ends the whole process, not the
    sample: whatever the caller would do next is not run, and no handler
    for [Exception] stops it.  The passes are assumed to get as far as the
    verification: the response length of the generator is drawn ([int] does
    not fail on it) and a completion that does not call the tool carries a
    parsed pair. *)
Theorem always_rejected_gives_up (self : nat) (st : @State W)
    (grounding_fails :
       forall question context w,
         option_map is_correct
           (fst (parse_QAVerificationResult
                   (chunk_connection_prompt question context) w)) = Some false)
    (completions_well_formed : forall p w, well_formed (fst (parse_QA p w)))
    (lengths_drawn :
       forall s : @State W, exists n s',
         _get_response_length (diversity_generator (heap st self)) s = (Ok n, s'))
    (fresh : retry_count (heap st self) = 0) :
  exists st' t,
    generate self st = (Exit 1, st')
    /\ retry_count (heap st' self) = MAX_RETRIES
    /\ trace st' = trace st ++ t
    /\ announced_attempts t = seq 1 MAX_RETRIES
    /\ count_events is_generate_span t = S MAX_RETRIES
    /\ (exists t0, t = t0 ++ [span "generator.retry_logic"; print Max_retries_reached])
    /\ (forall (B : Type) (k : QATagged -> @M W B),
          bind (generate self) k st = (Exit 1, st'))
    /\ (forall handler, try_except (generate self) handler st = (Exit 1, st')).
Proof.
  destruct (rejected_run (diversity_generator (heap st self)) grounding_fails
              completions_well_formed lengths_drawn MAX_RETRIES self st)
    as (st' & t & Hrun & Hcount & Htrace & Hannounced & Hpasses & Hlast); [done|lia|].
  rewrite fresh in Hannounced. exists st', t.
  repeat (split; [done|]). split.
  - intros B k. by apply bind_exit.
  - intros handler. unfold try_except. by rewrite Hrun.
Qed.

(** *** The blocks of one pass, run explicitly *)

Lemma seed_chunks_run (st : @State W) :
  exists chunks w, seed_chunks st = (Ok chunks, mkState (heap st) w (trace st)).
Proof.
  unfold seed_chunks, bind, call, ret. simpl.
  destruct (get_random_chunk (world st)) as [random_chunk w1]. simpl.
  destruct (get_all_chunks_of_document random_chunk w1) as [all_chunks w2]. simpl.
  eauto.
Qed.

Lemma draft_run (o : generator_object) (context : string) (st st3 : @State W)
    (drafted : DiversityInjection * completion) :
  draft o context st = (Ok drafted, st3) ->
  heap st3 = heap st
  /\ trace st3 = trace st ++ [span "generator.build_system_prompt";
                                span "generator.openai.chat"].
Proof.
  unfold draft, get_diversity_injection, _get_response_length, _get_tone_injection,
    _get_disruptive_injection, _get_language_injection, weighted_choice,
    _build_system_prompt, traced, bind, call, log, logged, ret, raise.
  simpl.
  destruct (lognormal _ _ (world st)) as [draw w0]. simpl.
  destruct (int_of_float _) as [e|n]; simpl; [done|].
  repeat match goal with
         | |- context [let '(_, _) := ?f ?w in _] => destruct (f w); simpl
         end.
  intros [= <- <-]. simpl. by rewrite <- app_assoc.
Qed.

Lemma try_build_context_run (results : list search_record) (st : @State W) :
  try_build_context results st
  = match build_context_pure results with
    | inr context => (Ok (Some context), logged st [span "generator._build_context"])
    | inl e => (Ok None, logged st [span "generator._build_context";
                                   print (Error_building_context e)])
    end.
Proof.
  unfold try_build_context, try_except, bind. rewrite build_context_run.
  destruct (build_context_pure results); simpl; [|done].
  by rewrite logged_logged.
Qed.

Lemma retried_retry_count (self : nat) (st : @State W) :
  retry_count (heap (retried self st) self) = retry_count (heap st self) + 1.
Proof. unfold retried. simpl. by rewrite fn_lookup_insert. Qed.

End GenerateFacts.


(** ** Retrying and accepting *)

Section RetryFacts.

Context {W : Type} `{!SearchService W, !LLMClient W, !Entropy W}.

(** A pass whose context could be built, up to the draft. *)
Lemma pass_up_to_draft (self : nat) (st : @State W) (chunks : list search_record)
    (st1 : State) (context : string) (diversity_injection : DiversityInjection)
    (qa_completion : completion) (st3 : State) :
  seed_chunks (logged st [span "generator.generate"]) = (Ok chunks, st1) ->
  build_context_pure chunks = inr context ->
  draft (heap st self) context (logged st1 [span "generator._build_context"])
  = (Ok (diversity_injection, qa_completion), st3) ->
  heap st3 = heap st
  /\ trace st3
     = trace st ++ [span "generator.generate"; span "generator._build_context";
                    span "generator.build_system_prompt"; span "generator.openai.chat"]
  /\ forall k,
       generate_body k self st
       = after_draft k self (heap st self) diversity_injection qa_completion st3.
Proof.
  intros seeded Hctx Hdraft.
  destruct (seed_chunks_run (logged st [span "generator.generate"]))
    as (chunks' & w1 & Hseed).
  rewrite seeded in Hseed. injection Hseed as -> ->.
  destruct (draft_run _ _ _ _ _ Hdraft) as [Hh3 Ht3]. simpl in Hh3, Ht3.
  split; [done|]. split; [rewrite Ht3; by rewrite <- !app_assoc|].
  intros k. unfold generate_body.
  rewrite traced_run, (bind_ok _ _ _ _ _ seeded).
  rewrite bind_ok with (a := Some context)
    (st1 := logged (mkState (heap st) w1 (trace st ++ [span "generator.generate"]))
              [span "generator._build_context"]).
  2:{ by rewrite try_build_context_run, Hctx. }
  rewrite bind_get_self. simpl.
  by rewrite (bind_ok _ _ _ _ _ Hdraft).
Qed.

(** A pass whose context could not be built. *)
Lemma pass_without_context (self : nat) (st : @State W) (chunks : list search_record)
    (st1 : State) (e : exception) :
  seed_chunks (logged st [span "generator.generate"]) = (Ok chunks, st1) ->
  build_context_pure chunks = inl e ->
  heap st1 = heap st
  /\ forall k,
       generate_body k self st
       = _retry_logic k self
           (logged st1 [span "generator._build_context";
                        print (Error_building_context e)]).
Proof.
  intros seeded He.
  destruct (seed_chunks_run (logged st [span "generator.generate"]))
    as (chunks' & w1 & Hseed).
  rewrite seeded in Hseed. injection Hseed as -> ->. split; [done|].
  intros k. unfold generate_body.
  rewrite traced_run, (bind_ok _ _ _ _ _ seeded).
  rewrite bind_ok with (a := None)
    (st1 := logged (mkState (heap st) w1 (trace st ++ [span "generator.generate"]))
              [span "generator._build_context"; print (Error_building_context e)]).
  2:{ by rewrite try_build_context_run, He. }
  reflexivity.
Qed.

Lemma verify_qa_heap (c : generator_class) (qa : QA) (st st' : @State W)
    (v : QAVerificationResult) :
  _verify_qa c qa st = (Ok v, st') -> heap st' = heap st.
Proof.
  intros E. destruct (runs_verify_qa_any c qa st) as (r & st1 & t & E' & Hh & _).
  rewrite E in E'. by injection E' as <- <-.
Qed.

(** C7: each transient failure of a pass hands over to [_retry_logic], in
    a state whose heap is still the one the pass started with, and nothing
    is raised: a context that cannot be built, the model calling the
    offered tool, or a failed verification.  While the budget lasts,
    [_retry_logic] raises the retry counter by one and goes round through
    [generate] again (with the budget used up it exits instead).  When the
    model calls the tool the hand-over comes right after the draft: the
    world is the one the draft left, and the trace of the pass shows a
    single model call and no verification span. *)
Theorem transient_failure_consumes_one_retry (self : nat) (st : @State W)
    (chunks : list search_record) (st1 : State)
    (seeded : seed_chunks (logged st [span "generator.generate"]) = (Ok chunks, st1)) :
  (forall s : @State W,
      (retry_count (heap s self) < MAX_RETRIES ->
       _retry_logic generate self s = generate self (retried self s)
       /\ retry_count (heap (retried self s) self) = retry_count (heap s self) + 1)
      /\ (MAX_RETRIES <= retry_count (heap s self) ->
          _retry_logic generate self s = (Exit 1, gave_up s)))
  /\ (forall e,
         build_context_pure chunks = inl e ->
         let st2 := logged st1 [span "generator._build_context";
                                print (Error_building_context e)] in
         generate self st = _retry_logic generate self st2
         /\ heap st2 = heap st)
  /\ (forall context diversity_injection qa_completion st3,
         build_context_pure chunks = inr context ->
         draft (heap st self) context (logged st1 [span "generator._build_context"])
         = (Ok (diversity_injection, qa_completion), st3) ->
         (invokes_retry qa_completion = true ->
          let st4 := logged st3 [print Function_call_retrying] in
          generate self st = _retry_logic generate self st4
          /\ heap st4 = heap st
          /\ world st4 = world st3
          /\ trace st4
             = trace st
               ++ [span "generator.generate"; span "generator._build_context";
                   span "generator.build_system_prompt"; span "generator.openai.chat";
                   print Function_call_retrying])
         /\ (forall qa verify_qa_result st4,
                invokes_retry qa_completion = false ->
                parsed qa_completion = Some qa ->
                _verify_qa (cls (heap st self)) qa st3 = (Ok verify_qa_result, st4) ->
                is_correct verify_qa_result = false ->
                generate self st = _retry_logic generate self st4
                /\ heap st4 = heap st)).
Proof.
  split; [|split].
  - intros s. split.
    + intros budget. rewrite retry_logic_retries by done.
      split; [done|]. apply retried_retry_count.
    + intros exhausted. by apply retry_logic_exits.
  - intros e He st2.
    destruct (pass_without_context self st chunks st1 e seeded He) as [Hh Hpass].
    rewrite generate_unfold at 1. rewrite Hpass. split; [done|].
    subst st2. simpl. exact Hh.
  - intros context diversity_injection qa_completion st3 Hctx Hdraft.
    destruct (pass_up_to_draft self st chunks st1 context diversity_injection
                qa_completion st3 seeded Hctx Hdraft) as (Hh & Ht & Hpass).
    split.
    + intros Hinv st4. rewrite generate_unfold at 1.
      rewrite Hpass. unfold after_draft. rewrite Hinv, bind_log.
      split; [done|]. subst st4. simpl. split; [exact Hh|]. split; [done|].
      rewrite Ht. by rewrite <- !app_assoc.
    + intros qa v st4 Hinv Hparsed Hverify Hv.
      rewrite generate_unfold at 1.
      rewrite Hpass. unfold after_draft. rewrite Hinv, Hparsed.
      rewrite (bind_ok _ _ _ _ _ Hverify), Hv. simpl.
      split; [done|]. by rewrite (verify_qa_heap _ _ _ _ _ Hverify).
Qed.

(** C8: a pass whose draft passes verification returns the tagged pair made
    of the question and answer of the draft, the tags of the class of the
    generator, the diversity injection sampled in this pass, the chunk ids
    the draft names, and the contents of the records the index returns for
    those ids when asked right after verification.  For the single-hop class
    the tag [question_type] is [single_hop_same_doc]. *)
Theorem accepted_sample_is_tagged (self : nat) (st : @State W)
    (chunks : list search_record) (st1 : State) (context : string)
    (diversity_injection : DiversityInjection) (qa_completion : completion)
    (st3 : State) (qa : QA) (verify_qa_result : QAVerificationResult) (st4 : State)
    (records : list search_record) (w5 : W)
    (seeded : seed_chunks (logged st [span "generator.generate"]) = (Ok chunks, st1))
    (built : build_context_pure chunks = inr context)
    (drafted : draft (heap st self) context (logged st1 [span "generator._build_context"])
               = (Ok (diversity_injection, qa_completion), st3))
    (no_tool_call : invokes_retry qa_completion = false)
    (candidate : parsed qa_completion = Some qa)
    (verified : _verify_qa (cls (heap st self)) qa st3 = (Ok verify_qa_result, st4))
    (passed : is_correct verify_qa_result = true)
    (snapshot : get_search_records_by_ids (chunk_ids qa) (world st4) = (records, w5)) :
  generate self st
  = (Ok (mkQATagged (question qa) (ground_truth_answer qa)
           (_get_tags (cls (heap st self))) diversity_injection (chunk_ids qa)
           (map get_search_record_content records)),
     mkState (heap st4) w5 (trace st4))
  /\ (cls (heap st self) = SingleHopOneDocGenerator ->
      _get_tags (cls (heap st self)) !! "question_type" = Some "single_hop_same_doc")
  /\ (cls (heap st self) = MultiHopOneDocGenerator ->
      _get_tags (cls (heap st self)) !! "question_type" = Some "multi_hop_same_doc").
Proof.
  destruct (pass_up_to_draft self st chunks st1 context diversity_injection
              qa_completion st3 seeded built drafted) as (Hh & Ht & Hpass).
  split; [|split; intros ->; reflexivity].
  rewrite generate_unfold, Hpass. unfold after_draft.
  rewrite no_tool_call, candidate, (bind_ok _ _ _ _ _ verified), passed. simpl.
  unfold _get_chunk_content_by_ids, bind, call, ret. by rewrite snapshot.
Qed.

(** What a call of [generate] does to the heap: the counter of [self] goes
    up by the number of retries announced, never beyond [MAX_RETRIES], and
    nothing else changes. *)
Lemma generate_frame (n : nat) :
  forall (self : nat) (st : @State W),
    MAX_RETRIES - retry_count (heap st self) <= n ->
    let st' := snd (generate self st) in
    (exists t,
        trace st' = trace st ++ t
        /\ retry_count (heap st' self)
           = retry_count (heap st self) + length (announced_attempts t))
    /\ (retry_count (heap st self) <= MAX_RETRIES ->
        retry_count (heap st' self) <= MAX_RETRIES)
    /\ cls (heap st' self) = cls (heap st self)
    /\ (forall other, other <> self -> heap st' other = heap st other).
Proof.
  induction n as [|n IH]; intros self st Hn; simpl;
    rewrite generate_attempt;
    destruct (attempt_any self st)
      as (st1 & t & Hh & Ht & Hi & [E | [(e & E & He) | (qt & v & E & _)]]);
    unfold bind; rewrite E; simpl.
  all: try (split; [exists (span "generator.generate" :: t); split; [done|];
                    rewrite Hh; simpl; rewrite (announced_attempts_inner t) by done;
                    simpl; lia|];
            rewrite Hh; by repeat split).
  - rewrite retry_logic_exits by (rewrite Hh; lia). simpl. rewrite Hh.
    split; [|by repeat split].
    exists (span "generator.generate" :: t
              ++ [span "generator.retry_logic"; print Max_retries_reached]).
    split; [trace_eq|]. simpl.
    rewrite announced_attempts_app, (announced_attempts_inner t) by done. simpl. lia.
  - destruct (decide (retry_count (heap st1 self) < MAX_RETRIES)) as [Hlt|Hge].
    + rewrite retry_logic_retries by done.
      destruct (IH self (retried self st1)) as ((t' & Ht' & Hc) & Hle & Hcls & Hother).
      { rewrite retried_retry_count, Hh. lia. }
      rewrite retried_retry_count, Hh in *.
      split; [|split; [|split]].
      * exists ((span "generator.generate" :: t
                   ++ [span "generator.retry_logic"; print Generation_failed_retrying;
                       print (Retrying_Attempt (retry_count (heap st self) + 1))])
                  ++ t').
        split.
        -- rewrite Ht'. unfold retried. simpl. rewrite Hh. trace_eq.
        -- rewrite Hc, announced_attempts_app. simpl.
           rewrite announced_attempts_app, (announced_attempts_inner t) by done.
           simpl. lia.
      * intros _. apply Hle. lia.
      * rewrite Hcls. unfold retried. simpl. by rewrite fn_lookup_insert, Hh.
      * intros other Hne. rewrite Hother by done. unfold retried. simpl.
        by rewrite fn_lookup_insert_ne, Hh.
    + rewrite retry_logic_exits by lia. simpl. rewrite Hh.
      split; [|by repeat split].
      exists (span "generator.generate" :: t
                ++ [span "generator.retry_logic"; print Max_retries_reached]).
      split; [trace_eq|]. simpl.
      rewrite announced_attempts_app, (announced_attempts_inner t) by done. simpl. lia.
Qed.

(** C9 (as amended): the retry counter is a field of the generator object.
    [__init__] sets it to 0; a call of [generate] raises it by one for each
    retry it announces and never lowers it, so the next sample drawn from
    the same object starts from the count the previous one left and all
    samples of one object share the budget of [MAX_RETRIES] retries; the
    counters (indeed all fields) of the other objects are left alone. *)
Theorem retry_counter_belongs_to_object (self : nat) (st : @State W) :
  let st' := snd (generate self st) in
  (forall c config st0,
      retry_count (heap (snd (BaseGenerator_init (W:=W) self c config st0)) self) = 0)
  /\ retry_count (heap st self) <= retry_count (heap st' self)
  /\ (exists t,
         trace st' = trace st ++ t
         /\ retry_count (heap st' self)
            = retry_count (heap st self) + length (announced_attempts t))
  /\ (retry_count (heap st self) <= MAX_RETRIES ->
      retry_count (heap st' self) <= MAX_RETRIES)
  /\ (forall other, other <> self -> heap st' other = heap st other).
Proof.
  destruct (generate_frame (MAX_RETRIES - retry_count (heap st self)) self st)
    as ((t & Ht & Hc) & Hle & _ & Hother); [lia|].
  simpl. split; [|split; [|split; [|split]]].
  - intros c config st0. simpl. by rewrite fn_lookup_insert.
  - simpl in Hc. lia.
  - by exists t.
  - exact Hle.
  - exact Hother.
Qed.

End RetryFacts.

(** ** Numbers *)

Section Numbers.

Local Open Scope Q_scope.

Lemma truncate_floor (x : Q) : 0 <= x -> truncate x = Qfloor x.
Proof.
  intros Hx. unfold truncate.
  destruct (Qle_bool 0 x) eqn:E; [done|].
  apply Qle_bool_iff in Hx. congruence.
Qed.

Lemma truncate_lower (k : Z) (x : Q) : inject_Z k <= x -> (k <= truncate x)%Z.
Proof.
  intros Hk. unfold truncate. destruct (Qle_bool 0 x).
  - rewrite <- (Qfloor_Z k). by apply Qfloor_resp_le.
  - rewrite <- (Qceiling_Z k). by apply Qceiling_resp_le.
Qed.

Lemma py_sum_from (l : list Q) (a : Q) : fold_left Qplus l a == a + py_sum l.
Proof.
  unfold py_sum. revert a. induction l as [|x l IH]; intros a; simpl.
  - lra.
  - rewrite IH, (IH (0 + x)). lra.
Qed.

Lemma py_sum_cons (x : Q) (l : list Q) : py_sum (x :: l) == x + py_sum l.
Proof. unfold py_sum at 1. simpl. rewrite py_sum_from. lra. Qed.

(** *** binary64 *)

Lemma digits2_pos_bounds (m : positive) :
  (2 ^ (Zpos (digits2_pos m) - 1) <= Zpos m < 2 ^ Zpos (digits2_pos m))%Z.
Proof.
  induction m as [m IH|m IH|]; simpl digits2_pos.
  - rewrite Pos2Z.inj_succ.
    replace (Z.succ (Zpos (digits2_pos m)) - 1)%Z with (Z.succ (Zpos (digits2_pos m) - 1))%Z
      by lia.
    rewrite !Z.pow_succ_r by lia. lia.
  - rewrite Pos2Z.inj_succ.
    replace (Z.succ (Zpos (digits2_pos m)) - 1)%Z with (Z.succ (Zpos (digits2_pos m) - 1))%Z
      by lia.
    rewrite !Z.pow_succ_r by lia. lia.
  - simpl. lia.
Qed.

(** What validity says of a finite mantissa: it has at most 53 bits, and
    exactly 53 above the least exponent. *)
Lemma bounded_mantissa (m : positive) (e : Z) :
  bounded prec emax m e = true ->
  (Zpos m < 2 ^ 53)%Z /\ (-1074 <= e)%Z /\ ((-1074 < e)%Z -> (2 ^ 52 <= Zpos m)%Z).
Proof.
  unfold bounded, canonical_mantissa, fexp, SpecFloat.emin, prec, emax.
  intros [Hc _]%andb_prop. apply Z.eqb_eq in Hc.
  pose proof (digits2_pos_bounds m) as [Hlo Hhi].
  set (d := Zpos (digits2_pos m)) in *.
  assert (0 < d)%Z by (subst d; lia).
  split; [|split].
  - assert (d <= 53)%Z by lia.
    eapply Z.lt_le_trans; [exact Hhi|]. apply Z.pow_le_mono_r; lia.
  - lia.
  - intros He. assert (d = 53)%Z as Hd by lia. rewrite Hd in Hlo. exact Hlo.
Qed.

Lemma two_power_pos (e : Z) : 0 < 2 ^ e.
Proof. by apply Qpower_0_lt. Qed.

Lemma scaled_lt (m1 m2 : positive) (e1 e2 : Z) :
  bounded prec emax m1 e1 = true -> bounded prec emax m2 e2 = true ->
  (e1 < e2)%Z ->
  inject_Z (Zpos m1) * 2 ^ e1 < inject_Z (Zpos m2) * 2 ^ e2.
Proof.
  intros (H1 & Hmin & _)%bounded_mantissa (_ & _ & H2)%bounded_mantissa He.
  specialize (H2 ltac:(lia)).
  replace e2 with ((e2 - e1) + e1)%Z by lia.
  rewrite Qpower_plus by done.
  rewrite <- (Zpower_Qpower 2 (e2 - e1)) by lia.
  rewrite Qmult_assoc, <- inject_Z_mult.
  apply Qmult_lt_compat_r; [apply two_power_pos|].
  rewrite <- Zlt_Qlt.
  assert (2 ^ 1 <= 2 ^ (e2 - e1))%Z by (apply Z.pow_le_mono_r; lia).
  change (2 ^ 53)%Z with (2 ^ 52 * 2 ^ 1)%Z in H1. nia.
Qed.

Lemma same_exponent_lt (m1 m2 : positive) (e : Z) :
  (m1 < m2)%positive ->
  inject_Z (Zpos m1) * 2 ^ e < inject_Z (Zpos m2) * 2 ^ e.
Proof.
  intros Hm. apply Qmult_lt_compat_r; [apply two_power_pos|].
  rewrite <- Zlt_Qlt. lia.
Qed.

Lemma SFcompare_lt_value (x y : spec_float) :
  valid_binary x = true -> valid_binary y = true ->
  SFcompare x y = Some Lt ->
  match x, y with
  | (S754_zero _ | S754_finite _ _ _), (S754_zero _ | S754_finite _ _ _) =>
      SF_value x < SF_value y
  | _, _ => True
  end.
Proof.
  destruct x as [sx|sx| |sx mx ex], y as [sy|sy| |sy my ey]; try done; simpl.
  - intros _ _. destruct sy; [done|]. intros _. simpl.
    pose proof (two_power_pos ey) as Hp.
    assert (0 < inject_Z (Zpos my)) by (by rewrite <- (Zlt_Qlt 0)). nra.
  - intros _ _. destruct sx; [|done]. intros _. simpl.
    pose proof (two_power_pos ex) as Hp.
    assert (0 < inject_Z (Zpos mx)) by (by rewrite <- (Zlt_Qlt 0)).
    change (inject_Z (Z.neg mx)) with (inject_Z (- Zpos mx)).
    rewrite inject_Z_opp. nra.
  - intros Hx Hy.
    pose proof (two_power_pos ex) as Hpx. pose proof (two_power_pos ey) as Hpy.
    assert (0 < inject_Z (Zpos mx)) as Hmx by (by rewrite <- (Zlt_Qlt 0)).
    assert (0 < inject_Z (Zpos my)) as Hmy by (by rewrite <- (Zlt_Qlt 0)).
    destruct sx, sy; simpl;
      change (inject_Z (Z.neg mx)) with (inject_Z (- Zpos mx));
      change (inject_Z (Z.neg my)) with (inject_Z (- Zpos my));
      rewrite ?inject_Z_opp.
    + destruct (Z.compare_spec ex ey) as [->|Hlt|Hgt]; try done.
      * intros [= Hc]. apply CompOpp_iff in Hc. simpl in Hc.
        pose proof (same_exponent_lt my mx ey) as Hs.
        specialize (Hs ltac:(by apply Pos.gt_lt)). nra.
      * intros _. pose proof (scaled_lt my mx ey ex Hy Hx Hgt). nra.
    + intros _. nra.
    + done.
    + destruct (Z.compare_spec ex ey) as [->|Hlt|Hgt]; try done.
      * intros [= Hc]. by apply same_exponent_lt.
      * intros _. by apply scaled_lt.
Qed.

(** [x < y] on finite floats is the order of their values. *)
Lemma ltb_value (x y : float) :
  (x <? y)%float = true -> is_finite x = true -> is_finite y = true ->
  float_value x < float_value y.
Proof.
  rewrite ltb_spec. unfold SFltb, is_finite, float_value.
  pose proof (Prim2SF_valid x) as Hx. pose proof (Prim2SF_valid y) as Hy.
  destruct (SFcompare (Prim2SF x) (Prim2SF y)) as [[]|] eqn:Hc; try done.
  intros _ Hfx Hfy.
  pose proof (SFcompare_lt_value _ _ Hx Hy Hc) as Hv.
  destruct (Prim2SF x), (Prim2SF y); done.
Qed.

(** A float between 0 and 1 is finite. *)
Lemma in_range_finite (p : float) :
  percentage_in_range p = true -> is_finite p = true.
Proof.
  unfold percentage_in_range. rewrite !leb_spec. unfold is_finite.
  change (Prim2SF 0) with (S754_zero false).
  by destruct (Prim2SF p) as [s|[]| |s m e].
Qed.

(** [int(x)] returns on the finite floats, and truncates their value. *)
Lemma int_of_float_returns (x : float) (n : Z) :
  int_of_float x = inr n <-> is_finite x = true /\ n = truncate (float_value x).
Proof.
  unfold int_of_float, is_finite.
  destruct (Prim2SF x); split; try done; try (by intros [= <-]);
    try (by intros [_ ->]); by intros [? _].
Qed.

Lemma int_of_float_raises (x : float) (e : exception) :
  int_of_float x = inl e -> is_finite x = false /\ conversion_error e.
Proof.
  unfold int_of_float, is_finite, conversion_error.
  destruct (Prim2SF x); try done; intros [= <-]; split; auto.
Qed.

(** No sample is asked of a finite proportion of zero samples. *)
Lemma num_samples_zero (p : float) : is_finite p = true -> num_samples 0 p = inr 0%Z.
Proof.
  intros Hp. unfold num_samples.
  change (float_of_int 0) with (@inr exception float 0%float).
  apply int_of_float_returns. unfold is_finite, float_value in *.
  rewrite mul_spec. change (Prim2SF 0) with (S754_zero false).
  by destruct (Prim2SF p).
Qed.

Lemma num_samples_raises (total : Z) (p : float) (e : exception) :
  num_samples total p = inl e -> e = int_too_large \/ conversion_error e.
Proof.
  unfold num_samples, float_of_int.
  destruct (is_finite _); [|intros [= <-]; by left].
  intros [_ He]%int_of_float_raises. by right.
Qed.

Lemma first_out_of_range_none (plan : list (nat * float)) :
  first_out_of_range plan = None
  <-> Forall (fun gp => percentage_in_range (snd gp) = true) plan.
Proof.
  induction plan as [|[g p] plan IH]; simpl.
  - split; [constructor|done].
  - destruct (percentage_in_range p) eqn:E.
    + rewrite IH. split; [by constructor|by inversion 1].
    + split; [done|]. inversion 1; simpl in *; congruence.
Qed.

End Numbers.

(** ** The batch allocator *)

Section FactoryFacts.

Context {W : Type} `{!SearchService W, !LLMClient W, !Entropy W}.


Section AnyGenerator.

Variable generate_method : nat -> @M W QATagged.

Lemma sample_loop_request (generator : nat) (n : nat) :
  forall (samples : list QATagged) (st : @State W),
    sample_loop generate_method generator n samples st
    = bind (request_samples generate_method generator n)
        (fun batch => ret (samples ++ batch)) st.
Proof.
  induction n as [|n IH]; intros samples st; simpl.
  - unfold bind, ret. simpl. by rewrite app_nil_r.
  - rewrite bind_assoc. apply bind_ext. intros sample st1.
    rewrite bind_assoc. apply bind_ext. intros _ st2.
    rewrite IH, bind_assoc. apply bind_ext. intros batch st3.
    unfold bind, ret. simpl. by rewrite <- app_assoc.
Qed.

Lemma generators_loop_allocate (plan : list (nat * float)) (total : Z) :
  forall (samples : list QATagged) (st : @State W),
    generators_loop generate_method plan total samples st
    = bind (allocate_spec generate_method plan total)
        (fun batch => ret (samples ++ batch)) st.
Proof.
  induction plan as [|[g p] plan IH]; intros samples st; simpl.
  - unfold bind, ret. simpl. by rewrite app_nil_r.
  - destruct (num_samples total p) as [e|count]; [done|].
    destruct (count =? 0)%Z eqn:Ez.
    + rewrite IH, bind_assoc, bind_ret, bind_assoc. apply bind_ext. intros batch st1.
      reflexivity.
    + rewrite !bind_assoc. apply bind_ext. intros o st1.
      rewrite !bind_assoc. apply bind_ext. intros _ st2.
      rewrite (bind_ext_l _ _ _ _ (sample_loop_request g _ samples)).
      rewrite !bind_assoc. apply bind_ext. intros batch st3.
      rewrite bind_ret, IH, bind_assoc. apply bind_ext. intros others st4.
      unfold bind, ret. simpl. by rewrite <- app_assoc.
Qed.

Lemma request_samples_length (generator : nat) (n : nat) :
  forall (st st' : @State W) (batch : list QATagged),
    request_samples generate_method generator n st = (Ok batch, st') ->
    length batch = n.
Proof.
  induction n as [|n IH]; intros st st' batch; simpl.
  - by intros [= <- _].
  - unfold bind at 1. destruct (generate_method generator st) as [[sample|e|c|] st1];
      try done.
    rewrite bind_log. unfold bind at 1.
    destruct (request_samples generate_method generator n (logged st1 [pbar_update]))
      as [[others|e|c|] st2] eqn:E; try done.
    intros [= <- _]. simpl. f_equal. by eapply IH.
Qed.

Lemma allocate_spec_length (plan : list (nat * float)) (total : Z) :
  forall (st st' : @State W) (samples : list QATagged),
    allocate_spec generate_method plan total st = (Ok samples, st') ->
    length samples = total_count plan total.
Proof.
  induction plan as [|[g p] plan IH]; intros st st' samples; simpl.
  - by intros [= <- _].
  - unfold total_count. simpl. fold (total_count plan total).
    unfold planned_count.
    destruct (num_samples total p) as [e|count]; [done|].
    unfold bind at 1.
    destruct (count =? 0)%Z eqn:En.
    + apply Z.eqb_eq in En. rewrite En. simpl.
      unfold bind at 1.
      destruct (allocate_spec generate_method plan total st)
        as [[others|e|c|] st2] eqn:E; try done.
      intros [= <- _]. by eapply IH.
    + rewrite bind_get_self, bind_log.
      destruct (request_samples generate_method g (Z.to_nat count) _)
        as [[batch|e|c|] st1] eqn:Eb; try done.
      unfold bind at 1.
      destruct (allocate_spec generate_method plan total st1)
        as [[others|e|c|] st2] eqn:E; try done.
      intros [= <- _]. rewrite length_app.
      apply request_samples_length in Eb. apply IH in E. lia.
Qed.

End AnyGenerator.

(** [save_qa_to_json], run: the clock is read, then the directory is made
    or not, and only then the file is written. *)
Lemma save_qa_to_json_run (self : QAFactory) (samples : list QATagged) (st : @State W) :
  save_qa_to_json self samples st
  = let '(timestamp, w) := strftime_now (world st) in
    let full_path :=
      os_path_join (output_folder self) ("qa_generated_" +:+ timestamp +:+ ".json") in
    if str_truthy (output_folder self) then
      (Ok full_path,
       mkState (heap st) w
         (trace st ++ [json_dump samples full_path;
                       print (Saved_samples (length samples) full_path)]))
    else (Raise no_such_directory, mkState (heap st) w (trace st)).
Proof.
  unfold save_qa_to_json, os_makedirs, bind at 1, call.
  destruct (strftime_now (world st)) as [timestamp w].
  destruct (str_truthy (output_folder self)); [|done].
  rewrite bind_ret, !bind_log. unfold ret, logged. simpl. by rewrite <- !app_assoc.
Qed.


End FactoryFacts.

(** ** The response length *)

Section DiversityFacts.

Context {W : Type} `{!Entropy W}.


End DiversityFacts.

(** ** The engine on the scripted world *)

Module Examples.

Import Mock.

(** The generator of [main.py] at address 0 against a model that rejects
    every draft, with draws of 1. *)
Lemma always_rejected_gives_up_witness :
  exists st',
    @generate script search (rejecting_llm fee_qa) steady_entropy 0 (start fee_world)
    = (Exit 1, st')
    /\ retry_count (heap st' 0) = MAX_RETRIES.
Proof.
  destruct (@always_rejected_gives_up script search (rejecting_llm fee_qa) steady_entropy
              0 (start fee_world)) as (st' & t & Hrun & Hcount & _).
  - intros question context w. reflexivity.
  - intros p w _. simpl. eauto.
  - intros s. exists 4%Z, (mkState (heap s) (world s) (trace s)). reflexivity.
  - reflexivity.
  - exists st'. split; [exact Hrun|exact Hcount].
Defined.

Lemma main_plan_valid : valid_plan main_plan.
Proof.
  split; [vm_compute; reflexivity|].
  repeat constructor; vm_compute; reflexivity.
Defined.



(** A plan within the tolerance of the specification that the code
    rejects: the exact sum of 0.5, 0.5 and 0.009999999999999998 is below
    1.01, the binary64 sum is 1.01, and [abs(1.01 - 1.0)] is
    0.010000000000000009 as a float, which is larger than the float 0.01. *)
Lemma rounded_sum_is_rejected :
  within_tolerance rounding_plan
  /\ ~ valid_plan rounding_plan
  /\ @QAFactory_init script rounding_plan "data/q-a" (start fee_world)
     = (Raise (ValueError_got "Generator percentages must sum to 1.0, got "
                 (float_ 1.01)),
        start fee_world).
Proof.
  split; [|split].
  - split; [repeat constructor; vm_compute; reflexivity|].
    split; [vm_compute; discriminate|].
    repeat constructor; vm_compute; discriminate.
  - intros [Hsum _]. vm_compute in Hsum. discriminate.
  - vm_compute. reflexivity.
Qed.

(** The three fragments of the specification's example. *)
Lemma build_context_headers_witness :
  @_build_context script search doc_chunks (start fee_world)
  = (Ok (String.concat (newline +:+ newline)
           ["Document Title: T";
            "CHUNK_ID: a0" +:+ newline +:+ "Content: first";
            "CHUNK_ID: a1" +:+ newline +:+ "Content: second";
            "Document Title: U";
            "CHUNK_ID: b0" +:+ newline +:+ "Content: third"]),
     logged (start fee_world) [span "generator._build_context"]).
Proof.
  destruct (@build_context_headers script search doc_chunks (start fee_world)
              ltac:(discriminate)) as [Hrun Hthree].
  rewrite Hrun.
  rewrite (Hthree _ _ _ eq_refl eq_refl ltac:(discriminate) ltac:(discriminate)
             ltac:(discriminate)).
  reflexivity.
Defined.

(** A fragment whose title is empty gets no header although its title
    differs from the one before it. *)
Lemma empty_title_gets_no_header :
  @build_context_pure script search untitled_chunks
  = inr (String.concat (newline +:+ newline)
           ["Document Title: T";
            "CHUNK_ID: x0" +:+ newline +:+ "Content: one";
            "CHUNK_ID: x1" +:+ newline +:+ "Content: two"])
  /\ @build_context_pure script search untitled_chunks
     <> inr (@context_of script search parts_as_specified untitled_chunks).
Proof.
  split; [reflexivity|]. vm_compute. discriminate.
Qed.

(** The model calls the offered tool in the first pass. *)
Lemma transient_failure_consumes_one_retry_witness :
  let st := start abstain_once_world in
  let st4 := logged (snd (drafted scripted_llm abstain_once_world))
               [print Function_call_retrying] in
  @generate script search scripted_llm entropy 0 st
  = @generate script search scripted_llm entropy 0 (retried 0 st4)
  /\ retry_count (heap (retried 0 st4) 0) = retry_count (heap st4 0) + 1
  /\ heap st4 = heap st.
Proof.
  intros st st4.
  destruct (@transient_failure_consumes_one_retry script search scripted_llm entropy
              0 st (seeded_chunks scripted_llm abstain_once_world)
              (snd (seeded scripted_llm abstain_once_world)))
    as (Hretry & _ & Hdraft).
  - vm_compute. reflexivity.
  - destruct (Hdraft (built_context scripted_llm abstain_once_world)
                (fst (drafted_pair scripted_llm abstain_once_world))
                (snd (drafted_pair scripted_llm abstain_once_world))
                (snd (drafted scripted_llm abstain_once_world)))
      as [Htool _].
    + vm_compute. reflexivity.
    + vm_compute. reflexivity.
    + destruct Htool as (Hgo & Hheap & _); [vm_compute; reflexivity|].
      destruct (Hretry st4) as [Hbudget _].
      destruct Hbudget as [Hround Hcount]; [vm_compute; lia|].
      split; [exact (eq_trans Hgo Hround)|]. split; [exact Hcount|exact Hheap].
Defined.

(** The end-to-end example of the specification. *)
Lemma accepted_sample_is_tagged_witness :
  exists qa_tagged st',
    @generate script search scripted_llm entropy 0 (start fee_world)
    = (Ok qa_tagged, st')
    /\ tagged_question qa_tagged = "What is the fee?"
    /\ tagged_ground_truth_answer qa_tagged = "$500"
    /\ tagged_chunk_ids qa_tagged = ["c1"]
    /\ chunk_content qa_tagged = ["Fee is $500"]
    /\ tags qa_tagged !! "question_type" = Some "single_hop_same_doc".
Proof.
  destruct (@accepted_sample_is_tagged script search scripted_llm entropy
              0 (start fee_world)
              (seeded_chunks scripted_llm fee_world)
              (snd (seeded scripted_llm fee_world))
              (built_context scripted_llm fee_world)
              (fst (drafted_pair scripted_llm fee_world))
              (snd (drafted_pair scripted_llm fee_world))
              (snd (drafted scripted_llm fee_world))
              fee_qa
              (ok_or (mkVerification false "") (fst (verified scripted_llm fee_world fee_qa)))
              (snd (verified scripted_llm fee_world fee_qa))
              [fee_chunk]
              (world (snd (verified scripted_llm fee_world fee_qa))))
    as (Hrun & Hsingle & _).
  1-8: vm_compute; reflexivity.
  eexists _, _. split; [exact Hrun|].
  split; [reflexivity|]. split; [reflexivity|]. split; [reflexivity|].
  split; [reflexivity|]. apply Hsingle. vm_compute. reflexivity.
Defined.

(** Two samples from one generator object: the first needs six retries, the
    second starts with the counter at 6 and the process exits after four
    more retries; had the counter been reset, ten retries would have been
    made. *)
Lemma retry_counter_not_reset :
  let first := @generate script search scripted_llm entropy 0 (start six_retries_world) in
  let second := @generate script search scripted_llm entropy 0 (snd first) in
  let second_if_reset :=
    @generate script search scripted_llm entropy 0 (reset_counter 0 (snd first)) in
  (exists qa_tagged, fst first = Ok qa_tagged)
  /\ retry_count (heap (snd first) 0) = 6
  /\ fst second = Exit 1
  /\ announced_attempts (drop (length (trace (snd first))) (trace (snd second)))
     = [7; 8; 9; 10]
  /\ announced_attempts
       (drop (length (trace (snd first))) (trace (snd second_if_reset)))
     = seq 1 10.
Proof.
  intros first second second_if_reset.
  split; [by eexists; vm_compute|].
  repeat split; vm_compute; reflexivity.
Qed.



End Examples.

(** * Further properties of the engine *)

(** ** More on the context builder *)

Section ContextParts.

Context {W : Type} `{!SearchService W}.

Lemma prefix_append (s t : string) : String.prefix s (s +:+ t) = true.
Proof.
  induction s as [|c s IH]; simpl; [by destruct t|].
  destruct (ascii_dec c c); [exact IH|done].
Qed.

Lemma chunk_block_is_block (r : search_record) : is_chunk_block (chunk_block r) = true.
Proof. unfold is_chunk_block, chunk_block. apply prefix_append. Qed.

Lemma title_line_is_title (t : string) : is_title_line (title_line t) = true.
Proof. unfold is_title_line, title_line. apply prefix_append. Qed.

Lemma title_line_not_block (t : string) : is_chunk_block (title_line t) = false.
Proof. reflexivity. Qed.

Lemma chunk_block_not_title (r : search_record) : is_title_line (chunk_block r) = false.
Proof. reflexivity. Qed.

Lemma parts_as_built_blocks (previous : option string) (r : search_record) :
  List.filter is_chunk_block (parts_as_built previous r) = [chunk_block r]
  /\ length (List.filter is_title_line (parts_as_built previous r)) <= 1.
Proof.
  unfold parts_as_built.
  destruct (bool_decide (previous = Some (get_search_record_title r))); simpl;
    [|destruct (str_truthy (get_search_record_title r)); simpl];
    rewrite ?chunk_block_is_block, ?chunk_block_not_title, ?title_line_is_title;
    simpl; rewrite ?chunk_block_is_block; auto.
Qed.

Lemma built_parts_cons (previous : option string) (r : search_record)
    (rest : list search_record) :
  concat (zip_with parts_as_built
            (previous :: map (fun r => Some (get_search_record_title r)) (r :: rest))
            (r :: rest))
  = parts_as_built previous r
    ++ concat (zip_with parts_as_built
                 (Some (get_search_record_title r)
                    :: map (fun r => Some (get_search_record_title r)) rest)
                 rest).
Proof. reflexivity. Qed.

Lemma built_parts_blocks (results : list search_record) :
  forall previous : option string,
    List.filter is_chunk_block
      (concat (zip_with parts_as_built
                 (previous :: map (fun r => Some (get_search_record_title r)) results)
                 results))
    = map chunk_block results
    /\ length (List.filter is_title_line
                 (concat (zip_with parts_as_built
                            (previous
                               :: map (fun r => Some (get_search_record_title r)) results)
                            results)))
       <= length results.
Proof.
  induction results as [|r rest IH]; intros previous; [simpl; auto|].
  destruct (IH (Some (get_search_record_title r))) as [IHb IHt].
  destruct (parts_as_built_blocks previous r) as [Hb Ht].
  rewrite built_parts_cons, !List.filter_app, length_app, Hb, IHb.
  split; [done|]. change (length (r :: rest)) with (S (length rest)). lia.
Qed.

Lemma built_parts_shape (results : list search_record) :
  forall previous : option string,
    Forall (fun part => is_chunk_block part = true \/ is_title_line part = true)
      (concat (zip_with parts_as_built
                 (previous :: map (fun r => Some (get_search_record_title r)) results)
                 results))
    /\ length (concat (zip_with parts_as_built
                         (previous
                            :: map (fun r => Some (get_search_record_title r)) results)
                         results))
       = length results
         + length (List.filter is_title_line
                     (concat (zip_with parts_as_built
                                (previous
                                   :: map (fun r => Some (get_search_record_title r))
                                        results)
                                results))).
Proof.
  induction results as [|r rest IH]; intros previous; [simpl; auto|].
  destruct (IH (Some (get_search_record_title r))) as [IHa IHl].
  rewrite built_parts_cons, List.filter_app, !length_app, IHl. split.
  - apply Forall_app_2; [|exact IHa]. unfold parts_as_built.
    destruct (bool_decide (previous = Some (get_search_record_title r))); simpl;
      [|destruct (str_truthy (get_search_record_title r)); simpl];
      repeat apply Forall_cons_2; try apply Forall_nil_2;
      first [left; apply chunk_block_is_block | right; apply title_line_is_title].
  - unfold parts_as_built.
    destruct (bool_decide (previous = Some (get_search_record_title r))); simpl;
      [|destruct (str_truthy (get_search_record_title r)); simpl];
      rewrite ?chunk_block_not_title, ?title_line_is_title; simpl;
      rewrite ?chunk_block_not_title;
      change (length (r :: rest)) with (S (length rest));
      cbn [length List.filter app]; lia.
Qed.

(** X1: whatever the titles, the parts of a context contain the labelled
    block of every fragment exactly once and in the order of the fragments,
    and at most one title header per fragment. *)
Theorem build_context_blocks_in_order (results : list search_record) :
  let context_parts := build_context_loop results [] None in
  List.filter is_chunk_block context_parts = map chunk_block results
  /\ length (List.filter is_title_line context_parts) <= length results
  /\ length context_parts
     = length results + length (List.filter is_title_line context_parts)
  /\ Forall (fun part => is_chunk_block part = true \/ is_title_line part = true)
       context_parts.
Proof.
  intros context_parts. subst context_parts. rewrite build_context_loop_parts.
  rewrite app_nil_l.
  destruct (built_parts_blocks results None) as [Hb Ht].
  destruct (built_parts_shape results None) as [Ha Hl].
  split; [exact Hb|]. split; [exact Ht|]. split; [exact Hl|exact Ha].
Qed.

Lemma same_title_parts (t : string) (results : list search_record) :
  Forall (fun r => get_search_record_title r = t) results ->
  concat (zip_with parts_as_built
            (Some t :: map (fun r => Some (get_search_record_title r)) results)
            results)
  = map chunk_block results.
Proof.
  induction 1 as [|r rest Hr _ IH]; [done|].
  rewrite built_parts_cons. unfold parts_as_built at 1.
  rewrite Hr, bool_decide_eq_true_2 by done.
  by rewrite IH.
Qed.

(** X2: fragments that all carry one title, as the chunks of one document
    do, share a single header at the top of the context; when that title is
    empty the context has no header at all. *)
Theorem build_context_one_document (t : string) (results : list search_record)
    (nonempty : results <> [])
    (same_title : Forall (fun r => get_search_record_title r = t) results) :
  build_context_pure results
  = inr (String.concat (newline +:+ newline)
           ((if str_truthy t then [title_line t] else []) ++ map chunk_block results)).
Proof.
  rewrite build_context_pure_nonempty by done.
  unfold context_of, preceding_titles.
  destruct results as [|r rest]; [done|]. inversion same_title as [|? ? Hr Hrest]; subst.
  rewrite built_parts_cons. unfold parts_as_built at 1.
  rewrite bool_decide_eq_false_2 by done.
  rewrite same_title_parts by done.
  by destruct (str_truthy (get_search_record_title r)).
Qed.

End ContextParts.

(** ** More on the verification predicates *)

Section VerificationEdges.

Context {W : Type} `{!SearchService W, !LLMClient W, !Entropy W}.

Lemma bind_call {A B} (f : W -> A * W) (k : A -> @M W B) (st : @State W) :
  bind (call f) k st
  = let '(a, w) := f (world st) in k a (mkState (heap st) w (trace st)).
Proof. unfold bind, call. by destruct (f (world st)). Qed.

Lemma bind_judge {B} (system_prompt : prompt) (k : QAVerificationResult -> @M W B)
    (st : @State W) :
  bind (judge system_prompt) k st
  = let '(parsed, w) := parse_QAVerificationResult system_prompt (world st) in
    let st1 := mkState (heap st) w (trace st ++ [span "generator.openai.chat"]) in
    match parsed with
    | Some v => k v st1
    | None => (Raise none_has_no_is_correct, st1)
    end.
Proof.
  unfold judge, traced. rewrite bind_assoc, bind_log, bind_assoc, bind_call. simpl.
  destruct (parse_QAVerificationResult system_prompt (world st)) as [[v|] w]; reflexivity.
Qed.

(** The grounding check, case by case. *)
Lemma chunk_connection_run (qa : QA) (st : @State W) :
  _verify_qa_chunk_connection qa st
  = let '(results, w1) := get_search_records_by_ids (chunk_ids qa) (world st) in
    match results with
    | [] =>
        (Ok (mkVerification false "No chunks found for the given chunk IDs"),
         mkState (heap st) w1 (trace st ++ [span "generator.verify_chunk_connection"]))
    | _ :: _ =>
        let '(parsed, w2) :=
          parse_QAVerificationResult
            (chunk_connection_prompt (question qa) (context_of parts_as_built results))
            w1 in
        match parsed with
        | Some v =>
            (Ok v,
             mkState (heap st) w2
               (trace st
                  ++ [span "generator.verify_chunk_connection";
                      span "generator._build_context"; span "generator.openai.chat"]
                  ++ (if is_correct v then []
                      else [print (QA_validation_failed (reason v))])))
        | None =>
            (Raise none_has_no_is_correct,
             mkState (heap st) w2
               (trace st
                  ++ [span "generator.verify_chunk_connection";
                      span "generator._build_context"; span "generator.openai.chat"]))
        end
    end.
Proof.
  unfold _verify_qa_chunk_connection. rewrite traced_run.
  rewrite bind_call. simpl.
  destruct (get_search_records_by_ids (chunk_ids qa) (world st)) as [results w1].
  destruct results as [|r rest]; [reflexivity|]. simpl.
  unfold bind at 1. rewrite try_build_context_run.
  rewrite build_context_pure_nonempty by done.
  rewrite bind_judge. simpl.
  destruct (parse_QAVerificationResult _ w1) as [[v|] w2].
  - destruct (is_correct v); simpl; unfold bind, log, ret, logged; simpl;
      by rewrite <- !app_assoc.
  - simpl. by rewrite <- !app_assoc.
Qed.

(** The multi-hop check, case by case. *)
Lemma requires_multi_hop_run (qa : QA) (st : @State W) :
  _verify_qa_question_requires_multi_hop qa st
  = let '(results, w1) := get_search_records_by_ids (chunk_ids qa) (world st) in
    match results with
    | [] =>
        (Ok (mkVerification false "Error building context"),
         mkState (heap st) w1
           (trace st ++ [span "generator.verify_qa_question_requires_multi_hop";
                         span "generator._build_context";
                         print (Error_building_context no_search_results)]))
    | _ :: _ =>
        let '(parsed, w2) :=
          parse_QAVerificationResult
            (requires_multi_hop_prompt (question qa) (context_of parts_as_built results))
            w1 in
        match parsed with
        | Some v =>
            (Ok v,
             mkState (heap st) w2
               (trace st
                  ++ [span "generator.verify_qa_question_requires_multi_hop";
                      span "generator._build_context"; span "generator.openai.chat"]
                  ++ (if is_correct v then []
                      else [print (QA_verification_failed (reason v))])))
        | None =>
            (Raise none_has_no_is_correct,
             mkState (heap st) w2
               (trace st
                  ++ [span "generator.verify_qa_question_requires_multi_hop";
                      span "generator._build_context"; span "generator.openai.chat"]))
        end
    end.
Proof.
  unfold _verify_qa_question_requires_multi_hop. rewrite traced_run.
  rewrite bind_call. simpl.
  destruct (get_search_records_by_ids (chunk_ids qa) (world st)) as [results w1].
  unfold bind at 1. rewrite try_build_context_run.
  destruct results as [|r rest].
  { simpl. unfold ret, logged. simpl. by rewrite <- !app_assoc. }
  rewrite build_context_pure_nonempty by done.
  rewrite bind_judge. simpl.
  destruct (parse_QAVerificationResult _ w1) as [[v|] w2].
  - destruct (is_correct v); simpl; unfold bind, log, ret, logged; simpl;
      by rewrite <- !app_assoc.
  - simpl. by rewrite <- !app_assoc.
Qed.

(** X3: a draft none of whose chunk ids can be fetched is rejected by either
    strategy with the reason of the grounding check after the text that
    names the failed check, and the model is not asked: the world is the one
    the search left, the trace shows no model call, and the multi-hop check
    is not run. *)
Theorem verify_qa_no_chunks (c : generator_class) (qa : QA) (st : @State W) (w1 : W)
    (missing : get_search_records_by_ids (chunk_ids qa) (world st) = ([], w1)) :
  _verify_qa c qa st
  = (Ok (mkVerification false
           ("Answer '" +:+ ground_truth_answer qa
            +:+ "' not found in specified chunks. Detailed reason: "
            +:+ "No chunks found for the given chunk IDs")),
     mkState (heap st) w1
       (trace st ++ [span "generator.verify_qa";
                     span "generator.verify_chunk_connection"])).
Proof.
  unfold _verify_qa. rewrite traced_run.
  destruct c; unfold bind at 1; rewrite chunk_connection_run; simpl;
    rewrite missing; simpl; unfold ret; by rewrite <- !app_assoc.
Qed.

(** X4: the multi-hop check has no test for an empty fetch; the fetch of no
    record ends in the handler around [_build_context]: the error is
    printed, the verdict is negative with the reason "Error building
    context", and the model is not asked. *)
Theorem requires_multi_hop_no_chunks (qa : QA) (st : @State W) (w1 : W)
    (missing : get_search_records_by_ids (chunk_ids qa) (world st) = ([], w1)) :
  _verify_qa_question_requires_multi_hop qa st
  = (Ok (mkVerification false "Error building context"),
     mkState (heap st) w1
       (trace st ++ [span "generator.verify_qa_question_requires_multi_hop";
                     span "generator._build_context";
                     print (Error_building_context no_search_results)])).
Proof. rewrite requires_multi_hop_run. by rewrite missing. Qed.

(** X5: the uniqueness check passes without asking the model when the
    search finds no other chunk. *)
Theorem answer_not_in_other_chunks_no_results (qa : QA) (st : @State W) (w1 : W)
    (nothing : qa_search qa (world st) = ([], w1)) :
  _verify_qa_answer_not_in_other_chunks qa st
  = (Ok (mkVerification true "No other relevant chunks found with similar content"),
     mkState (heap st) w1
       (trace st ++ [span "generator.verify_answer_uniqueness"])).
Proof.
  unfold _verify_qa_answer_not_in_other_chunks. rewrite traced_run.
  unfold bind at 1, call. simpl. by rewrite nothing.
Qed.

(** X6: when records are fetched, the grounding verdict is the judgement of
    the model, reason included, on the question and on the context built
    from the fetched records (not the context the draft was generated
    from); a negative judgement is printed. *)
Theorem chunk_connection_judges_fetched_context (qa : QA) (st : @State W)
    (results : list search_record) (w1 w2 : W) (v : QAVerificationResult)
    (fetched : get_search_records_by_ids (chunk_ids qa) (world st) = (results, w1))
    (some : results <> [])
    (judged : parse_QAVerificationResult
                (chunk_connection_prompt (question qa)
                   (context_of parts_as_built results)) w1 = (Some v, w2)) :
  _verify_qa_chunk_connection qa st
  = (Ok v,
     mkState (heap st) w2
       (trace st
          ++ [span "generator.verify_chunk_connection";
              span "generator._build_context"; span "generator.openai.chat"]
          ++ (if is_correct v then []
              else [print (QA_validation_failed (reason v))]))).
Proof.
  rewrite chunk_connection_run, fetched.
  destruct results as [|r rest]; [done|]. by rewrite judged.
Qed.

(** The number of model calls of each predicate. *)
Lemma chunk_connection_calls (qa : QA) (st : @State W) :
  exists r st' t,
    _verify_qa_chunk_connection qa st = (r, st')
    /\ heap st' = heap st /\ trace st' = trace st ++ t
    /\ count_events is_chat_span t <= 1
    /\ match r with
       | Ok v =>
           is_correct v = true ->
           count_events is_chat_span t = 1
           /\ exists results w1,
                get_search_records_by_ids (chunk_ids qa) (world st) = (results, w1)
                /\ results <> []
                /\ option_map is_correct
                     (fst (parse_QAVerificationResult
                             (chunk_connection_prompt (question qa)
                                (context_of parts_as_built results)) w1)) = Some true
       | Raise e =>
           e = none_has_no_is_correct /\ count_events is_chat_span t = 1
           /\ exists p w, fst (parse_QAVerificationResult p w) = None
       | _ => False
       end.
Proof.
  rewrite chunk_connection_run.
  destruct (get_search_records_by_ids (chunk_ids qa) (world st)) as [results w1] eqn:Es.
  destruct results as [|r rest].
  - eexists _, _, _. split; [reflexivity|]. simpl.
    split; [reflexivity|]. split; [reflexivity|]. split; [vm_compute; lia|].
    intros [=].
  - destruct (parse_QAVerificationResult _ w1) as [[v|] w2] eqn:Ej.
    + eexists _, _, _. split; [reflexivity|]. simpl.
      split; [reflexivity|]. split; [reflexivity|].
      destruct (is_correct v) eqn:Ev.
      * split; [vm_compute; lia|]. intros _. split; [reflexivity|].
        exists (r :: rest), w1. split; [done|]. split; [done|].
        rewrite Ej. simpl. by rewrite Ev.
      * split; [vm_compute; lia|]. intros [=].
    + eexists _, _, _. split; [reflexivity|]. simpl.
      split; [reflexivity|]. split; [reflexivity|]. split; [vm_compute; lia|].
      split; [done|]. split; [reflexivity|]. eexists _, w1. by rewrite Ej.
Qed.

Lemma requires_multi_hop_calls (qa : QA) (st : @State W) :
  exists r st' t,
    _verify_qa_question_requires_multi_hop qa st = (r, st')
    /\ heap st' = heap st /\ trace st' = trace st ++ t
    /\ count_events is_chat_span t <= 1
    /\ match r with
       | Ok v => is_correct v = true -> count_events is_chat_span t = 1
       | Raise e =>
           e = none_has_no_is_correct /\ count_events is_chat_span t = 1
           /\ exists p w, fst (parse_QAVerificationResult p w) = None
       | _ => False
       end.
Proof.
  rewrite requires_multi_hop_run.
  destruct (get_search_records_by_ids (chunk_ids qa) (world st)) as [results w1] eqn:Es.
  destruct results as [|r rest].
  - eexists _, _, _. split; [reflexivity|]. simpl.
    split; [reflexivity|]. split; [reflexivity|]. split; [vm_compute; lia|].
    intros [=].
  - destruct (parse_QAVerificationResult _ w1) as [[v|] w2] eqn:Ej.
    + eexists _, _, _. split; [reflexivity|]. simpl.
      split; [reflexivity|]. split; [reflexivity|].
      destruct (is_correct v) eqn:Ev.
      * split; [vm_compute; lia|]. intros _. reflexivity.
      * split; [vm_compute; lia|]. intros [=].
    + eexists _, _, _. split; [reflexivity|]. simpl.
      split; [reflexivity|]. split; [reflexivity|]. split; [vm_compute; lia|].
      split; [done|]. split; [reflexivity|]. eexists _, w1. by rewrite Ej.
Qed.

(** X7: how verification can end.  It returns a verdict or raises the
    [AttributeError] of a completion without a parsed verdict, right after
    the model call that gave it, and it does so only if the model gives such
    a completion; it never exits, and a failed fetch or a context that
    cannot be built is a negative verdict, not an error.  It leaves the heap
    alone and asks the model at most once (single-hop) or twice (multi-hop);
    a positive verdict carries the reason "All validation checks passed.",
    took exactly that many model calls, and means that records were fetched
    for the claimed ids and that the model judged the answer present in the
    context built from them. *)
Theorem verify_qa_outcomes (c : generator_class) (qa : QA) (st : @State W) :
  let calls := match c with
               | SingleHopOneDocGenerator => 1
               | MultiHopOneDocGenerator => 2
               end in
  exists r st' t,
    _verify_qa c qa st = (r, st')
    /\ heap st' = heap st
    /\ trace st' = trace st ++ t
    /\ count_events is_chat_span t <= calls
    /\ match r with
       | Ok v =>
           is_correct v = true ->
           v = mkVerification true "All validation checks passed."
           /\ count_events is_chat_span t = calls
           /\ exists results w1,
                get_search_records_by_ids (chunk_ids qa)
                  (world (logged st [span "generator.verify_qa"])) = (results, w1)
                /\ results <> []
                /\ option_map is_correct
                     (fst (parse_QAVerificationResult
                             (chunk_connection_prompt (question qa)
                                (context_of parts_as_built results)) w1)) = Some true
       | Raise e =>
           e = none_has_no_is_correct
           /\ 1 <= count_events is_chat_span t
           /\ exists p w, fst (parse_QAVerificationResult p w) = None
       | _ => False
       end.
Proof.
  intros calls. unfold _verify_qa. rewrite traced_run.
  destruct (chunk_connection_calls qa (logged st [span "generator.verify_qa"]))
    as (r1 & st1 & t1 & E1 & Hh1 & Ht1 & Hc1 & Hpos1).
  simpl in Hh1, Ht1.
  destruct r1 as [v1|e1| |]; try done.
  2:{ destruct Hpos1 as (-> & Hone & Hnone).
      exists (Raise none_has_no_is_correct), st1, (span "generator.verify_qa" :: t1).
      split; [by destruct c; rewrite (bind_raise _ _ _ _ _ E1)|].
      split; [done|]. split; [trace_eq|].
      change (span "generator.verify_qa" :: t1)
        with ([span "generator.verify_qa"] ++ t1).
      rewrite count_events_app. subst calls.
      split; [destruct c; simpl; lia|]. split; [done|]. split; [simpl; lia|done]. }
  destruct c; rewrite (bind_ok _ _ _ _ _ E1); subst calls.
  - destruct (is_correct v1) eqn:Ev1; simpl.
    + destruct (Hpos1 eq_refl) as (Hone & Hfetch).
      exists (Ok all_checks_passed), st1, (span "generator.verify_qa" :: t1).
      split; [done|]. split; [done|]. split; [trace_eq|].
      change (span "generator.verify_qa" :: t1)
        with ([span "generator.verify_qa"] ++ t1).
      rewrite count_events_app. split; [simpl; lia|]. intros _.
      split; [done|]. split; [simpl; lia|]. exact Hfetch.
    + eexists (Ok _), st1, (span "generator.verify_qa" :: t1).
      split; [reflexivity|]. split; [done|]. split; [trace_eq|].
      change (span "generator.verify_qa" :: t1)
        with ([span "generator.verify_qa"] ++ t1).
      rewrite count_events_app. split; [simpl; lia|]. done.
  - destruct (is_correct v1) eqn:Ev1; simpl.
    + destruct (Hpos1 eq_refl) as (Hone & Hfetch).
      destruct (requires_multi_hop_calls qa st1)
        as (r2 & st2 & t2 & E2 & Hh2 & Ht2 & Hc2 & Hpos2).
      destruct r2 as [v2|e2| |]; try done.
      2:{ destruct Hpos2 as (-> & Htwo & Hnone).
          exists (Raise none_has_no_is_correct), st2,
            (span "generator.verify_qa" :: t1 ++ t2).
          split; [by rewrite (bind_raise _ _ _ _ _ E2)|].
          split; [congruence|]. split; [trace_eq|].
          change (span "generator.verify_qa" :: t1 ++ t2)
            with ([span "generator.verify_qa"] ++ t1 ++ t2).
          rewrite !count_events_app.
          split; [simpl; lia|]. split; [done|]. split; [simpl; lia|done]. }
      rewrite (bind_ok _ _ _ _ _ E2).
      destruct (is_correct v2) eqn:Ev2; simpl.
      * exists (Ok all_checks_passed), st2, (span "generator.verify_qa" :: t1 ++ t2).
        split; [done|]. split; [congruence|]. split; [trace_eq|].
        change (span "generator.verify_qa" :: t1 ++ t2)
          with ([span "generator.verify_qa"] ++ t1 ++ t2).
        rewrite !count_events_app. specialize (Hpos2 eq_refl).
        split; [simpl; lia|]. intros _.
        split; [done|]. split; [simpl; lia|]. exact Hfetch.
      * eexists (Ok _), st2, (span "generator.verify_qa" :: t1 ++ t2).
        split; [reflexivity|]. split; [congruence|]. split; [trace_eq|].
        change (span "generator.verify_qa" :: t1 ++ t2)
          with ([span "generator.verify_qa"] ++ t1 ++ t2).
        rewrite !count_events_app. split; [simpl; lia|]. done.
    + eexists (Ok _), st1, (span "generator.verify_qa" :: t1).
      split; [reflexivity|]. split; [done|]. split; [trace_eq|].
      change (span "generator.verify_qa" :: t1)
        with ([span "generator.verify_qa"] ++ t1).
      rewrite count_events_app. split; [simpl; lia|]. done.
Qed.

End VerificationEdges.

(** ** More on [generate] *)

Section GenerateOutcomes.

Context {W : Type} `{!SearchService W, !LLMClient W, !Entropy W}.

Lemma inner_span_or_print (t : list event) :
  inner t -> Forall (fun e => span_or_print e = true) t.
Proof.
  intros Hi. eapply Forall_impl; [exact Hi|].
  intros [name|line| |]; simpl; done.
Qed.

(** A pass that yields a tagged pair tags it with the tags of the class. *)
Lemma attempt_accepted_tags (self : nat) (st : @State W) :
  match attempt self st with
  | (Ok (Some qa_tagged), _) => tags qa_tagged = _get_tags (cls (heap st self))
  | _ => True
  end.
Proof.
  unfold attempt. rewrite traced_run.
  destruct (seed_chunks_run (logged st [span "generator.generate"]))
    as (chunks & w1 & E1).
  rewrite (bind_ok _ _ _ _ _ E1). unfold bind at 1. rewrite try_build_context_run.
  destruct (build_context_pure chunks) as [e|context]; simpl; [done|].
  rewrite bind_get_self. simpl.
  unfold bind at 1.
  destruct (draft _ _ _) as [[[diversity_injection qa_completion]|e|code|] st3];
    try done.
  destruct (invokes_retry qa_completion); [by rewrite bind_log|].
  destruct (parsed qa_completion) as [qa|]; [|done].
  unfold bind at 1.
  destruct (_verify_qa _ _ _) as [[v|e|code|] st4]; try done.
  destruct (is_correct v); simpl; [|done].
  unfold _get_chunk_content_by_ids. rewrite bind_assoc, bind_call.
  by destruct (get_search_records_by_ids (chunk_ids qa) (world st4)).
Qed.

(** A run of [generate], summed up. *)
Lemma generate_run (n : nat) :
  forall (self : nat) (st : @State W),
    MAX_RETRIES - retry_count (heap st self) <= n ->
    exists r st' t,
      generate self st = (r, st')
      /\ trace st' = trace st ++ t
      /\ Forall (fun e => span_or_print e = true) t
      /\ count_events is_generate_span t = S (length (announced_attempts t))
      /\ (forall o, cls (heap st' o) = cls (heap st o)
                   /\ diversity_generator (heap st' o) = diversity_generator (heap st o))
      /\ match r with
         | Ok qa_tagged => tags qa_tagged = _get_tags (cls (heap st self))
         | Raise e => generate_raises e
         | Exit code => code = 1%Z /\ MAX_RETRIES <= retry_count (heap st' self)
         | OutOfFuel => False
         end.
Proof.
  induction n as [|n IH]; intros self st Hn;
    rewrite generate_attempt;
    pose proof (attempt_accepted_tags self st) as Htags;
    destruct (attempt_any self st)
      as (st1 & t & Hh & Ht & Hi & [E | [(e & E & He) | (qt & v & E & _)]]);
    rewrite E in Htags; unfold bind; rewrite E; simpl.
  all: try (eexists _, st1, (span "generator.generate" :: t);
            split; [reflexivity|]; split; [exact Ht|];
            split; [apply Forall_cons_2; [done|by apply inner_span_or_print]|];
            split; [change (span "generator.generate" :: t)
                      with ([span "generator.generate"] ++ t);
                    rewrite count_events_app, (count_generate_inner t) by done;
                    simpl; by rewrite (announced_attempts_inner t)|];
            split; [by rewrite Hh|done]).
  - rewrite retry_logic_exits by (rewrite Hh; lia).
    eexists _, (gave_up st1),
      (span "generator.generate" :: t
         ++ [span "generator.retry_logic"; print Max_retries_reached]).
    split; [reflexivity|]. split; [trace_eq|].
    split; [apply Forall_cons_2; [done|]; apply Forall_app_2;
            [by apply inner_span_or_print|by repeat constructor]|].
    split; [|split].
    + change (span "generator.generate" :: ?l) with ([span "generator.generate"] ++ l).
      rewrite !count_events_app, (count_generate_inner t) by done.
      simpl. by rewrite announced_attempts_app, (announced_attempts_inner t).
    + intros o. simpl. by rewrite Hh.
    + simpl. rewrite Hh. split; [done|lia].
  - destruct (decide (retry_count (heap st1 self) < MAX_RETRIES)) as [Hlt|Hge].
    + rewrite retry_logic_retries by done.
      destruct (IH self (retried self st1))
        as (r & st' & t' & E' & Ht' & Hsp & Hc & Hfields & Hres).
      { rewrite retried_retry_count, Hh. lia. }
      assert (Hobj : forall o,
                 cls (heap (retried self st1) o) = cls (heap st o)
                 /\ diversity_generator (heap (retried self st1) o)
                    = diversity_generator (heap st o)).
      { intros o. unfold retried. simpl.
        destruct (decide (self = o)) as [->|Hne].
        - rewrite fn_lookup_insert. simpl. by rewrite Hh.
        - rewrite fn_lookup_insert_ne by done. by rewrite Hh. }
      exists r, st',
        ((span "generator.generate" :: t
            ++ [span "generator.retry_logic"; print Generation_failed_retrying;
                print (Retrying_Attempt (retry_count (heap st1 self) + 1))]) ++ t').
      split; [exact E'|]. split; [rewrite Ht'; unfold retried; trace_eq|].
      split; [apply Forall_app_2; [|exact Hsp]; apply Forall_cons_2; [done|];
              apply Forall_app_2; [by apply inner_span_or_print|by repeat constructor]|].
      split; [|split].
      * rewrite count_events_app, Hc, announced_attempts_app.
        change (span "generator.generate" :: ?l) with ([span "generator.generate"] ++ l).
        rewrite !count_events_app, (count_generate_inner t) by done.
        rewrite !announced_attempts_app, (announced_attempts_inner t) by done.
        simpl. lia.
      * intros o. destruct (Hfields o) as [Hc1 Hd1]. destruct (Hobj o) as [Hc2 Hd2].
        split; congruence.
      * destruct r as [qa_tagged|e|code|]; try done.
        by rewrite Hres, (proj1 (Hobj self)).
    + rewrite retry_logic_exits by lia.
      eexists _, (gave_up st1),
        (span "generator.generate" :: t
           ++ [span "generator.retry_logic"; print Max_retries_reached]).
      split; [reflexivity|]. split; [trace_eq|].
      split; [apply Forall_cons_2; [done|]; apply Forall_app_2;
              [by apply inner_span_or_print|by repeat constructor]|].
      split; [|split].
      * change (span "generator.generate" :: ?l) with ([span "generator.generate"] ++ l).
        rewrite !count_events_app, (count_generate_inner t) by done.
        simpl. by rewrite announced_attempts_app, (announced_attempts_inner t).
      * intros o. simpl. by rewrite Hh.
      * simpl. split; [done|lia].
Qed.

(** X8: the mutual recursion of [generate] and [_retry_logic] ends: a call
    of [generate] returns, raises or exits after one more pass than it
    announces retries, hence after at most [MAX_RETRIES] minus the retry
    counter, plus one, passes. *)
Theorem generate_terminates_within_budget (self : nat) (st : @State W) :
  exists r st' t,
    generate self st = (r, st')
    /\ r <> OutOfFuel
    /\ trace st' = trace st ++ t
    /\ count_events is_generate_span t = S (length (announced_attempts t))
    /\ (retry_count (heap st self) <= MAX_RETRIES ->
        count_events is_generate_span t
        <= S (MAX_RETRIES - retry_count (heap st self))).
Proof.
  destruct (generate_run (MAX_RETRIES - retry_count (heap st self)) self st)
    as (r & st' & t & E & Ht & _ & Hc & _ & Hres); [lia|].
  exists r, st', t. split; [exact E|]. split; [by destruct r|].
  split; [exact Ht|]. split; [exact Hc|]. intros Hle.
  destruct (generate_frame (MAX_RETRIES - retry_count (heap st self)) self st)
    as ((t2 & Ht2 & Hrc) & Hmax & _); [lia|].
  simpl in Ht2, Hrc, Hmax. rewrite E in Ht2, Hrc, Hmax. simpl in Ht2, Hrc, Hmax.
  rewrite Ht in Ht2. apply app_inv_head in Ht2. subst t2.
  specialize (Hmax Hle). lia.
Qed.


(** X10: a completion that neither calls the offered tool first (no tool
    call, or a first tool call of another name) nor carries a parsed pair
    makes [generate] raise an [AttributeError] on the spot: nothing is
    verified, no retry is made and the retry counter stays as it was. *)
Theorem unparsed_completion_raises (self : nat) (st : @State W)
    (chunks : list search_record) (st1 : State) (context : string)
    (diversity_injection : DiversityInjection) (qa_completion : completion)
    (st3 : State)
    (seeded : seed_chunks (logged st [span "generator.generate"]) = (Ok chunks, st1))
    (built : build_context_pure chunks = inr context)
    (drafted : draft (heap st self) context (logged st1 [span "generator._build_context"])
               = (Ok (diversity_injection, qa_completion), st3))
    (no_retry_call : invokes_retry qa_completion = false)
    (not_parsed : parsed qa_completion = None) :
  generate self st = (Raise none_has_no_question, st3)
  /\ heap st3 = heap st
  /\ trace st3
     = trace st ++ [span "generator.generate"; span "generator._build_context";
                    span "generator.build_system_prompt"; span "generator.openai.chat"].
Proof.
  destruct (pass_up_to_draft self st chunks st1 context diversity_injection
              qa_completion st3 seeded built drafted) as (Hh & Ht & Hpass).
  rewrite generate_unfold, Hpass. unfold after_draft.
  by rewrite no_retry_call, not_parsed.
Qed.

End GenerateOutcomes.

(** ** More on the batch allocator *)

Section FactoryRuns.

Context {W : Type} `{!SearchService W, !LLMClient W, !Entropy W}.

Lemma no_dump_in_spans_and_prints (t : list event) :
  Forall (fun e => span_or_print e = true) t ->
  List.filter is_json_dump t = [] /\ count_events is_pbar_update t = 0.
Proof.
  unfold count_events.
  induction 1 as [|e t He _ [IHd IHp]]; [done|].
  destruct e; simpl in *; done.
Qed.

Section AnyGenerator.

Variable generate_method : nat -> @M W QATagged.

Hypothesis generate_method_run :
  forall g st, exists r st' t,
    generate_method g st = (r, st')
    /\ trace st' = trace st ++ t
    /\ Forall (fun e => span_or_print e = true) t
    /\ stops_like_generate r.

Lemma sample_loop_run (generator : nat) (n : nat) :
  forall (samples : list QATagged) (st : @State W),
  exists r st' t,
    sample_loop generate_method generator n samples st = (r, st')
    /\ trace st' = trace st ++ t
    /\ List.filter is_json_dump t = []
    /\ stops_like_generate r
    /\ match r with
       | Ok all => exists new, all = samples ++ new
                               /\ count_events is_pbar_update t = length new
       | _ => True
       end.
Proof.
  induction n as [|n IH]; intros samples st; simpl.
  - exists (Ok samples), st, []. rewrite !app_nil_r.
    repeat split; try done. exists []. by rewrite app_nil_r.
  - destruct (generate_method_run generator st) as (r & st1 & t1 & E1 & Ht1 & Hsp & Hr).
    destruct (no_dump_in_spans_and_prints t1 Hsp) as [Hd1 Hp1].
    unfold bind at 1. rewrite E1.
    destruct r as [sample|e|code|]; try done.
    + rewrite bind_log.
      destruct (IH (samples ++ [sample]) (logged st1 [pbar_update]))
        as (r2 & st2 & t2 & E2 & Ht2 & Hd2 & Hr2 & Hres).
      exists r2, st2, (t1 ++ [pbar_update] ++ t2).
      split; [exact E2|].
      split; [rewrite Ht2; simpl; rewrite Ht1; trace_eq|].
      split; [by rewrite !List.filter_app, Hd1, Hd2|]. split; [exact Hr2|].
      destruct r2 as [all|e|code|]; try done.
      destruct Hres as (new & -> & Hcount). exists (sample :: new).
      split; [by rewrite <- app_assoc|].
      rewrite !count_events_app, Hp1, Hcount. reflexivity.
    + exists (Raise e), st1, t1. by repeat split.
    + exists (Exit code), st1, t1. by repeat split.
Qed.

Lemma generators_loop_run (plan : list (nat * float)) (total : Z) :
  forall (samples : list QATagged) (st : @State W),
  exists r st' t,
    generators_loop generate_method plan total samples st = (r, st')
    /\ trace st' = trace st ++ t
    /\ List.filter is_json_dump t = []
    /\ stops_like_factory r
    /\ match r with
       | Ok all => exists new, all = samples ++ new
                               /\ count_events is_pbar_update t = length new
       | Raise e => e <> no_such_directory
       | _ => True
       end.
Proof.
  induction plan as [|[g p] plan IH]; intros samples st; simpl.
  - exists (Ok samples), st, []. rewrite !app_nil_r.
    repeat split; try done. exists []. by rewrite app_nil_r.
  - destruct (num_samples total p) as [e|count] eqn:Ec.
    { exists (Raise e), st, []. rewrite app_nil_r. split; [done|].
      split; [done|]. split; [done|].
      apply num_samples_raises in Ec. unfold conversion_error in Ec. split.
      - simpl. unfold factory_raises, generate_raises. tauto.
      - destruct Ec as [->|[->| ->]]; done. }
    destruct (count =? 0)%Z; [apply IH|].
    rewrite bind_get_self, bind_log.
    destruct (sample_loop_run g (Z.to_nat count) samples
                (logged st [span ("qa_factory.generator_" +:+ class_name (cls (heap st g)))]))
      as (r1 & st1 & t1 & E1 & Ht1 & Hd1 & Hr1 & Hres1).
    unfold bind. rewrite E1.
    destruct r1 as [all|e|code|]; try done.
    + destruct Hres1 as (new1 & -> & Hc1).
      destruct (IH (samples ++ new1) st1)
        as (r2 & st2 & t2 & E2 & Ht2 & Hd2 & Hr2 & Hres2).
      exists r2, st2,
        ([span ("qa_factory.generator_" +:+ class_name (cls (heap st g)))] ++ t1 ++ t2).
      split; [exact E2|]. split; [trace_eq|].
      split; [by rewrite !List.filter_app, Hd1, Hd2|]. split; [exact Hr2|].
      destruct r2 as [all|e|code|]; try done.
      destruct Hres2 as (new2 & -> & Hc2). exists (new1 ++ new2).
      split; [by rewrite <- app_assoc|].
      rewrite !count_events_app, Hc1, Hc2, length_app. reflexivity.
    + eexists (Raise e), st1, (_ :: t1). split; [done|]. split; [trace_eq|].
      split; [simpl; exact Hd1|]. simpl in Hr1. split; [by left|].
      unfold generate_raises in Hr1. destruct Hr1 as [->|[->|[->| ->]]]; done.
    + eexists (Exit code), st1, (_ :: t1). split; [done|]. split; [trace_eq|].
      split; [simpl; exact Hd1|]. by split.
Qed.

Lemma factory_run_with (self : QAFactory) (number_of_samples : Z) (st : @State W) :
  exists r st' t,
    QAFactory_generate_with generate_method self number_of_samples st = (r, st')
    /\ trace st' = trace st ++ t
    /\ stops_like_factory r
    /\ match r with
       | Ok (samples, full_path) =>
           List.filter is_json_dump t = [json_dump samples full_path]
           /\ count_events is_pbar_update t = length samples
           /\ (exists t0, t = t0 ++ [json_dump samples full_path;
                                     print (Saved_samples (length samples) full_path);
                                     print (Successfully_generated (length samples))])
           /\ output_folder self <> ""
       | Raise e =>
           List.filter is_json_dump t = []
           /\ (e = no_such_directory -> output_folder self = "")
       | _ => List.filter is_json_dump t = []
       end.
Proof.
  unfold QAFactory_generate_with. rewrite traced_run.
  destruct (generators_loop_run (generators self) number_of_samples []
              (logged st [span "qa_factory.generate_samples"]))
    as (r1 & st1 & t1 & E1 & Ht1 & Hd1 & Hr1 & Hres1).
  unfold bind at 1. rewrite E1.
  destruct r1 as [all|e|code|]; try done.
  - destruct Hres1 as (new & -> & Hc1). simpl.
    unfold bind at 1. rewrite save_qa_to_json_run.
    destruct (strftime_now (world st1)) as [timestamp w]. simpl.
    destruct (output_folder self) as [|c folder] eqn:Efolder; simpl.
    { eexists (Raise no_such_directory), _, ([span "qa_factory.generate_samples"] ++ t1).
      split; [reflexivity|]. split; [trace_eq|].
      split; [simpl; unfold factory_raises; tauto|].
      split; [by rewrite List.filter_app, Hd1|done]. }
    rewrite bind_log. unfold ret. simpl.
    eexists (Ok (new, _)), _,
      ([span "qa_factory.generate_samples"] ++ t1
         ++ [json_dump new _; print (Saved_samples (length new) _);
             print (Successfully_generated (length new))]).
    split; [reflexivity|]. split; [trace_eq|]. split; [done|].
    split; [by rewrite !List.filter_app, Hd1|]. split; [|split; [|done]].
    + rewrite !count_events_app, Hc1. simpl.
      unfold count_events. simpl. lia.
    + eexists (_ ++ t1). by rewrite <- app_assoc.
  - exists (Raise e), st1, ([span "qa_factory.generate_samples"] ++ t1).
    split; [done|]. split; [trace_eq|]. split; [done|].
    split; [by rewrite List.filter_app, Hd1|done].
  - exists (Exit code), st1, ([span "qa_factory.generate_samples"] ++ t1).
    split; [done|]. split; [trace_eq|]. split; [done|].
    by rewrite List.filter_app, Hd1.
Qed.

End AnyGenerator.

Lemma generate_stops_like_generate (g : nat) (st : @State W) :
  exists r st' t,
    generate g st = (r, st')
    /\ trace st' = trace st ++ t
    /\ Forall (fun e => span_or_print e = true) t
    /\ stops_like_generate r.
Proof.
  destruct (generate_run (MAX_RETRIES - retry_count (heap st g)) g st)
    as (r & st' & t & E & Ht & Hsp & _ & _ & Hres); [lia|].
  exists r, st', t. repeat (split; [done|]).
  destruct r; simpl in *; try done. by destruct Hres.
Qed.

Lemma factory_run (self : QAFactory) (number_of_samples : Z)
    (st : @State W) :
  exists r st' t,
    QAFactory_generate self number_of_samples st = (r, st')
    /\ trace st' = trace st ++ t
    /\ stops_like_factory r
    /\ match r with
       | Ok (samples, full_path) =>
           List.filter is_json_dump t = [json_dump samples full_path]
           /\ count_events is_pbar_update t = length samples
           /\ (exists t0, t = t0 ++ [json_dump samples full_path;
                                     print (Saved_samples (length samples) full_path);
                                     print (Successfully_generated (length samples))])
           /\ output_folder self <> ""
       | Raise e =>
           List.filter is_json_dump t = []
           /\ (e = no_such_directory -> output_folder self = "")
       | _ => List.filter is_json_dump t = []
       end.
Proof.
  unfold QAFactory_generate.
  apply factory_run_with. apply generate_stops_like_generate.
Qed.


End FactoryRuns.

(** ** Batches: tags, shared retry budgets and empty requests *)

Section FactoryBatches.

Context {W : Type} `{!SearchService W, !LLMClient W, !Entropy W}.

(** One call of [generate], with what it does to the heap. *)
Lemma generate_call (self : nat) (st : @State W) :
  exists r st' t,
    generate self st = (r, st')
    /\ trace st' = trace st ++ t
    /\ (forall o, cls (heap st' o) = cls (heap st o))
    /\ (forall o, o <> self -> heap st' o = heap st o)
    /\ retry_count (heap st' self)
       = retry_count (heap st self) + length (announced_attempts t)
    /\ (retry_count (heap st self) <= MAX_RETRIES ->
        retry_count (heap st' self) <= MAX_RETRIES)
    /\ match r with
       | Ok qa_tagged => tags qa_tagged = _get_tags (cls (heap st self))
       | Raise e => generate_raises e
       | Exit code => code = 1%Z
       | OutOfFuel => False
       end.
Proof.
  destruct (generate_run (MAX_RETRIES - retry_count (heap st self)) self st)
    as (r & st' & t & E & Ht & _ & _ & Hcls & Hres); [lia|].
  destruct (generate_frame (MAX_RETRIES - retry_count (heap st self)) self st)
    as ((t2 & Ht2 & Hc) & Hle & _ & Hother); [lia|].
  rewrite E in Ht2, Hc, Hle, Hother. simpl in *.
  assert (t2 = t) as -> by (apply (app_inv_head (trace st)); congruence).
  exists r, st', t. repeat (split; [first [done | by intros o; apply Hcls]|]).
  destruct r; simpl in *; try done. by destruct Hres.
Qed.

Lemma sample_loop_generate (generator : nat) (n : nat) :
  forall (samples : list QATagged) (st : @State W),
  exists r st' t,
    sample_loop generate generator n samples st = (r, st')
    /\ trace st' = trace st ++ t
    /\ (forall o, cls (heap st' o) = cls (heap st o))
    /\ (forall o, o <> generator -> heap st' o = heap st o)
    /\ retry_count (heap st' generator)
       = retry_count (heap st generator) + length (announced_attempts t)
    /\ (retry_count (heap st generator) <= MAX_RETRIES ->
        retry_count (heap st' generator) <= MAX_RETRIES)
    /\ match r with
       | Ok all => exists new,
           all = samples ++ new
           /\ map tags new = replicate n (_get_tags (cls (heap st generator)))
       | Raise e => generate_raises e
       | Exit code => code = 1%Z
       | OutOfFuel => False
       end.
Proof.
  induction n as [|n IH]; intros samples st; simpl.
  - exists (Ok samples), st, []. rewrite !app_nil_r. simpl.
    repeat (split; [first [done | lia]|]). exists []. by rewrite app_nil_r.
  - destruct (generate_call generator st)
      as (r & st1 & t1 & E1 & Ht1 & Hcls1 & Hoth1 & Hc1 & Hle1 & Hr1).
    unfold bind at 1. rewrite E1.
    destruct r as [sample|e|code|]; try done.
    + rewrite bind_log.
      destruct (IH (samples ++ [sample]) (logged st1 [pbar_update]))
        as (r2 & st2 & t2 & E2 & Ht2 & Hcls2 & Hoth2 & Hc2 & Hle2 & Hr2).
      simpl in *.
      exists r2, st2, (t1 ++ [pbar_update] ++ t2).
      split; [exact E2|].
      split; [rewrite Ht2, Ht1; by rewrite <- !app_assoc|].
      split; [intros o; by rewrite Hcls2, Hcls1|].
      split; [intros o Ho; by rewrite Hoth2, Hoth1|].
      split; [rewrite Hc2, Hc1, !announced_attempts_app, !length_app; simpl; lia|].
      split; [tauto|].
      destruct r2 as [all|e|code|]; try done.
      destruct Hr2 as (new & -> & Htags). exists (sample :: new).
      split; [by rewrite <- app_assoc|].
      simpl. by rewrite Hr1, Htags, Hcls1.
    + by exists (Raise e), st1, t1.
    + by exists (Exit code), st1, t1.
Qed.

(** Raising the counter of one object of a duplicate-free list raises the
    sum of the counters by as much. *)
Lemma sum_retry_counts (objs : list nat) (self : nat) (d : nat)
    (before after : nat -> generator_object) :
  NoDup objs -> self ∈ objs ->
  (forall o, o <> self -> after o = before o) ->
  retry_count (after self) = retry_count (before self) + d ->
  sum_list (map (fun o => retry_count (after o)) objs)
  = sum_list (map (fun o => retry_count (before o)) objs) + d.
Proof.
  intros Hnd Hin Hoth Hself.
  induction Hnd as [|x objs Hnotin Hnd IH]; [by apply elem_of_nil in Hin|].
  simpl. apply elem_of_cons in Hin as [->|Hin].
  - rewrite Hself.
    assert (map (fun o => retry_count (after o)) objs
            = map (fun o => retry_count (before o)) objs) as ->; [|lia].
    apply map_ext_in. intros o Ho. rewrite Hoth; [done|].
    intros ->. apply Hnotin. by apply list_elem_of_In.
  - rewrite IH by done. rewrite Hoth; [lia|]. by intros ->.
Qed.

Lemma stops_like_loop_cons {A} (gp : nat * float) (plan : list (nat * float)) (total : Z)
    (r : result A) :
  stops_like_loop plan total r -> stops_like_loop (gp :: plan) total r.
Proof.
  destruct r as [a|e|code|]; simpl; try done.
  intros [He|He]; [by left|right; by apply Exists_cons_tl].
Qed.

Lemma generators_loop_generate (objs : list nat) (total : Z) (plan : list (nat * float)) :
  NoDup objs ->
  Forall (fun gp => fst gp ∈ objs) plan ->
  forall (samples : list QATagged) (st : @State W),
  exists r st' t,
    generators_loop generate plan total samples st = (r, st')
    /\ trace st' = trace st ++ t
    /\ (forall o, cls (heap st' o) = cls (heap st o))
    /\ (forall o, retry_count (heap st o) <= MAX_RETRIES ->
                  retry_count (heap st' o) <= MAX_RETRIES)
    /\ sum_list (map (fun o => retry_count (heap st' o)) objs)
       = sum_list (map (fun o => retry_count (heap st o)) objs)
         + length (announced_attempts t)
    /\ stops_like_loop plan total r
    /\ match r with
       | Ok all => exists new,
           all = samples ++ new
           /\ map tags new
              = flat_map (fun gp =>
                  replicate (planned_count total (snd gp))
                            (_get_tags (cls (heap st (fst gp))))) plan
           /\ Forall (fun gp => exists count, num_samples total (snd gp) = inr count) plan
       | _ => True
       end.
Proof.
  intros Hnd Hplan. induction Hplan as [|[g p] plan Hg Hplan IH]; intros samples st.
  - exists (Ok samples), st, []. simpl. rewrite !app_nil_r.
    repeat (split; [first [done | lia]|]). exists []. by rewrite app_nil_r.
  - simpl in Hg. simpl. unfold planned_count at 1.
    destruct (num_samples total p) as [e|count] eqn:Ec.
    { exists (Raise e), st, []. rewrite app_nil_r. simpl.
      repeat (split; [first [done | lia]|]).
      split; [|done]. right. by apply Exists_cons_hd. }
    destruct (count =? 0)%Z eqn:Ez.
    { apply Z.eqb_eq in Ez. rewrite Ez. simpl.
      destruct (IH samples st) as (r & st' & t & E & Ht & Hcls & Hle & Hsum & Hstop & Hr).
      exists r, st', t. repeat (split; [done|]).
      split; [by apply stops_like_loop_cons|].
      destruct r as [all|e|code|]; try done.
      destruct Hr as (new & -> & Htags & Hdef). exists new.
      repeat (split; [done|]). constructor; [by exists count|done]. }
    rewrite bind_get_self, bind_log.
    set (st0 := logged st [span ("qa_factory.generator_" +:+ class_name (cls (heap st g)))]).
    destruct (sample_loop_generate g (Z.to_nat count) samples st0)
      as (r1 & st1 & t1 & E1 & Ht1 & Hcls1 & Hoth1 & Hc1 & Hle1 & Hr1).
    assert (Hsum1 : sum_list (map (fun o => retry_count (heap st1 o)) objs)
                    = sum_list (map (fun o => retry_count (heap st o)) objs)
                      + length (announced_attempts t1)).
    { apply (sum_retry_counts objs g); try done; intros o Ho; by rewrite Hoth1. }
    assert (Hle1' : forall o, retry_count (heap st o) <= MAX_RETRIES ->
                              retry_count (heap st1 o) <= MAX_RETRIES).
    { intros o Ho. destruct (decide (o = g)) as [->|Hne]; [by apply Hle1|].
      by rewrite Hoth1. }
    unfold bind. rewrite E1.
    destruct r1 as [all|e|code|]; try done.
    + destruct Hr1 as (new1 & -> & Htags1).
      destruct (IH (samples ++ new1) st1)
        as (r2 & st2 & t2 & E2 & Ht2 & Hcls2 & Hle2 & Hsum2 & Hstop2 & Hr2).
      exists r2, st2,
        ([span ("qa_factory.generator_" +:+ class_name (cls (heap st g)))] ++ t1 ++ t2).
      split; [exact E2|].
      split; [rewrite Ht2, Ht1; simpl; by rewrite <- !app_assoc|].
      split; [intros o; by rewrite Hcls2, Hcls1|].
      split; [intros o Ho; by apply Hle2, Hle1'|].
      split; [rewrite Hsum2, Hsum1; simpl; rewrite announced_attempts_app, length_app; lia|].
      split; [by apply stops_like_loop_cons|].
      destruct r2 as [all|e|code|]; try done.
      destruct Hr2 as (new2 & -> & Htags2 & Hdef). exists (new1 ++ new2).
      split; [by rewrite <- app_assoc|].
      split; [|constructor; [by exists count|done]].
      rewrite map_app, Htags1, Htags2. f_equal.
      apply flat_map_ext. intros [g' p']. simpl. by rewrite Hcls1.
    + eexists (Raise e), st1, (_ :: t1). split; [done|].
      split; [rewrite Ht1; simpl; by rewrite <- app_assoc|].
      repeat (split; [done|]). split; [by left|done].
    + eexists (Exit code), st1, (_ :: t1). split; [done|].
      split; [rewrite Ht1; simpl; by rewrite <- app_assoc|]. by repeat split.
Qed.

(** A run of [QAFactory.generate] over the objects [objs], summed up. *)
Lemma factory_batch (objs : list nat) (self : QAFactory) (number_of_samples : Z)
    (st : @State W) :
  NoDup objs ->
  Forall (fun gp => fst gp ∈ objs) (generators self) ->
  exists r st' t,
    QAFactory_generate self number_of_samples st = (r, st')
    /\ trace st' = trace st ++ t
    /\ (forall o, cls (heap st' o) = cls (heap st o))
    /\ (forall o, retry_count (heap st o) <= MAX_RETRIES ->
                  retry_count (heap st' o) <= MAX_RETRIES)
    /\ sum_list (map (fun o => retry_count (heap st' o)) objs)
       = sum_list (map (fun o => retry_count (heap st o)) objs)
         + length (announced_attempts t)
    /\ (stops_like_loop (generators self) number_of_samples r
        \/ r = Raise no_such_directory /\ output_folder self = "")
    /\ match r with
       | Ok (samples, full_path) =>
           map tags samples
           = flat_map (fun gp =>
               replicate (planned_count number_of_samples (snd gp))
                         (_get_tags (cls (heap st (fst gp))))) (generators self)
           /\ Forall (fun gp => exists count,
                        num_samples number_of_samples (snd gp) = inr count)
                (generators self)
           /\ exists timestamp,
               full_path = os_path_join (output_folder self)
                             ("qa_generated_" +:+ timestamp +:+ ".json")
       | _ => True
       end.
Proof.
  intros Hnd Hplan.
  unfold QAFactory_generate, QAFactory_generate_with. rewrite traced_run.
  destruct (generators_loop_generate objs number_of_samples (generators self) Hnd Hplan []
              (logged st [span "qa_factory.generate_samples"]))
    as (r1 & st1 & t1 & E1 & Ht1 & Hcls1 & Hle1 & Hsum1 & Hstop1 & Hr1).
  simpl in *. unfold bind at 1. rewrite E1.
  destruct r1 as [all|e|code|]; try done.
  - destruct Hr1 as (new & -> & Htags & Hdef). simpl.
    unfold bind at 1. rewrite save_qa_to_json_run.
    destruct (strftime_now (world st1)) as [timestamp w]. simpl.
    destruct (output_folder self) as [|c folder] eqn:Efolder; simpl.
    { eexists (Raise no_such_directory), _, ([span "qa_factory.generate_samples"] ++ t1).
      split; [reflexivity|].
      split; [simpl; rewrite Ht1; simpl; by rewrite <- !app_assoc|].
      split; [exact Hcls1|]. split; [exact Hle1|].
      split; [simpl; by rewrite Hsum1|]. split; [by right|done]. }
    rewrite bind_log. unfold ret. simpl.
    eexists (Ok (new, _)), _,
      ([span "qa_factory.generate_samples"] ++ t1
         ++ [json_dump new _; print (Saved_samples (length new) _);
             print (Successfully_generated (length new))]).
    split; [reflexivity|].
    split; [simpl; rewrite Ht1; simpl; by rewrite <- !app_assoc|].
    split; [exact Hcls1|]. split; [exact Hle1|].
    split; [simpl; rewrite Hsum1, announced_attempts_app, length_app; simpl; lia|].
    split; [by left|].
    split; [exact Htags|]. split; [exact Hdef|]. by exists timestamp.
  - exists (Raise e), st1, ([span "qa_factory.generate_samples"] ++ t1).
    split; [done|]. split; [rewrite Ht1; by rewrite <- !app_assoc|].
    repeat (split; [done|]). split; [by left|done].
  - exists (Exit code), st1, ([span "qa_factory.generate_samples"] ++ t1).
    split; [done|]. split; [rewrite Ht1; by rewrite <- !app_assoc|].
    repeat (split; [done|]). split; [by left|done].
Qed.

Lemma plan_objects (plan : list (nat * float)) :
  NoDup (remove_dups (map fst plan))
  /\ Forall (fun gp => fst gp ∈ remove_dups (map fst plan)) plan.
Proof.
  split; [apply NoDup_remove_dups|].
  apply Forall_forall. intros gp Hin.
  apply elem_of_remove_dups, list_elem_of_fmap. by exists gp.
Qed.

Lemma remaining_budget (objs : list nat) (before after : nat -> generator_object) (d : nat) :
  Forall (fun o => retry_count (before o) <= MAX_RETRIES) objs ->
  (forall o, retry_count (before o) <= MAX_RETRIES -> retry_count (after o) <= MAX_RETRIES) ->
  sum_list (map (fun o => retry_count (after o)) objs)
  = sum_list (map (fun o => retry_count (before o)) objs) + d ->
  d <= sum_list (map (fun o => MAX_RETRIES - retry_count (before o)) objs).
Proof.
  intros Hbefore Hafter Hsum.
  assert (sum_list (map (fun o => retry_count (after o)) objs)
          <= sum_list (map (fun o => retry_count (before o)) objs)
             + sum_list (map (fun o => MAX_RETRIES - retry_count (before o)) objs)); [|lia].
  clear Hsum. induction Hbefore as [|o objs Ho _ IH]; simpl; [lia|].
  specialize (Hafter o Ho). lia.
Qed.

(** X12: the samples [QAFactory.generate] returns are grouped by plan entry,
    in plan order: entry after entry, [int(number_of_samples * percentage)]
    samples, the product being the binary64 product of the total converted
    to a float and the percentage, that carry the tags of the class of the
    entry's generator (none for an entry whose count is zero or negative).
    This holds for every plan and total, validated or not; in a run that
    returns, [int] has raised for no entry of the plan. *)
Theorem factory_samples_tagged_in_plan_order (self : QAFactory) (number_of_samples : Z)
    (st st' : @State W) (samples : list QATagged) (full_path : string)
    (returned : QAFactory_generate self number_of_samples st
                = (Ok (samples, full_path), st')) :
  Forall (fun gp => exists count, num_samples number_of_samples (snd gp) = inr count)
    (generators self)
  /\ map tags samples
     = flat_map (fun gp =>
         match num_samples number_of_samples (snd gp) with
         | inr count => replicate (Z.to_nat count) (_get_tags (cls (heap st (fst gp))))
         | inl _ => []
         end) (generators self).
Proof.
  destruct (plan_objects (generators self)) as [Hnd Hplan].
  destruct (factory_batch _ self number_of_samples st Hnd Hplan)
    as (r & st1 & t & E & _ & _ & _ & _ & _ & Hr).
  rewrite returned in E. injection E as <- <-.
  destruct Hr as (Htags & Hdef & _). split; [exact Hdef|].
  rewrite Htags. apply flat_map_ext. intros [g p]. unfold planned_count. simpl.
  by destruct (num_samples number_of_samples p).
Qed.

(** X13: the retries of a whole batch come out of the budgets of the
    generator objects, not of the samples: however many samples are asked
    for, [QAFactory.generate] announces at most as many retries as the
    objects of its plan had left when it was called, and it leaves no
    counter above [MAX_RETRIES]. *)
Theorem factory_retry_budget (objs : list nat) (self : QAFactory)
    (number_of_samples : Z) (st : @State W)
    (distinct : NoDup objs)
    (plan_objs : Forall (fun gp => fst gp ∈ objs) (generators self))
    (within : Forall (fun o => retry_count (heap st o) <= MAX_RETRIES) objs) :
  exists r st' t,
    QAFactory_generate self number_of_samples st = (r, st')
    /\ trace st' = trace st ++ t
    /\ length (announced_attempts t)
       <= sum_list (map (fun o => MAX_RETRIES - retry_count (heap st o)) objs)
    /\ Forall (fun o => retry_count (heap st' o) <= MAX_RETRIES) objs.
Proof.
  destruct (factory_batch objs self number_of_samples st distinct plan_objs)
    as (r & st' & t & E & Ht & _ & Hle & Hsum & _ & _).
  exists r, st', t. split; [exact E|]. split; [exact Ht|]. split.
  - by apply (remaining_budget objs (heap st) (heap st')).
  - eapply Forall_impl; [exact within|]. intros o Ho. by apply Hle.
Qed.

End FactoryBatches.

(** ** Empty requests and the script *)

Section FactoryEdges.

Context {W : Type} `{!SearchService W, !LLMClient W, !Entropy W}.

Lemma factory_span_is_no_generate_span (c : generator_class) :
  is_generate_span (span ("qa_factory.generator_" +:+ class_name c)) = false
  /\ is_json_dump (span ("qa_factory.generator_" +:+ class_name c)) = false
  /\ is_pbar_update (span ("qa_factory.generator_" +:+ class_name c)) = false.
Proof. by destruct c. Qed.

Lemma generators_loop_nothing (generate_method : nat -> @M W QATagged)
    (plan : list (nat * float)) :
  Forall (fun gp => percentage_in_range (snd gp) = true) plan ->
  forall (samples : list QATagged) (st : @State W),
    generators_loop generate_method plan 0 samples st = (Ok samples, st).
Proof.
  intros Hplan.
  induction Hplan as [|[g p] plan Hp _ IH]; intros samples st; simpl; [done|].
  simpl in Hp. rewrite (num_samples_zero p) by (by apply in_range_finite).
  simpl. apply IH.
Qed.


(** The script up to the call of [factory.generate(6)]: both constructors
    have run and the plan has passed the validation. *)
Lemma main_run (single_hop multi_hop : nat) (st : @State W) :
  main single_hop multi_hop st
  = QAFactory_generate
      (mkQAFactory [(single_hop, 0.5%float); (multi_hop, 0.5%float)] "data/q-a") 6
      (mkState
         (<[multi_hop := mkGenerator MultiHopOneDocGenerator (mkConfig 2 0.8 3) 0]>
            (<[single_hop := mkGenerator SingleHopOneDocGenerator (mkConfig 2 0.8 3) 0]>
               (heap st)))
         (world st) (trace st)).
Proof. reflexivity. Qed.


End FactoryEdges.

(** ** The numbering of the retries *)

Section AttemptNumbers.

Context {W : Type} `{!SearchService W, !LLMClient W, !Entropy W}.

Lemma generate_announced (n : nat) :
  forall (self : nat) (st : @State W),
    MAX_RETRIES - retry_count (heap st self) <= n ->
    exists t,
      trace (snd (generate self st)) = trace st ++ t
      /\ announced_attempts t
         = seq (S (retry_count (heap st self))) (length (announced_attempts t)).
Proof.
  induction n as [|n IH]; intros self st Hn;
    rewrite generate_attempt;
    destruct (attempt_any self st)
      as (st1 & t & Hh & Ht & Hi & [E | [(e & E & He) | (qt & v & E & _)]]);
    unfold bind; rewrite E; simpl.
  all: try (exists (span "generator.generate" :: t); split; [done|];
            simpl; by rewrite (announced_attempts_inner t)).
  - rewrite retry_logic_exits by (rewrite Hh; lia). simpl.
    exists (span "generator.generate" :: t
              ++ [span "generator.retry_logic"; print Max_retries_reached]).
    split; [trace_eq|]. simpl.
    by rewrite announced_attempts_app, (announced_attempts_inner t).
  - destruct (decide (retry_count (heap st1 self) < MAX_RETRIES)) as [Hlt|Hge].
    + rewrite retry_logic_retries by done.
      destruct (IH self (retried self st1)) as (t' & Ht' & Hseq).
      { rewrite retried_retry_count, Hh. lia. }
      rewrite retried_retry_count, Hh in Hseq.
      exists ((span "generator.generate" :: t
                 ++ [span "generator.retry_logic"; print Generation_failed_retrying;
                     print (Retrying_Attempt (retry_count (heap st self) + 1))])
                ++ t').
      split.
      * rewrite Ht'. unfold retried. simpl. rewrite Hh. trace_eq.
      * rewrite announced_attempts_app. simpl.
        rewrite announced_attempts_app, (announced_attempts_inner t) by done.
        change (announced_attempts
                  [span "generator.retry_logic"; print Generation_failed_retrying;
                   print (Retrying_Attempt (retry_count (heap st self) + 1))])
          with [retry_count (heap st self) + 1].
        cbn [app length]. rewrite Nat.add_1_r in *. simpl. by rewrite <- Hseq.
    + rewrite retry_logic_exits by lia. simpl.
      exists (span "generator.generate" :: t
                ++ [span "generator.retry_logic"; print Max_retries_reached]).
      split; [trace_eq|]. simpl.
      by rewrite announced_attempts_app, (announced_attempts_inner t).
Qed.

(** X16: the lines "Retrying... Attempt n" of a call of [generate] are
    numbered consecutively from the counter of the object: a call that
    finds the counter at [c] and leaves it at [c'] announces exactly the
    attempts [c + 1], ..., [c'].  A generator that has retried before
    therefore does not start again at "Attempt 1". *)
Theorem generate_numbers_attempts_from_counter (self : nat) (st : @State W) :
  exists r st' t,
    generate self st = (r, st')
    /\ trace st' = trace st ++ t
    /\ retry_count (heap st self) <= retry_count (heap st' self)
    /\ announced_attempts t
       = seq (S (retry_count (heap st self)))
             (retry_count (heap st' self) - retry_count (heap st self)).
Proof.
  destruct (generate_call self st) as (r & st' & t & E & Ht & _ & _ & Hc & _).
  destruct (generate_announced (MAX_RETRIES - retry_count (heap st self)) self st)
    as (t2 & Ht2 & Hseq); [lia|].
  rewrite E in Ht2. simpl in Ht2.
  assert (t2 = t) as -> by (apply (app_inv_head (trace st)); congruence).
  exists r, st', t. split; [exact E|]. split; [exact Ht|]. split; [lia|].
  rewrite Hc. by replace (retry_count (heap st self) + length (announced_attempts t)
                          - retry_count (heap st self))
                with (length (announced_attempts t)) by lia.
Qed.

End AttemptNumbers.

(** ** Validation errors and weights *)

Section ValidationErrors.

Context {W : Type} `{!SearchService W, !LLMClient W, !Entropy W}.

Lemma first_out_of_range_some (plan : list (nat * float)) (percentage : float) :
  first_out_of_range plan = Some percentage ->
  exists before generator after,
    plan = before ++ (generator, percentage) :: after
    /\ Forall (fun gp => percentage_in_range (snd gp) = true) before
    /\ percentage_in_range percentage = false.
Proof.
  induction plan as [|[g p] plan IH]; simpl; [done|].
  destruct (percentage_in_range p) eqn:Hp.
  - intros (before & g' & after & -> & Hbefore & Hout)%IH.
    exists ((g, p) :: before), g', after. split; [done|]. split; [|done].
    by apply Forall_cons_2.
  - intros [= <-]. by exists [], g, plan.
Qed.


End ValidationErrors.

Section Weights.

Local Open Scope Q_scope.

Lemma py_sum_scaled (frequencies : list Q) (total : Q) :
  py_sum (map (fun f => f / total) frequencies) == py_sum frequencies / total.
Proof.
  induction frequencies as [|f frequencies IH].
  - unfold py_sum. simpl. unfold Qdiv. ring.
  - cbn [map]. rewrite !py_sum_cons, IH. unfold Qdiv. ring.
Qed.

Lemma py_sum_nonneg (frequencies : list Q) :
  Forall (fun f => 0 <= f) frequencies -> 0 <= py_sum frequencies.
Proof.
  induction 1 as [|f frequencies Hf _ IH]; [by unfold py_sum|].
  rewrite py_sum_cons. lra.
Qed.

Lemma py_sum_upper (frequencies : list Q) :
  Forall (fun f => 0 <= f) frequencies ->
  Forall (fun f => f <= py_sum frequencies) frequencies.
Proof.
  induction 1 as [|f frequencies Hf Hall IH]; [done|].
  pose proof (py_sum_nonneg frequencies Hall) as Hsum.
  apply Forall_cons_2.
  - rewrite py_sum_cons. lra.
  - eapply Forall_impl; [exact IH|]. intros g Hg. simpl in Hg.
    rewrite py_sum_cons. lra.
Qed.

(** X18: the weights handed to [np.random.choice].  For frequencies that
    are not negative and have a positive sum, [frequencies / sum] has one
    weight per frequency, every weight lies in [0, 1], and the weights sum
    to 1 (as rationals). *)
Theorem normalized_is_distribution (frequencies : list Q)
    (not_negative : Forall (fun f => 0 <= f) frequencies)
    (positive : 0 < py_sum frequencies) :
  length (normalized frequencies) = length frequencies
  /\ Forall (fun p => 0 <= p /\ p <= 1) (normalized frequencies)
  /\ py_sum (normalized frequencies) == 1.
Proof.
  unfold normalized. split; [by rewrite length_map|]. split.
  - apply Forall_map.
    pose proof (py_sum_upper frequencies not_negative) as Hupper.
    apply Forall_forall. intros f Hin.
    pose proof (proj1 (Forall_forall _ _) not_negative f Hin) as Hf.
    pose proof (proj1 (Forall_forall _ _) Hupper f Hin) as Hle.
    simpl in *. split.
    + apply Qle_shift_div_l; [done|]. lra.
    + apply Qle_shift_div_r; [done|]. lra.
  - rewrite py_sum_scaled. field. lra.
Qed.

End Weights.

(** ** Further runs on the scripted world *)

Module MoreExamples.

Import Mock.

(** The two fragments of document A, which share the title T. *)
Lemma build_context_one_document_witness :
  @build_context_pure script search (take 2 doc_chunks)
  = inr (String.concat (newline +:+ newline)
           ["Document Title: T";
            "CHUNK_ID: a0" +:+ newline +:+ "Content: first";
            "CHUNK_ID: a1" +:+ newline +:+ "Content: second"]).
Proof.
  apply (@build_context_one_document script search "T" (take 2 doc_chunks)).
  - simpl. discriminate.
  - simpl. repeat constructor.
Defined.

Lemma verify_qa_no_chunks_witness :
  @_verify_qa script search scripted_llm SingleHopOneDocGenerator unknown_qa
    (start fee_world)
  = (Ok (mkVerification false
           ("Answer '$500' not found in specified chunks. "
            +:+ "Detailed reason: No chunks found for the given chunk IDs")),
     mkState main_heap fee_world
       [span "generator.verify_qa"; span "generator.verify_chunk_connection"]).
Proof.
  apply (@verify_qa_no_chunks script search scripted_llm SingleHopOneDocGenerator
           unknown_qa (start fee_world) fee_world).
  vm_compute. reflexivity.
Defined.

Lemma requires_multi_hop_no_chunks_witness :
  @_verify_qa_question_requires_multi_hop script search scripted_llm unknown_qa
    (start fee_world)
  = (Ok (mkVerification false "Error building context"),
     mkState main_heap fee_world
       [span "generator.verify_qa_question_requires_multi_hop";
        span "generator._build_context";
        print (Error_building_context no_search_results)]).
Proof.
  apply (@requires_multi_hop_no_chunks script search scripted_llm unknown_qa
           (start fee_world) fee_world).
  vm_compute. reflexivity.
Defined.

Lemma answer_not_in_other_chunks_no_results_witness :
  @_verify_qa_answer_not_in_other_chunks script search scripted_llm fee_qa
    (start fee_world)
  = (Ok (mkVerification true "No other relevant chunks found with similar content"),
     mkState main_heap fee_world [span "generator.verify_answer_uniqueness"]).
Proof.
  apply (@answer_not_in_other_chunks_no_results script search scripted_llm fee_qa
           (start fee_world) fee_world).
  vm_compute. reflexivity.
Defined.

Lemma chunk_connection_judges_fetched_context_witness :
  @_verify_qa_chunk_connection script search scripted_llm fee_qa (start fee_world)
  = (Ok (mkVerification true "stated in c1"),
     mkState main_heap (snd fee_judgement)
       [span "generator.verify_chunk_connection";
        span "generator._build_context"; span "generator.openai.chat"]).
Proof.
  apply (@chunk_connection_judges_fetched_context script search scripted_llm fee_qa
           (start fee_world) [fee_chunk] fee_world (snd fee_judgement)
           (mkVerification true "stated in c1")).
  - vm_compute. reflexivity.
  - discriminate.
  - vm_compute. reflexivity.
Defined.

Lemma unparsed_completion_raises_witness :
  @generate script search scripted_llm entropy 0 (start unparsed_world)
  = (Raise none_has_no_question, snd (drafted scripted_llm unparsed_world))
  /\ heap (snd (drafted scripted_llm unparsed_world)) = heap (start unparsed_world).
Proof.
  destruct (@unparsed_completion_raises script search scripted_llm entropy
              0 (start unparsed_world)
              (seeded_chunks scripted_llm unparsed_world)
              (snd (seeded scripted_llm unparsed_world))
              (built_context scripted_llm unparsed_world)
              (fst (drafted_pair scripted_llm unparsed_world))
              (snd (drafted_pair scripted_llm unparsed_world))
              (snd (drafted scripted_llm unparsed_world)))
    as (Hrun & Hheap & _).
  - vm_compute. reflexivity.
  - vm_compute. reflexivity.
  - vm_compute. reflexivity.
  - vm_compute. reflexivity.
  - vm_compute. reflexivity.
  - split; [exact Hrun|exact Hheap].
Defined.

(** The batch of [main.py]: three single-hop samples, then three multi-hop
    samples. *)
Lemma factory_samples_tagged_in_plan_order_witness :
  map tags (fst (ok_or ([], "") (fst main_batch)))
  = replicate 3 (_get_tags SingleHopOneDocGenerator)
    ++ replicate 3 (_get_tags MultiHopOneDocGenerator).
Proof.
  destruct (@factory_samples_tagged_in_plan_order script search (accepting_llm fee_qa)
              entropy (mkQAFactory main_plan "data/q-a") 6 (start fee_world)
              (snd main_batch)
              (fst (ok_or ([], "") (fst main_batch)))
              (snd (ok_or ([], "") (fst main_batch)))) as [_ Htags].
  - vm_compute. reflexivity.
  - exact Htags.
Defined.

Lemma factory_retry_budget_witness :
  exists r st' t,
    main_batch = (r, st')
    /\ trace st' = trace (start fee_world) ++ t
    /\ length (announced_attempts t) <= 20
    /\ Forall (fun o => retry_count (heap st' o) <= MAX_RETRIES) [0; 1].
Proof.
  apply (@factory_retry_budget script search (accepting_llm fee_qa) entropy
           [0; 1] (mkQAFactory main_plan "data/q-a") 6 (start fee_world)).
  - repeat constructor; vm_compute; intros H; inversion H; subst;
      match goal with H' : _ ∈ [] |- _ => inversion H' end.
  - repeat constructor.
  - repeat constructor; vm_compute; lia.
Defined.




(** The frequencies of the tones. *)
Lemma normalized_is_distribution_witness :
  length (normalized (map snd tones)) = 4
  /\ (py_sum (normalized (map snd tones)) == 1)%Q.
Proof.
  destruct (normalized_is_distribution (map snd tones)) as (Hlen & _ & Hsum).
  - repeat constructor; vm_compute; discriminate.
  - vm_compute. reflexivity.
  - split; [exact Hlen|exact Hsum].
Defined.

End MoreExamples.
